(** * venue2playlist: record filters and track-selection strategies

    A shallow embedding of

      - [venue2playlist/models.py]              (Performance, ExcludedItem, Track)
      - [venue2playlist/filters/__init__.py]    (FilterResult, FilterChain)
      - [venue2playlist/filters/confidence.py]  (ConfidenceFilter)
      - [venue2playlist/filters/date_range.py]  (DateRangeFilter)
      - [venue2playlist/filters/field.py]       (FieldFilter)
      - [venue2playlist/spotify/strategies.py]  (the four strategies, get_strategy)

    followed by the properties the specification states about them.

    Conventions of the embedding.
      - A Python [float] is represented by its exact rational value in [Q]
        (NaN and the infinities are rejected by the validation the code
        performs before a float reaches a comparison).  The era scores are
        floats with integer values and are held in [Z].
      - A Python [int] is a [Z]; a [str] is a [string] of ASCII characters.
      - A dictionary read at fixed keys (a catalog track) is a record whose
        optional keys are [option]s; the open metadata dictionary of a
        performance is a [gmap] from keys to values, a value being [None], a
        boolean, a number, a string, or a list of these.
      - Code that can raise returns a [Py.result]; [Raise e] is the exception.
      - A loop that appends to a list is a [fold_left] over the input.
      - [random.sample] and the renderings [str(float)] and [repr(str)] are
        the interpreter's; they enter as interfaces ([Random.Source],
        [Py.Repr]).
      - Calls of the logger are left out where nothing is claimed about them;
        the warning of [get_strategy] is kept. *)

From Stdlib Require Import ZArith QArith List String Ascii Bool Lia.
From Stdlib Require Import Permutation Sorted DecimalString.
From stdpp Require Import base gmap strings.
Import ListNotations.

Local Open Scope string_scope.
Local Open Scope list_scope.

(** ** Python built-ins used by the program *)

Module Py.

(** The exceptions the modelled code can raise. *)
Inductive exn : Type :=
  | KeyError (key : string)
  | IndexError
  | ValueError (msg : string)
  | OverflowError
  | ValidationError (field : string).

Inductive result (A : Type) : Type :=
  | Ok (a : A)
  | Raise (e : exn).
Arguments Ok {A} a.
Arguments Raise {A} e.

Definition bind {A B : Type} (m : result A) (k : A -> result B) : result B :=
  match m with
  | Ok a => k a
  | Raise e => Raise e
  end.

(** [[f(x) for x in l]] when [f] can raise: the first exception escapes. *)
Fixpoint mapM {A B : Type} (f : A -> result B) (l : list A) : result (list B) :=
  match l with
  | [] => Ok []
  | x :: l' =>
      bind (f x) (fun y => bind (mapM f l') (fun ys => Ok (y :: ys)))
  end.

(** [[f(i, x) for i, x in enumerate(l)]], counting from [i]. *)
Fixpoint mapM_enum {A B : Type} (f : Z -> A -> result B) (i : Z) (l : list A)
  : result (list B) :=
  match l with
  | [] => Ok []
  | x :: l' =>
      bind (f i x) (fun y => bind (mapM_enum f (i + 1)%Z l') (fun ys => Ok (y :: ys)))
  end.

(** *** Slices and lengths *)

Definition len {A : Type} (l : list A) : Z := Z.of_nat (length l).

(** [l[:n]]: the first [n] items, or all but the last [-n] when [n < 0]. *)
Definition slice_to {A : Type} (l : list A) (n : Z) : list A :=
  if (0 <=? n)%Z then firstn (Z.to_nat n) l
  else firstn (length l - Z.to_nat (- n)) l.

(** *** Stable sorting

    [sorted(l, key=k)] and [l.sort(key=k, reverse=True)] are stable: items
    with equal keys keep their input order, also under [reverse=True].  The
    result of a stable sort is determined by the input, so insertion from the
    right computes it. *)

Fixpoint insert_asc {A : Type} (key : A -> Z) (x : A) (l : list A) : list A :=
  match l with
  | [] => [x]
  | y :: l' =>
      if (key y <? key x)%Z then y :: insert_asc key x l' else x :: y :: l'
  end.

Definition sorted_asc {A : Type} (key : A -> Z) (l : list A) : list A :=
  fold_right (insert_asc key) [] l.

Fixpoint insert_desc {A : Type} (key : A -> Z) (x : A) (l : list A) : list A :=
  match l with
  | [] => [x]
  | y :: l' =>
      if (key x <? key y)%Z then y :: insert_desc key x l' else x :: y :: l'
  end.

Definition sorted_desc {A : Type} (key : A -> Z) (l : list A) : list A :=
  fold_right (insert_desc key) [] l.

(** *** Strings *)

Definition code (c : ascii) : nat := nat_of_ascii c.

Definition lower_char (c : ascii) : ascii :=
  if (65 <=? code c)%nat && (code c <=? 90)%nat
  then ascii_of_nat (code c + 32) else c.

(** [s.lower()] *)
Fixpoint lower (s : string) : string :=
  match s with
  | EmptyString => EmptyString
  | String c s' => String (lower_char c) (lower s')
  end.

(** [c in s] for a one-character [c] *)
Fixpoint contains (c : ascii) (s : string) : bool :=
  match s with
  | EmptyString => false
  | String d s' => Ascii.eqb d c || contains c s'
  end.

(** [s.split(sep)] for a one-character separator; never the empty list. *)
Fixpoint split (sep : ascii) (s : string) : list string :=
  match s with
  | EmptyString => [EmptyString]
  | String c s' =>
      if Ascii.eqb c sep then EmptyString :: split sep s'
      else match split sep s' with
           | h :: t => String c h :: t
           | [] => [String c EmptyString]
           end
  end.

(** [sep.join(l)] *)
Definition join (sep : string) (l : list string) : string := String.concat sep l.

Definition is_digit (c : ascii) : bool :=
  (48 <=? code c)%nat && (code c <=? 57)%nat.

Definition digit_value (c : ascii) : Z := Z.of_nat (code c - 48).

(** [s.isdigit()] *)
Definition isdigit (s : string) : bool :=
  match list_ascii_of_string s with
  | [] => false
  | l => forallb is_digit l
  end.

(** White space skipped by [int()] at both ends of its argument. *)
Definition is_space (c : ascii) : bool :=
  ((9 <=? code c)%nat && (code c <=? 13)%nat) || (code c =? 32)%nat.

Fixpoint lstrip (l : list ascii) : list ascii :=
  match l with
  | c :: l' => if is_space c then lstrip l' else l
  | [] => []
  end.

Definition strip (l : list ascii) : list ascii := rev (lstrip (rev (lstrip l))).

(** Digits with single underscores between them; returns the value and the
    number of digits. *)
Fixpoint digits (acc : Z) (n : nat) (after_digit : bool) (l : list ascii)
  : option (Z * nat) :=
  match l with
  | [] => if after_digit then Some (acc, n) else None
  | c :: l' =>
      if is_digit c then digits (10 * acc + digit_value c)%Z (S n) true l'
      else if Ascii.eqb c "_" then
             (if after_digit then digits acc n false l' else None)
           else None
  end.

(** The default limit on the number of digits [int()] converts. *)
Definition int_max_str_digits : nat := 4300.

(** [int(s)]: [None] stands for the [ValueError] it raises. *)
Definition int (s : string) : option Z :=
  let l := strip (list_ascii_of_string s) in
  let '(sign, body) :=
    match l with
    | "+"%char :: r => (1%Z, r)
    | "-"%char :: r => ((-1)%Z, r)
    | _ => (1%Z, l)
    end in
  match digits 0 0 false body with
  | Some (v, n) => if (n <=? int_max_str_digits)%nat then Some (sign * v)%Z else None
  | None => None
  end.

(** [str(n)] for an [int] *)
Definition str_int (z : Z) : string := NilZero.string_of_int (Z.to_int z).

(** Left padding with zeros, as [%0wd] does for a nonnegative number. *)
Fixpoint zeros (n : nat) : string :=
  match n with
  | O => EmptyString
  | S n' => String "0" (zeros n')
  end.

Definition zfill (w : nat) (s : string) : string :=
  zeros (w - String.length s) ++ s.

(** *** Floats, by their exact value *)

(** Nearest integer to [a / b] for [b > 0], ties to the even one. *)
Definition round_half_even (a b : Z) : Z :=
  let q := (a / b)%Z in
  let r := (a mod b)%Z in
  match (2 * r ?= b)%Z with
  | Lt => q
  | Gt => (q + 1)%Z
  | Eq => if Z.even q then q else (q + 1)%Z
  end.

(** [f"{x:.2f}"]: correctly rounded to two decimals. *)
Definition format_2f (x : Q) : string :=
  let a := (Z.abs (Qnum x) * 100)%Z in
  let n := round_half_even a (Zpos (Qden x)) in
  (if (Qnum x <? 0)%Z then "-" else "")
    ++ str_int (n / 100) ++ "." ++ zfill 2 (str_int (n mod 100)).

(** The largest magnitude an [int] may have to convert to a [float]:
    from [2^1024 - 2^970] on the conversion raises [OverflowError]. *)
Definition float_overflow : Z := (2 ^ 1024 - 2 ^ 970)%Z.

(** *** datetime.date *)

Record date : Type := mkdate { year : Z; month : Z; day : Z }.

(** [a <= b] on dates: by year, then month, then day. *)
Definition date_le (a b : date) : bool :=
  if (year a <? year b)%Z then true
  else if (year b <? year a)%Z then false
  else if (month a <? month b)%Z then true
  else if (month b <? month a)%Z then false
  else (day a <=? day b)%Z.

Definition is_leap (y : Z) : bool :=
  ((y mod 4 =? 0)%Z && negb (y mod 100 =? 0)%Z) || (y mod 400 =? 0)%Z.

Definition days_in_month (y m : Z) : Z :=
  if (m =? 2)%Z then (if is_leap y then 29 else 28)%Z
  else if (m =? 4)%Z || (m =? 6)%Z || (m =? 9)%Z || (m =? 11)%Z then 30%Z
  else 31%Z.

Definition fits_c_int (z : Z) : bool :=
  (- 2 ^ 31 <=? z)%Z && (z <? 2 ^ 31)%Z.

(** [date(y, m, d)]: [OverflowError] for an argument that is no C int,
    [ValueError] for a date that does not exist. *)
Definition date_new (y m d : Z) : result date :=
  if negb (fits_c_int y && fits_c_int m && fits_c_int d) then Raise OverflowError
  else if negb ((1 <=? y)%Z && (y <=? 9999)%Z) then Raise (ValueError "year is out of range")
  else if negb ((1 <=? m)%Z && (m <=? 12)%Z) then Raise (ValueError "month must be in 1..12")
  else if negb ((1 <=? d)%Z && (d <=? days_in_month y m)%Z)
       then Raise (ValueError "day is out of range for month")
  else Ok (mkdate y m d).

(** [str(d)], the ISO form *)
Definition str_date (d : date) : string :=
  zfill 4 (str_int (year d)) ++ "-" ++ zfill 2 (str_int (month d))
    ++ "-" ++ zfill 2 (str_int (day d)).

(** [repr(d)] *)
Definition repr_date (d : date) : string :=
  "datetime.date(" ++ str_int (year d) ++ ", " ++ str_int (month d)
    ++ ", " ++ str_int (day d) ++ ")".

(** *** str() and repr() of floats and strings

    The shortest round-trip rendering of a float and the quoting of a string
    by [repr] belong to the interpreter; they enter as the two functions of
    this interface. *)
Class Repr : Type := {
  str_float : Q -> string;
  repr_str : string -> string
}.

End Py.


(** ** models.py *)

(** The values a metadata dictionary holds: [None], booleans, numbers and
    strings, and lists of these. *)
Inductive scalar : Type :=
| SNone
| SBool (b : bool)
| SInt (z : Z)
| SFloat (q : Q)
| SStr (s : string).

Inductive value : Type :=
| VScalar (x : scalar)
| VList (l : list scalar).

Module Value.

(** The number a numeric scalar stands for ([True] is 1, [False] is 0). *)
Definition number (x : scalar) : option Q :=
  match x with
  | SBool b => Some (if b then 1%Q else 0%Q)
  | SInt z => Some (inject_Z z)
  | SFloat q => Some q
  | SNone | SStr _ => None
  end.

(** [x == y] *)
Definition eqb (x y : scalar) : bool :=
  match x, y with
  | SNone, SNone => true
  | SStr s, SStr t => String.eqb s t
  | _, _ =>
      match number x, number y with
      | Some p, Some q => Qeq_bool p q
      | _, _ => false
      end
  end.

(** [x in s] for a set [s], given by its elements *)
Definition mem (x : scalar) (s : list scalar) : bool := existsb (eqb x) s.

Section Str.
Context `{Py.Repr}.

(** [str(x)] *)
Definition str_scalar (x : scalar) : string :=
  match x with
  | SNone => "None"
  | SBool b => if b then "True" else "False"
  | SInt z => Py.str_int z
  | SFloat q => Py.str_float q
  | SStr s => s
  end.

(** [repr(x)] *)
Definition repr_scalar (x : scalar) : string :=
  match x with
  | SStr s => Py.repr_str s
  | _ => str_scalar x
  end.

Definition str (v : value) : string :=
  match v with
  | VScalar x => str_scalar x
  | VList l => "[" ++ Py.join ", " (map repr_scalar l) ++ "]"
  end.
End Str.

End Value.

Module Performance.

Record t : Type := mk {
  artist_name : string;
  venue_name : string;
  city : string;
  country : option string;
  performance_date : option Py.date;
  performance_date_range : option (Py.date * Py.date);
  source_name : string;
  source_reference : string;
  confidence_score : Q;
  metadata : gmap string value
}.

Definition has_valid_date (self : t) : bool :=
  match performance_date self, performance_date_range self with
  | None, None => false
  | _, _ => true
  end.

Definition overlaps_range (self : t) (start end_ : Py.date) : bool :=
  match performance_date self with
  | Some d => Py.date_le start d && Py.date_le d end_
  | None =>
      match performance_date_range self with
      | Some (perf_start, perf_end) =>
          Py.date_le perf_start end_ && Py.date_le start perf_end
      | None => false
      end
  end.

End Performance.

Module ExcludedItem.

Record t : Type := mk {
  item_type : string;
  name : string;
  reason : string;
  filter_name : option string
}.

End ExcludedItem.

Module Track.

Record t : Type := mk {
  spotify_id : string;
  name : string;
  artist_name : string;
  album_name : string;
  release_date : option Py.date;
  popularity : Z;
  selection_strategy : string;
  selection_reason : string
}.

(** The constraint [popularity: int = Field(ge=0, le=100)], checked when a
    [Track] is built. *)
Definition new (spotify_id name artist_name album_name : string)
    (release_date : option Py.date) (popularity : Z)
    (selection_strategy selection_reason : string) : Py.result t :=
  if (0 <=? popularity)%Z && (popularity <=? 100)%Z
  then Py.Ok (mk spotify_id name artist_name album_name release_date popularity
                 selection_strategy selection_reason)
  else Py.Raise (Py.ValidationError "popularity").

End Track.

(** ** filters/__init__.py *)

Module FilterResult.

Record t : Type := mk {
  included : list Performance.t;
  excluded : list ExcludedItem.t
}.

End FilterResult.

(** The [Filter] protocol: an object with a [name] and an [apply]. *)
Module Filter.

Record t : Type := mk {
  name : string;
  apply : list Performance.t -> FilterResult.t
}.

End Filter.

(** The name every filter gives the items it excludes. *)
Definition perf_label (perf : Performance.t) : string :=
  Performance.artist_name perf ++ " @ " ++ Performance.venue_name perf.

Module FilterChain.

Definition t : Type := list Filter.t.

Definition __init__ : t := [].

Definition add (self : t) (filter : Filter.t) : t := self ++ [filter].

Definition apply (self : t) (performances : list Performance.t) : FilterResult.t :=
  let '(current, all_excluded) :=
    fold_left
      (fun '(current, all_excluded) filter =>
         let result := Filter.apply filter current in
         (FilterResult.included result,
          all_excluded ++ FilterResult.excluded result))
      self (performances, []) in
  FilterResult.mk current all_excluded.

Definition filters (self : t) : list Filter.t := self.

End FilterChain.

(** ** filters/confidence.py *)

Module ConfidenceFilter.

Record t : Type := mk { min_confidence : Q }.

Definition default_min_confidence : Q := 1 # 2.

Definition __init__ (min_confidence : Q) : Py.result t :=
  if negb (Qle_bool 0 min_confidence && Qle_bool min_confidence 1)
  then Py.Raise (Py.ValueError "min_confidence must be between 0.0 and 1.0")
  else Py.Ok (mk min_confidence).

Section Methods.
Context `{Py.Repr}.

Definition name (self : t) : string :=
  "confidence(>=" ++ Py.str_float (min_confidence self) ++ ")".

Definition exclusion (self : t) (perf : Performance.t) : ExcludedItem.t :=
  ExcludedItem.mk "performance" (perf_label perf)
    ("Confidence " ++ Py.format_2f (Performance.confidence_score perf)
       ++ " below threshold " ++ Py.str_float (min_confidence self))
    (Some (name self)).

Definition apply (self : t) (performances : list Performance.t) : FilterResult.t :=
  let '(included, excluded) :=
    fold_left
      (fun '(included, excluded) perf =>
         if Qle_bool (min_confidence self) (Performance.confidence_score perf)
         then (included ++ [perf], excluded)
         else (included, excluded ++ [exclusion self perf]))
      performances ([], []) in
  FilterResult.mk included excluded.

Definition as_filter (self : t) : Filter.t := Filter.mk (name self) (apply self).
End Methods.

(** The test the loop of [apply] makes on a record. *)
Definition keeps (self : t) (perf : Performance.t) : bool :=
  Qle_bool (min_confidence self) (Performance.confidence_score perf).

End ConfidenceFilter.

(** ** filters/date_range.py *)

Module DateRangeFilter.

Record t : Type := mk { start_date : Py.date; end_date : Py.date }.

Definition __init__ (start_date end_date : Py.date) : t := mk start_date end_date.

Definition name (self : t) : string :=
  "date_range(" ++ Py.str_date (start_date self) ++ ":"
    ++ Py.str_date (end_date self) ++ ")".

Definition missing_date (self : t) (perf : Performance.t) : ExcludedItem.t :=
  ExcludedItem.mk "performance" (perf_label perf)
    "No temporal evidence (missing date)" (Some (name self)).

(** [str(perf.performance_date or perf.performance_date_range)] *)
Definition date_str (perf : Performance.t) : string :=
  match Performance.performance_date perf with
  | Some d => Py.str_date d
  | None =>
      match Performance.performance_date_range perf with
      | Some (a, b) => "(" ++ Py.repr_date a ++ ", " ++ Py.repr_date b ++ ")"
      | None => "None"
      end
  end.

Definition outside (self : t) (perf : Performance.t) : ExcludedItem.t :=
  ExcludedItem.mk "performance" (perf_label perf)
    ("Date " ++ date_str perf ++ " outside range "
       ++ Py.str_date (start_date self) ++ " to " ++ Py.str_date (end_date self))
    (Some (name self)).

Definition apply (self : t) (performances : list Performance.t) : FilterResult.t :=
  let '(included, excluded) :=
    fold_left
      (fun '(included, excluded) perf =>
         if negb (Performance.has_valid_date perf)
         then (included, excluded ++ [missing_date self perf])
         else if Performance.overlaps_range perf (start_date self) (end_date self)
         then (included ++ [perf], excluded)
         else (included, excluded ++ [outside self perf]))
      performances ([], []) in
  FilterResult.mk included excluded.

Definition as_filter (self : t) : Filter.t := Filter.mk (name self) (apply self).

(** The branches of the loop of [apply]: whether a record is kept, and the
    item appended for one that is not. *)
Definition keeps (self : t) (perf : Performance.t) : bool :=
  Performance.has_valid_date perf
  && Performance.overlaps_range perf (start_date self) (end_date self).

Definition exclusion (self : t) (perf : Performance.t) : ExcludedItem.t :=
  if negb (Performance.has_valid_date perf) then missing_date self perf
  else outside self perf.

End DateRangeFilter.

(** ** filters/field.py *)

Module FieldFilter.

Record t : Type := mk {
  field : string;
  allowed_values : list scalar;
  case_insensitive : bool;
  include_missing : bool;
  _normalized_allowed : list scalar
}.

Definition lower_if_str (v : scalar) : scalar :=
  match v with
  | SStr s => SStr (Py.lower s)
  | _ => v
  end.

Definition __init__ (field : string) (allowed_values : list scalar)
    (case_insensitive include_missing : bool) : t :=
  mk field allowed_values case_insensitive include_missing
     (if case_insensitive then map lower_if_str allowed_values else allowed_values).

Definition default_case_insensitive : bool := true.
Definition default_include_missing : bool := false.

Definition _normalize_value (self : t) (v : scalar) : scalar :=
  if case_insensitive self then lower_if_str v else v.

Definition _matches (self : t) (v : value) : bool :=
  match v with
  | VList l =>
      existsb (fun x => Value.mem (_normalize_value self x) (_normalized_allowed self)) l
  | VScalar x => Value.mem (_normalize_value self x) (_normalized_allowed self)
  end.

(** [perf.metadata.get(self.field)], with [None] for a missing key and for a
    key that holds [None]. *)
Definition field_value (self : t) (perf : Performance.t) : option value :=
  match Performance.metadata perf !! field self with
  | None | Some (VScalar SNone) => None
  | Some v => Some v
  end.

Section Methods.
Context `{Py.Repr}.

(** [sorted(self.allowed_values, key=str)], then [str] of each *)
Definition sorted_values (self : t) : list string :=
  fold_right
    (fun v acc =>
       (fix ins (l : list string) : list string :=
          match l with
          | [] => [v]
          | y :: l' => if String.ltb y v then y :: ins l' else v :: y :: l'
          end) acc)
    [] (map Value.str_scalar (allowed_values self)).

Definition name (self : t) : string :=
  "field(" ++ field self ++ "={" ++ Py.join "," (sorted_values self) ++ "})".

Definition missing (self : t) (perf : Performance.t) : ExcludedItem.t :=
  ExcludedItem.mk "performance" (perf_label perf)
    ("Missing metadata field '" ++ field self ++ "'") (Some (name self)).

Definition not_allowed (self : t) (perf : Performance.t) (v : value)
  : ExcludedItem.t :=
  ExcludedItem.mk "performance" (perf_label perf)
    ("Field '" ++ field self ++ "' value '" ++ Value.str v
       ++ "' not in allowed values")
    (Some (name self)).

Definition apply (self : t) (performances : list Performance.t) : FilterResult.t :=
  let '(included, excluded) :=
    fold_left
      (fun '(included, excluded) perf =>
         match field_value self perf with
         | None =>
             if include_missing self then (included ++ [perf], excluded)
             else (included, excluded ++ [missing self perf])
         | Some v =>
             if _matches self v then (included ++ [perf], excluded)
             else (included, excluded ++ [not_allowed self perf v])
         end)
      performances ([], []) in
  FilterResult.mk included excluded.

Definition as_filter (self : t) : Filter.t := Filter.mk (name self) (apply self).

(** The item the loop of [apply] appends for a record it does not keep. *)
Definition exclusion (self : t) (perf : Performance.t) : ExcludedItem.t :=
  match field_value self perf with
  | None => missing self perf
  | Some v => not_allowed self perf v
  end.
End Methods.

(** The test the loop of [apply] makes on a record. *)
Definition keeps (self : t) (perf : Performance.t) : bool :=
  match field_value self perf with
  | None => include_missing self
  | Some v => _matches self v
  end.

End FieldFilter.

(** The three filters of the package, as one type. *)
Module ConcreteFilter.

Inductive t : Type :=
| Confidence (f : ConfidenceFilter.t)
| DateRange (f : DateRangeFilter.t)
| Field (f : FieldFilter.t).

Definition keeps (c : t) (perf : Performance.t) : bool :=
  match c with
  | Confidence f => ConfidenceFilter.keeps f perf
  | DateRange f => DateRangeFilter.keeps f perf
  | Field f => FieldFilter.keeps f perf
  end.

Section Methods.
Context `{Py.Repr}.

Definition as_filter (c : t) : Filter.t :=
  match c with
  | Confidence f => ConfidenceFilter.as_filter f
  | DateRange f => DateRangeFilter.as_filter f
  | Field f => FieldFilter.as_filter f
  end.

Definition exclusion (c : t) (perf : Performance.t) : ExcludedItem.t :=
  match c with
  | Confidence f => ConfidenceFilter.exclusion f perf
  | DateRange f => DateRangeFilter.exclusion f perf
  | Field f => FieldFilter.exclusion f perf
  end.

(** The exclusions of a chain, stage by stage: each filter sees what the
    filters before it kept. *)
Fixpoint stage_exclusions (chain : list t) (l : list Performance.t)
  : list ExcludedItem.t :=
  match chain with
  | [] => []
  | c :: chain' =>
      map (exclusion c) (List.filter (fun p => negb (keeps c p)) l)
        ++ stage_exclusions chain' (List.filter (keeps c) l)
  end.

(** The item a chain of filters attaches to a record: that of the first filter,
    in chain order, that does not keep it. *)
Definition first_exclusion (chain : list t) (perf : Performance.t) : list ExcludedItem.t :=
  match List.find (fun c => negb (keeps c perf)) chain with
  | Some c => [exclusion c perf]
  | None => []
  end.
End Methods.

End ConcreteFilter.

(** ** random.sample

    [random.sample(population, k)] draws from the interpreter's generator.  The
  draw made at the current generator state enters as [random_sample]; the
  checks [random.sample] makes on [k] before drawing are [Random.sample]. *)

Module Random.

Class Source : Type := {
  random_sample : forall A : Type, list A -> nat -> list A
}.
Arguments random_sample {_} {A} population k.

(** [chosen] holds the items of [population] at [k] pairwise distinct
    positions, in the order they were drawn. *)
Definition picks {A : Type} (population : list A) (k : nat) (chosen : list A) : Prop :=
  exists positions : list nat,
    NoDup positions /\ length positions = k /\
    Forall2 (fun i x => nth_error population i = Some x) positions chosen.

(** What the library promises of a draw: [k] items at distinct positions. *)
Definition contract (R : Source) : Prop :=
  forall (A : Type) (population : list A) (k : nat),
    (k <= length population)%nat -> picks population k (random_sample population k).

Definition sample `{Source} {A : Type} (population : list A) (k : Z) : Py.result (list A) :=
  if (k <? 0)%Z || (Py.len population <? k)%Z
  then Py.Raise (Py.ValueError "Sample larger than population or is negative")
  else Py.Ok (random_sample population (Z.to_nat k)).

(** A generator to run the model with: it draws the first [k] positions, in
    order. *)
Definition first_positions : Source :=
  {| random_sample := fun A population k => firstn k population |}.

End Random.

(** ** spotify/strategies.py *)

(** The track dictionaries of the catalog: a key that may be missing is an
    [option]. *)
Module ArtistData.
Record t : Type := mk { name : option string }.
End ArtistData.

Module AlbumData.
Record t : Type := mk { name : option string; release_date : option string }.
End AlbumData.

Module TrackData.

Record t : Type := mk {
  id : option string;
  name : option string;
  artists : option (list ArtistData.t);
  album : option AlbumData.t;
  popularity : option Z
}.

(** [track.get("album", {}).get("release_date", default)] *)
Definition release_date (track : t) : option string :=
  match album track with
  | Some a => AlbumData.release_date a
  | None => None
  end.

(** [track.get("popularity", 0)] *)
Definition popularity_or_0 (track : t) : Z :=
  match popularity track with
  | Some p => p
  | None => 0%Z
  end.

(** What the strategies need of a catalog entry: the keys [id] and [name];
    a first artist when [artists] is there; a popularity, when there, in
    0..100, as the [Track] model demands; and in the release date no number
    too large to pass to [date()]. *)
Definition well_formed (track : t) : bool :=
  match id track, name track with
  | Some _, Some _ => true
  | _, _ => false
  end
  && match artists track with
     | Some [] => false
     | _ => true
     end
  && match popularity track with
     | Some p => (0 <=? p)%Z && (p <=? 100)%Z
     | None => true
     end
  && match release_date track with
     | Some s =>
         forallb
           (fun part => match Py.int part with
                        | Some z => Py.fits_c_int z
                        | None => true
                        end)
           (Py.split "-" s)
     | None => true
     end.

End TrackData.

Module BaseStrategy.

(** [date(y, m, d)] inside [try: ... except (ValueError, IndexError): pass],
    the arguments coming from [int()]. *)
Definition try_date (y m d : option Z) : Py.result (option Py.date) :=
  match y, m, d with
  | Some y, Some m, Some d =>
      match Py.date_new y m d with
      | Py.Ok r => Py.Ok (Some r)
      | Py.Raise (Py.ValueError _) | Py.Raise Py.IndexError => Py.Ok None
      | Py.Raise e => Py.Raise e
      end
  | _, _, _ => Py.Ok None
  end.

(** The release-date part of [_track_to_model]. *)
Definition parse_release_date (release_date_str : string) : Py.result (option Py.date) :=
  if String.eqb release_date_str "" then Py.Ok None
  else
    match Py.split "-" release_date_str with
    | p0 :: p1 :: p2 :: _ => try_date (Py.int p0) (Py.int p1) (Py.int p2)
    | [p0; p1] => try_date (Py.int p0) (Py.int p1) (Some 1%Z)
    | [p0] => if Py.isdigit p0 then try_date (Py.int p0) (Some 1%Z) (Some 1%Z)
              else Py.Ok None
    | [] => Py.Ok None
    end.

Definition _track_to_model (self_name : string) (track : TrackData.t) (reason : string)
  : Py.result Track.t :=
  Py.bind (parse_release_date (default "" (TrackData.release_date track)))
    (fun release_date =>
  match TrackData.id track with
  | None => Py.Raise (Py.KeyError "id")
  | Some spotify_id =>
  match TrackData.name track with
  | None => Py.Raise (Py.KeyError "name")
  | Some name =>
  match default [ArtistData.mk None] (TrackData.artists track) with
  | [] => Py.Raise Py.IndexError
  | first_artist :: _ =>
      Track.new spotify_id name
        (default "Unknown" (ArtistData.name first_artist))
        (default "Unknown" (match TrackData.album track with
                            | Some a => AlbumData.name a
                            | None => None
                            end))
        release_date
        (TrackData.popularity_or_0 track)
        self_name reason
  end end end).

End BaseStrategy.

Module TopNStrategy.

Definition name : string := "top_n".

Definition select_tracks (artist_id artist_name : string) (tracks : list TrackData.t)
    (performance_date : option Py.date) (count : Z) : Py.result (list Track.t) :=
  let selected := Py.slice_to tracks count in
  Py.mapM_enum
    (fun i t =>
       BaseStrategy._track_to_model name t
         ("Top " ++ Py.str_int (i + 1) ++ " by popularity"))
    0%Z selected.

End TopNStrategy.

Module RandomNStrategy.

Definition name : string := "random_n".

Definition select_tracks `{Random.Source} (artist_id artist_name : string)
    (tracks : list TrackData.t) (performance_date : option Py.date) (count : Z)
  : Py.result (list Track.t) :=
  Py.bind
    (if (Py.len tracks <=? count)%Z then Py.Ok tracks else Random.sample tracks count)
    (fun selected =>
       Py.mapM
         (fun t => BaseStrategy._track_to_model name t "Random selection from catalog")
         selected).

End RandomNStrategy.

Module EraWeightedStrategy.

Definition name : string := "era_weighted".

(** The score is a float with an integer value, held here exactly. *)
Definition _calculate_era_score (release_date_str : string) (performance_date : Py.date)
  : Py.result Z :=
  if String.eqb release_date_str "" then Py.Ok 0%Z
  else
    match Py.split "-" release_date_str with
    | [] => Py.Ok 0%Z
    | p0 :: _ =>
        match Py.int p0 with
        | None => Py.Ok 0%Z
        | Some release_year =>
            let perf_year := Py.year performance_date in
            let years_diff := Z.abs (release_year - perf_year) in
            if (Py.float_overflow <=? years_diff * 10)%Z then Py.Raise Py.OverflowError
            else Py.Ok (Z.max 0 (100 - years_diff * 10))
        end
    end.

Definition reason (t : TrackData.t) : string :=
  "Era-weighted: released " ++ default "unknown" (TrackData.release_date t).

(** The score in the words of the specification: the release year is the
    number before the first hyphen of the release date, and a track without
    one scores 0. *)
Definition release_year (t : TrackData.t) : option Z :=
  match TrackData.release_date t with
  | None => None
  | Some s => if String.eqb s "" then None else Py.int (hd "" (Py.split "-" s))
  end.

Definition era_score (performance_year : Z) (t : TrackData.t) : Z :=
  match release_year t with
  | Some y => Z.max 0 (100 - 10 * Z.abs (y - performance_year))
  | None => 0%Z
  end.

(** The distance in years, times ten, converts to a float. *)
Definition score_in_range (performance_date : Py.date) (t : TrackData.t) : bool :=
  match release_year t with
  | Some y => (Z.abs (y - Py.year performance_date) * 10 <? Py.float_overflow)%Z
  | None => true
  end.

(** The [logger.debug] call of the fallback branch changes no result and is
    left out. *)
Definition select_tracks (artist_id artist_name : string) (tracks : list TrackData.t)
    (performance_date : option Py.date) (count : Z) : Py.result (list Track.t) :=
  match performance_date with
  | None =>
      TopNStrategy.select_tracks artist_id artist_name tracks performance_date count
  | Some perf_date =>
      Py.bind
        (Py.mapM
           (fun track =>
              Py.bind
                (_calculate_era_score (default "" (TrackData.release_date track)) perf_date)
                (fun score => Py.Ok (score, track)))
           tracks)
        (fun scored_tracks =>
           let scored_tracks := Py.sorted_desc fst scored_tracks in
           let selected := map snd (Py.slice_to scored_tracks count) in
           Py.mapM (fun t => BaseStrategy._track_to_model name t (reason t)) selected)
  end.

End EraWeightedStrategy.

Module DeepCutsStrategy.

Record t : Type := mk { max_popularity : Z }.

Definition default_max_popularity : Z := 60.

Definition __init__ (max_popularity : Z) : t := mk max_popularity.

Definition name (self : t) : string :=
  "deep_cuts(max_pop=" ++ Py.str_int (max_popularity self) ++ ")".

Definition reason (t : TrackData.t) : string :=
  "Deep cut: popularity "
    ++ match TrackData.popularity t with
       | Some p => Py.str_int p
       | None => "unknown"
       end.

(** The candidate pool, after the fallback to the least popular tracks. *)
Definition pool (self : t) (tracks : list TrackData.t) (count : Z) : list TrackData.t :=
  let deep_cuts :=
    List.filter (fun t => (TrackData.popularity_or_0 t <=? max_popularity self)%Z) tracks in
  match deep_cuts with
  | [] =>
      let sorted_tracks := Py.sorted_asc TrackData.popularity_or_0 tracks in
      Py.slice_to sorted_tracks (count * 2)
  | _ => deep_cuts
  end.

(** The [logger.warning] call of the fallback branch changes no result and is
    left out. *)
Definition select_tracks `{Random.Source} (self : t) (artist_id artist_name : string)
    (tracks : list TrackData.t) (performance_date : option Py.date) (count : Z)
  : Py.result (list Track.t) :=
  let deep_cuts := pool self tracks count in
  Py.bind
    (if (Py.len deep_cuts <=? count)%Z then Py.Ok deep_cuts
     else Random.sample deep_cuts count)
    (fun selected =>
       Py.mapM (fun t => BaseStrategy._track_to_model (name self) t (reason t)) selected).

End DeepCutsStrategy.

(** The [TrackSelectionStrategy] protocol over the four classes. *)
Module Strategy.

Inductive cls : Type := TopN | RandomN | EraWeighted | DeepCuts.

Inductive t : Type :=
| top_n
| random_n
| era_weighted
| deep_cuts (self : DeepCutsStrategy.t).

Definition name (s : t) : string :=
  match s with
  | top_n => TopNStrategy.name
  | random_n => RandomNStrategy.name
  | era_weighted => EraWeightedStrategy.name
  | deep_cuts self => DeepCutsStrategy.name self
  end.

Definition select_tracks `{Random.Source} (s : t) (artist_id artist_name : string)
    (tracks : list TrackData.t) (performance_date : option Py.date) (count : Z)
  : Py.result (list Track.t) :=
  match s with
  | top_n => TopNStrategy.select_tracks artist_id artist_name tracks performance_date count
  | random_n =>
      RandomNStrategy.select_tracks artist_id artist_name tracks performance_date count
  | era_weighted =>
      EraWeightedStrategy.select_tracks artist_id artist_name tracks performance_date count
  | deep_cuts self =>
      DeepCutsStrategy.select_tracks self artist_id artist_name tracks performance_date count
  end.

End Strategy.

(** A call of [logger.warning(event, **fields)]. *)
Inductive log_record : Type :=
| Warning (event : string) (fields : list (string * string)).

(** The lookup table of [get_strategy]. *)
Definition strategies : gmap string Strategy.cls :=
  list_to_map
    [ ("top", Strategy.TopN); ("top_n", Strategy.TopN);
      ("random", Strategy.RandomN); ("random_n", Strategy.RandomN);
      ("era", Strategy.EraWeighted); ("era_weighted", Strategy.EraWeighted);
      ("deep", Strategy.DeepCuts); ("deep_cuts", Strategy.DeepCuts) ].

(** [get_strategy(name, **kwargs)]: [max_popularity] is
    [kwargs.get("max_popularity")]; the second component is what was logged. *)
Definition get_strategy (name : string) (max_popularity : option Z)
  : Strategy.t * list log_record :=
  let strategy_name :=
    if Py.contains "-" name
    then Py.lower (hd "" (Py.split "-" name))
    else Py.lower name in
  match strategies !! strategy_name with
  | None => (Strategy.top_n, [Warning "unknown_strategy" [("name", name); ("fallback", "top_n")]])
  | Some Strategy.DeepCuts =>
      (Strategy.deep_cuts
         (DeepCutsStrategy.__init__
            (default DeepCutsStrategy.default_max_popularity max_popularity)), [])
  | Some Strategy.TopN => (Strategy.top_n, [])
  | Some Strategy.RandomN => (Strategy.random_n, [])
  | Some Strategy.EraWeighted => (Strategy.era_weighted, [])
  end.


(** ** More built-ins, for the callers *)

Module PyMore.

(** [sub in s] for strings *)
Fixpoint contains_str (sub s : string) : bool :=
  String.prefix sub s
  || match s with
     | EmptyString => false
     | String _ s' => contains_str sub s'
     end.

(** [range(0, n, step)] for a positive step *)
Definition range_step (n step : nat) : list nat :=
  map (fun k => k * step) (seq 0 ((n + step - 1) / step)).

(** [l[i:j]] for [0 <= i <= j] *)
Definition slice {A : Type} (l : list A) (i j : nat) : list A :=
  firstn (j - i) (skipn i l).

(** [min(a, b)] on floats *)
Definition min_float (a b : Q) : Q := if Qle_bool a b then a else b.

(** [d[k] = v] on a dictionary, kept in insertion order: a key that is there
    keeps its place. *)
Fixpoint dict_set {V : Type} (d : list (string * V)) (k : string) (v : V)
  : list (string * V) :=
  match d with
  | [] => [(k, v)]
  | (k', v') :: d' =>
      if String.eqb k' k then (k, v) :: d' else (k', v') :: dict_set d' k v
  end.

(** [d.get(k)] *)
Fixpoint dict_get {V : Type} (d : list (string * V)) (k : string) : option V :=
  match d with
  | [] => None
  | (k', v') :: d' => if String.eqb k' k then Some v' else dict_get d' k
  end.

End PyMore.

(** ** models.py: Artist *)

Module Artist.

Record t : Type := mk {
  name : string;
  aliases : list string;
  musicbrainz_id : option string;
  spotify_id : option string;
  metadata : gmap string value
}.

End Artist.

(** ** spotify/client.py *)

Module SpotifyClient.

(** The methods that talk to the service: the artist search, the two track
    listings, and the call that adds a batch to a playlist. The last one gets
    the number of calls made before it, since the service may answer the same
    request differently at another time; [false] stands for the
    [SpotifyException] it raises. *)
Class Api : Type := {
  search_artist : string -> option Artist.t;
  get_artist_catalog : string -> list TrackData.t;
  get_artist_top_tracks : string -> list TrackData.t;
  playlist_add_items : nat -> string -> list string -> bool
}.

(** The count of [get_tracks_for_artist]: 3, unless the part of the strategy
    name after its first hyphen is an integer. *)
Definition parse_count (strategy_name : string) : Z :=
  if Py.contains "-" strategy_name then
    match Py.split "-" strategy_name with
    | _ :: part :: _ =>
        match Py.int part with
        | Some count => count
        | None => 3%Z
        end
    | _ => 3%Z
    end
  else 3%Z.

Definition not_found (artist_name : string) : ExcludedItem.t :=
  ExcludedItem.mk "artist" artist_name "Artist not found on Spotify" None.

Definition no_tracks (artist_name : string) : ExcludedItem.t :=
  ExcludedItem.mk "artist" artist_name "No tracks available on Spotify" None.

(** Which listing [get_tracks_for_artist] reads. *)
Definition wants_catalog (strategy_name : string) : bool :=
  PyMore.contains_str "era" (Py.lower strategy_name)
  || PyMore.contains_str "random" (Py.lower strategy_name).

Definition get_tracks_for_artist `{Api} `{Random.Source}
    (artist_name strategy_name : string) (performance_date : option Py.date)
  : Py.result (list Track.t * list ExcludedItem.t) :=
  let count := parse_count strategy_name in
  let strategy := fst (get_strategy strategy_name None) in
  match search_artist artist_name with
  | None => Py.Ok ([], [not_found artist_name])
  | Some artist =>
      match Artist.spotify_id artist with
      | None | Some EmptyString => Py.Ok ([], [not_found artist_name])
      | Some spotify_id =>
          let tracks :=
            if wants_catalog strategy_name then get_artist_catalog spotify_id
            else get_artist_top_tracks spotify_id in
          match tracks with
          | [] => Py.Ok ([], [no_tracks artist_name])
          | _ =>
              Py.bind
                (Strategy.select_tracks strategy spotify_id (Artist.name artist) tracks
                   performance_date count)
                (fun selected => Py.Ok (selected, []))
          end
      end
  end.

Definition uri (tid : string) : string := "spotify:track:" ++ tid.

(** [add_tracks_to_playlist]: the number of tracks added, and the calls made,
    each a batch with the answer of the service. *)
Definition add_tracks_to_playlist `{Api} (playlist_id : string) (track_ids : list string)
  : Z * list (list string * bool) :=
  match track_ids with
  | [] => (0%Z, [])
  | _ =>
      let uris := map uri track_ids in
      let batch_size := 100 in
      fold_left
        (fun '(added, calls) i =>
           let batch := PyMore.slice uris i (i + batch_size) in
           if playlist_add_items (length calls) playlist_id batch
           then ((added + Py.len batch)%Z, calls ++ [(batch, true)])
           else (added, calls ++ [(batch, false)]))
        (PyMore.range_step (length uris) batch_size) (0%Z, [])
  end.

End SpotifyClient.

(** ** pipeline.py: steps 3, 4 and 6 of [Pipeline.run] *)

Module Pipeline.

Section Filtering.
Context `{Py.Repr}.

(** Step 3: the chain of a date-range filter and a confidence filter. *)
Definition filter_step (start_date end_date : Py.date) (min_confidence : Q)
    (performances : list Performance.t) : Py.result FilterResult.t :=
  let date_filter := DateRangeFilter.__init__ start_date end_date in
  Py.bind (ConfidenceFilter.__init__ min_confidence)
    (fun confidence_filter =>
       let filter_chain :=
         FilterChain.add
           (FilterChain.add FilterChain.__init__ (DateRangeFilter.as_filter date_filter))
           (ConfidenceFilter.as_filter confidence_filter) in
       Py.Ok (FilterChain.apply filter_chain performances)).
End Filtering.

Definition artist_key (perf : Performance.t) : string :=
  Py.lower (Performance.artist_name perf).

(** Step 4: one record per artist, the first one, names compared in lower
    case. *)
Definition dedupe (filtered_performances : list Performance.t) : list Performance.t :=
  snd (fold_left
         (fun '(seen_artists, unique_performances) perf =>
            if decide (artist_key perf ∈ (seen_artists : gset string))
            then (seen_artists, unique_performances)
            else ({[artist_key perf]} ∪ seen_artists, unique_performances ++ [perf]))
         filtered_performances (∅, [])).

(** The loop of step 4 as a recursion, started with the keys in [seen]. *)
Fixpoint unique_from (seen : gset string) (l : list Performance.t) : list Performance.t :=
  match l with
  | [] => []
  | perf :: l' =>
      if decide (artist_key perf ∈ seen) then unique_from seen l'
      else perf :: unique_from ({[artist_key perf]} ∪ seen) l'
  end.

(** Step 6: the tracks and the exclusions of every artist, in the order of
    the records. *)
Definition collect_tracks `{SpotifyClient.Api} `{Random.Source} (strategy : string)
    (unique_performances : list Performance.t)
  : Py.result (list Track.t * list ExcludedItem.t) :=
  fold_left
    (fun state perf =>
       Py.bind state
         (fun '(all_tracks, all_excluded) =>
            Py.bind
              (SpotifyClient.get_tracks_for_artist (Performance.artist_name perf) strategy
                 (Performance.performance_date perf))
              (fun '(tracks, excluded) =>
                 Py.Ok (all_tracks ++ tracks, all_excluded ++ excluded))))
    unique_performances (Py.Ok ([], [])).

End Pipeline.

(** ** sources/__init__.py: DataSourceRegistry *)

Module DataSourceRegistry.

Section Registry.
(** A data source is an object with a [name]. *)
Context {Source : Type} (name_of : Source -> string).

Definition t : Type := list (string * Source).

Definition __init__ : t := [].

Definition register (self : t) (source : Source) : t :=
  PyMore.dict_set self (name_of source) source.

Definition get (self : t) (name : string) : option Source := PyMore.dict_get self name.

Definition all (self : t) : list Source := map snd self.

Definition names (self : t) : list string := map fst self.
End Registry.

End DataSourceRegistry.

(** ** sources/setlist_fm.py *)

(** A setlist as the service documents it: objects of strings and objects,
    where every key may be missing. *)
Module Setlist.

Record country : Type := mk_country { code : option string }.

Record city : Type := mk_city {
  city_name : option string;
  city_country : option country
}.

Record venue : Type := mk_venue {
  venue_name : option string;
  venue_city : option city
}.

Record artist : Type := mk_artist {
  artist_name : option string;
  mbid : option string
}.

Record tour : Type := mk_tour { tour_name : option string }.

Record t : Type := mk {
  id : option string;
  url : option string;
  eventDate : option string;
  artist_of : option artist;
  venue_of : option venue;
  tour_of : option tour
}.

(** One page of the setlists of a venue. *)
Module SetlistPage.

Record t : Type := mk {
  setlist : option (list Setlist.t);
  itemsPerPage : option Z;
  total : option Z
}.

End SetlistPage.

End Setlist.

Module SetlistFmSource.

Definition name : string := "setlist.fm".

(** A key that may be missing, as a metadata value. *)
Definition optional (s : option string) : value :=
  match s with
  | Some s => VScalar (SStr s)
  | None => VScalar SNone
  end.

Section Methods.
(** [datetime.strptime(date_str, "%d-%m-%Y").date()], with [None] where it
    raises [ValueError]. *)
Context (strptime_dmy : string -> option Py.date).

Definition _parse_date (date_str : string) : option Py.date := strptime_dmy date_str.

Definition _setlist_to_performance (setlist : Setlist.t) : option Performance.t :=
  let artist := default (Setlist.mk_artist None None) (Setlist.artist_of setlist) in
  let venue := default (Setlist.mk_venue None None) (Setlist.venue_of setlist) in
  let venue_city := default (Setlist.mk_city None None) (Setlist.venue_city venue) in
  let venue_country := default (Setlist.mk_country None) (Setlist.city_country venue_city) in
  match _parse_date (default "" (Setlist.eventDate setlist)) with
  | None => None
  | Some event_date =>
      let setlist_url :=
        default ("https://www.setlist.fm/setlist/" ++ default "" (Setlist.id setlist))%string
          (Setlist.url setlist) in
      Some
        (Performance.mk
           (default "Unknown Artist" (Setlist.artist_name artist))
           (default "Unknown Venue" (Setlist.venue_name venue))
           (default "" (Setlist.city_name venue_city))
           (Setlist.code venue_country)
           (Some event_date)
           None
           name
           setlist_url
           1
           (list_to_map
              [ ("setlist_id", optional (Setlist.id setlist));
                ("artist_mbid", optional (Setlist.mbid artist));
                ("tour_name",
                 optional (Setlist.tour_name
                             (default (Setlist.mk_tour None) (Setlist.tour_of setlist)))) ]))
  end.

(** The last loop of [get_performances]: the setlists become records, and
    when both ends of a date range are given only the records in it are
    kept. *)
Definition convert (all_setlists : list Setlist.t) (start_date end_date : option Py.date)
  : list Performance.t :=
  fold_left
    (fun performances setlist =>
       match _setlist_to_performance setlist with
       | None => performances
       | Some perf =>
           match start_date, end_date with
           | Some s, Some e =>
               if Performance.overlaps_range perf s e then performances ++ [perf]
               else performances
           | _, _ => performances ++ [perf]
           end
       end)
    all_setlists [].
End Methods.

Section Fetching.
(** The answer of the service to the request for a page of the setlists of
    the venue; [None] stands for the [HTTPError] that ends the loop. *)
Context (get_page : Z -> option Setlist.SetlistPage.t).

(** The number of pages a page announces. *)
Definition pages_announced (data : Setlist.SetlistPage.t) : Z :=
  let items_per_page := default 20%Z (Setlist.SetlistPage.itemsPerPage data) in
  let total := default 0%Z (Setlist.SetlistPage.total data) in
  if (0 <? items_per_page)%Z
  then ((total + items_per_page - 1) / items_per_page)%Z
  else 1%Z.

(** The [while page <= total_pages] loop of [get_performances], run for at
    most [fuel] rounds; [None] when the rounds do not suffice. *)
Fixpoint fetch (fuel : nat) (page total_pages : Z) (all_setlists : list Setlist.t)
  : option (list Setlist.t) :=
  match fuel with
  | O => None
  | S fuel' =>
      if (page <=? total_pages)%Z then
        match get_page page with
        | None => Some all_setlists
        | Some data =>
            let setlists := default [] (Setlist.SetlistPage.setlist data) in
            fetch fuel' (page + 1)%Z (pages_announced data) (all_setlists ++ setlists)
        end
      else Some all_setlists
  end.

Definition fetch_setlists (fuel : nat) : option (list Setlist.t) := fetch fuel 1%Z 1%Z [].
End Fetching.

End SetlistFmSource.

(** ** parser/llm.py *)

Module ParsedPerformance.

Record t : Type := mk {
  artist_name : string;
  performance_date : option string;
  performance_date_approximate : bool;
  date_range_start : option string;
  date_range_end : option string;
  confidence_notes : string
}.

End ParsedPerformance.

Module GeminiParser.

(** The floats written [0.7], [0.8] and [0.9], by their exact values. *)
Definition float_0_7 : Q := 3152519739159347 # 4503599627370496.
Definition float_0_8 : Q := 3602879701896397 # 4503599627370496.
Definition float_0_9 : Q := 8106479329266893 # 9007199254740992.

(** A string that is there and not empty. *)
Definition given (s : option string) : option string :=
  match s with
  | Some EmptyString | None => None
  | Some s => Some s
  end.

Section Methods.
(** [date.fromisoformat], with [None] where it raises [ValueError]. *)
Context (fromisoformat : string -> option Py.date).

Definition _to_performance (parsed : ParsedPerformance.t)
    (venue_name city source_name source_reference : string) : option Performance.t :=
  let perf_date :=
    match given (ParsedPerformance.performance_date parsed) with
    | Some s => fromisoformat s
    | None => None
    end in
  let perf_range :=
    match given (ParsedPerformance.date_range_start parsed),
          given (ParsedPerformance.date_range_end parsed) with
    | Some a, Some b =>
        match fromisoformat a, fromisoformat b with
        | Some range_start, Some range_end => Some (range_start, range_end)
        | _, _ => None
        end
    | _, _ => None
    end in
  match perf_date, perf_range with
  | None, None => None
  | _, _ =>
      let confidence := 1%Q in
      let confidence :=
        if ParsedPerformance.performance_date_approximate parsed then float_0_7
        else confidence in
      let confidence :=
        match perf_range, perf_date with
        | Some _, None => PyMore.min_float confidence float_0_8
        | _, _ => confidence
        end in
      let confidence :=
        if PyMore.contains_str "LLM-parsed" source_name
           || String.prefix "parsed:" source_name
        then PyMore.min_float confidence float_0_9
        else confidence in
      Some
        (Performance.mk (ParsedPerformance.artist_name parsed) venue_name city None
           perf_date perf_range ("parsed:" ++ source_name)%string source_reference confidence
           (list_to_map
              [ ("confidence_notes",
                 VScalar (SStr (ParsedPerformance.confidence_notes parsed)));
                ("approximate_date",
                 VScalar (SBool (ParsedPerformance.performance_date_approximate parsed))) ]))
  end.
End Methods.

End GeminiParser.

(** ** Reading a result *)

(** The two outcomes of a filter on a one-record list. *)
Definition passes (result : FilterResult.t) (perf : Performance.t) : Prop :=
  result = FilterResult.mk [perf] [].

Definition fails_with (result : FilterResult.t) (item : ExcludedItem.t) : Prop :=
  result = FilterResult.mk [] [item].

(** A returned track is built from an entry of the catalog. *)
Definition from_catalog (tracks : list TrackData.t) (m : Track.t) : Prop :=
  exists t, In t tracks
            /\ TrackData.id t = Some (Track.spotify_id m)
            /\ TrackData.name t = Some (Track.name m)
            /\ Track.popularity m = TrackData.popularity_or_0 t.

(** A number printed with leading zeros reads back through [int()], holds no
    hyphen and consists of digits. *)
Definition iso_field_ok (width : nat) (z : Z) : bool :=
  let s := Py.zfill width (Py.str_int z) in
  match Py.int s with
  | Some z' => (z' =? z)%Z
  | None => false
  end
  && negb (Py.contains "-" s) && Py.isdigit s && negb (String.eqb s "").

(** ** Data to run the model on *)

Module Sample.

(** A rendering to run the model with: floats with two decimals, strings
    between quotes. *)
Definition repr : Py.Repr :=
  {| Py.str_float := Py.format_2f;
     Py.repr_str := fun s => ("'" ++ s ++ "'")%string |}.

(** The floats written [0.49] and [0.5], by their exact values. *)
Definition float_0_49 : Q := 2206763817411543 # 4503599627370496.
Definition float_0_5 : Q := 1 # 2.

Definition gig (artist : string) (date : option Py.date)
    (range : option (Py.date * Py.date)) (score : Q) (metadata : gmap string value)
  : Performance.t :=
  Performance.mk artist "CBGB" "New York" (Some "US") date range
    "setlist.fm" "https://www.setlist.fm/" score metadata.

Definition ramones : Performance.t :=
  gig "Ramones" (Some (Py.mkdate 1978 10 7)) None 1 {[ "genre" := VScalar (SStr "Punk") ]}.

Definition television : Performance.t :=
  gig "Television" None (Some (Py.mkdate 1978 6 1, Py.mkdate 1978 8 1)) float_0_5
      {[ "genre" := VList [SStr "Jazz"; SStr "Rock"] ]}.

Definition blondie : Performance.t :=
  gig "Blondie" (Some (Py.mkdate 1977 3 2)) None float_0_49 ∅.

Definition undated : Performance.t :=
  gig "Talking Heads" None None 1 {[ "genre" := VScalar (SStr "new wave") ]}.

Definition autumn_1978 : DateRangeFilter.t :=
  DateRangeFilter.__init__ (Py.mkdate 1978 9 1) (Py.mkdate 1978 12 31).

Definition at_least_half : ConfidenceFilter.t := ConfidenceFilter.mk float_0_5.

Definition punk_or_rock : FieldFilter.t :=
  FieldFilter.__init__ "genre" [SStr "punk"; SStr "rock"] true false.

Definition track (id name : string) (release : option string) (popularity : option Z)
  : TrackData.t :=
  TrackData.mk (Some id) (Some name) (Some [ArtistData.mk (Some "Ramones")])
    (Some (AlbumData.mk (Some "Collected") release)) popularity.

Definition judy : TrackData.t := track "t1" "Judy Is a Punk" (Some "1977") (Some 10%Z).
Definition sedated : TrackData.t :=
  track "t2" "I Wanna Be Sedated" (Some "1978-09-22") (Some 70%Z).
Definition bonzo : TrackData.t :=
  track "t3" "Bonzo Goes to Bitburg" (Some "1985-06") (Some 55%Z).
Definition blitzkrieg : TrackData.t :=
  track "t4" "Blitzkrieg Bop" (Some "1976-04-23") (Some 90%Z).
Definition outtake : TrackData.t := track "t5" "Outtake" None (Some 40%Z).
Definition unrated : TrackData.t := track "t6" "Unrated" (Some "1979") None.

Definition catalog : list TrackData.t := [judy; sedated; bonzo; blitzkrieg; outtake].

Definition october_1978 : Py.date := Py.mkdate 1978 10 7.

Definition ramones_artist : Artist.t := Artist.mk "Ramones" [] None (Some "a1") ∅.

(** A service that knows one artist, and refuses the second batch of a
    playlist. *)
Definition api : SpotifyClient.Api :=
  {| SpotifyClient.search_artist :=
       fun name => if String.eqb (Py.lower name) "ramones" then Some ramones_artist else None;
     SpotifyClient.get_artist_catalog := fun _ => catalog;
     SpotifyClient.get_artist_top_tracks := fun _ => catalog;
     SpotifyClient.playlist_add_items := fun calls _ _ => negb (Nat.eqb calls 1) |}.

Definition setlist_of (artist : string) : Setlist.t :=
  Setlist.mk None None (Some "07-10-1978")
    (Some (Setlist.mk_artist (Some artist) None)) None None.

(** A venue of three pages, the third of which the service fails to send. *)
Definition pages (page : Z) : option Setlist.SetlistPage.t :=
  if (page <=? 2)%Z
  then Some (Setlist.SetlistPage.mk (Some [setlist_of "Ramones"]) (Some 20%Z) (Some 45%Z))
  else None.

End Sample.

(** * Properties *)

(** ** The built-ins on the inputs the program meets *)

Example int_accepts :
  Py.int "1978" = Some 1978%Z /\ Py.int " 1_978 " = Some 1978%Z
  /\ Py.int "+7" = Some 7%Z /\ Py.int "007" = Some 7%Z.
Proof. repeat split. Qed.

Example int_rejects :
  Py.int "" = None /\ Py.int "1__9" = None /\ Py.int "_1" = None
  /\ Py.int "+ 1" = None /\ Py.int "19x" = None.
Proof. repeat split. Qed.

Example split_on_hyphen :
  Py.split "-" "a-b--c" = ["a"; "b"; ""; "c"]
  /\ Py.split "-" "" = [""] /\ Py.split "-" "-" = [""; ""].
Proof. repeat split. Qed.

Example format_2f_rounds :
  Py.format_2f Sample.float_0_49 = "0.49" /\ Py.format_2f (1 # 8) = "0.12"
  /\ Py.format_2f (3 # 8) = "0.38" /\ Py.format_2f 1 = "1.00"
  /\ Py.format_2f (- 1 # 1000) = "-0.00".
Proof. repeat split. Qed.

Example date_new_checks :
  Py.date_new 2000 2 29 = Py.Ok (Py.mkdate 2000 2 29)
  /\ Py.date_new 1900 2 29 = Py.Raise (Py.ValueError "day is out of range for month")
  /\ Py.date_new 0 1 1 = Py.Raise (Py.ValueError "year is out of range")
  /\ Py.date_new (2 ^ 31) 1 1 = Py.Raise Py.OverflowError.
Proof. repeat split. Qed.

Example slice_to_cases :
  Py.slice_to [1; 2; 3] 2 = [1; 2] /\ Py.slice_to [1; 2; 3] 0 = []
  /\ Py.slice_to [1; 2; 3] (-1) = [1; 2] /\ Py.slice_to [1; 2; 3] (-5) = [].
Proof. repeat split. Qed.

Example parse_release_date_cases :
  BaseStrategy.parse_release_date "1978-09-22" = Py.Ok (Some (Py.mkdate 1978 9 22))
  /\ BaseStrategy.parse_release_date "1978-09" = Py.Ok (Some (Py.mkdate 1978 9 1))
  /\ BaseStrategy.parse_release_date "1978" = Py.Ok (Some (Py.mkdate 1978 1 1))
  /\ BaseStrategy.parse_release_date "0000" = Py.Ok None
  /\ BaseStrategy.parse_release_date "soon" = Py.Ok None
  /\ BaseStrategy.parse_release_date "" = Py.Ok None
  /\ BaseStrategy.parse_release_date "99999999999" = Py.Raise Py.OverflowError.
Proof. repeat split. Qed.

(** The order of dates is a total preorder. *)
Lemma date_le_refl (a : Py.date) : Py.date_le a a = true.
Proof.
  unfold Py.date_le. rewrite !Z.ltb_irrefl. apply Z.leb_refl.
Qed.

Lemma date_le_trans (a b c : Py.date) :
  Py.date_le a b = true -> Py.date_le b c = true -> Py.date_le a c = true.
Proof.
  unfold Py.date_le.
  repeat match goal with
         | |- context [(?x <? ?y)%Z] => destruct (Z.ltb_spec x y)
         end; try discriminate; try reflexivity; try lia;
    rewrite !Z.leb_le; lia.
Qed.

Lemma date_le_total (a b : Py.date) :
  Py.date_le a b = true \/ Py.date_le b a = true.
Proof.
  unfold Py.date_le.
  repeat match goal with
         | |- context [(?x <? ?y)%Z] => destruct (Z.ltb_spec x y)
         end; auto; try lia; rewrite !Z.leb_le; lia.
Qed.

(** ** The loops of the filters *)

Section Loops.
Context {A B : Type} (keep : A -> bool) (item : A -> B).
Context (step : list A * list B -> A -> list A * list B).
Hypothesis step_eq : forall inc exc p,
  step (inc, exc) p = if keep p then (inc ++ [p], exc) else (inc, exc ++ [item p]).

Lemma classify_loop (l : list A) (inc : list A) (exc : list B) :
  fold_left step l (inc, exc)
  = (inc ++ List.filter keep l,
     exc ++ map item (List.filter (fun p => negb (keep p)) l)).
Proof using step_eq.
  revert inc exc. induction l as [|p l IH]; intros inc exc; simpl.
  - now rewrite !app_nil_r.
  - rewrite step_eq. destruct (keep p); simpl; rewrite IH.
    + now rewrite <- app_assoc.
    + now rewrite <- app_assoc.
Qed.
End Loops.

Lemma filter_split_perm {A : Type} (keep : A -> bool) (l : list A) :
  Permutation l (List.filter keep l ++ List.filter (fun p => negb (keep p)) l).
Proof.
  induction l as [|p l IH]; simpl; [constructor|].
  destruct (keep p); simpl.
  - now constructor.
  - now apply Permutation_cons_app.
Qed.

Lemma filter_split_length {A : Type} (keep : A -> bool) (l : list A) :
  length (List.filter keep l) + length (List.filter (fun p => negb (keep p)) l)
  = length l.
Proof.
  induction l as [|p l IH]; simpl; [reflexivity|].
  destruct (keep p); simpl; lia.
Qed.

Lemma filter_sublist {A : Type} (keep : A -> bool) (l : list A) :
  sublist (List.filter keep l) l.
Proof.
  induction l as [|p l IH]; simpl; [constructor|].
  destruct (keep p); now constructor.
Qed.

Section FilterFacts.
Context `{Py.Repr}.

Lemma confidence_apply_eq (self : ConfidenceFilter.t) (l : list Performance.t) :
  ConfidenceFilter.apply self l
  = FilterResult.mk
      (List.filter (ConfidenceFilter.keeps self) l)
      (map (ConfidenceFilter.exclusion self)
           (List.filter (fun p => negb (ConfidenceFilter.keeps self p)) l)).
Proof.
  unfold ConfidenceFilter.apply.
  rewrite (classify_loop (ConfidenceFilter.keeps self) (ConfidenceFilter.exclusion self));
    [reflexivity|].
  intros inc exc p. reflexivity.
Qed.

Lemma date_range_apply_eq (self : DateRangeFilter.t) (l : list Performance.t) :
  DateRangeFilter.apply self l
  = FilterResult.mk
      (List.filter (DateRangeFilter.keeps self) l)
      (map (DateRangeFilter.exclusion self)
           (List.filter (fun p => negb (DateRangeFilter.keeps self p)) l)).
Proof.
  unfold DateRangeFilter.apply.
  rewrite (classify_loop (DateRangeFilter.keeps self) (DateRangeFilter.exclusion self));
    [reflexivity|].
  intros inc exc p. unfold DateRangeFilter.keeps, DateRangeFilter.exclusion.
  destruct (Performance.has_valid_date p); simpl; [|reflexivity].
  now destruct (Performance.overlaps_range p _ _).
Qed.

Lemma field_apply_eq (self : FieldFilter.t) (l : list Performance.t) :
  FieldFilter.apply self l
  = FilterResult.mk
      (List.filter (FieldFilter.keeps self) l)
      (map (FieldFilter.exclusion self)
           (List.filter (fun p => negb (FieldFilter.keeps self p)) l)).
Proof.
  unfold FieldFilter.apply.
  rewrite (classify_loop (FieldFilter.keeps self) (FieldFilter.exclusion self));
    [reflexivity|].
  intros inc exc p. unfold FieldFilter.keeps, FieldFilter.exclusion.
  destruct (FieldFilter.field_value self p); reflexivity.
Qed.

Lemma concrete_apply_eq (c : ConcreteFilter.t) (l : list Performance.t) :
  Filter.apply (ConcreteFilter.as_filter c) l
  = FilterResult.mk
      (List.filter (ConcreteFilter.keeps c) l)
      (map (ConcreteFilter.exclusion c)
           (List.filter (fun p => negb (ConcreteFilter.keeps c p)) l)).
Proof.
  destruct c as [f|f|f]; simpl.
  - apply confidence_apply_eq.
  - apply date_range_apply_eq.
  - apply field_apply_eq.
Qed.

(** C1. Each of the three filters puts every input record in exactly one of
    its two output lists: the included list is the input with the records the
    filter does not keep removed (so the order of the input is preserved), the
    excluded list holds one item for each removed record, in input order, and
    the included records together with the removed ones are a permutation of
    the input. *)
Theorem filter_classifies_each_record_once
    (c : ConcreteFilter.t) (performances : list Performance.t) :
  let result := Filter.apply (ConcreteFilter.as_filter c) performances in
  let rejected := List.filter (fun p => negb (ConcreteFilter.keeps c p)) performances in
  FilterResult.included result = List.filter (ConcreteFilter.keeps c) performances
  /\ FilterResult.excluded result = map (ConcreteFilter.exclusion c) rejected
  /\ Permutation performances (FilterResult.included result ++ rejected)
  /\ sublist (FilterResult.included result) performances
  /\ length (FilterResult.included result) + length (FilterResult.excluded result)
     = length performances.
Proof.
  cbv zeta. rewrite concrete_apply_eq. simpl.
  repeat split.
  - apply filter_split_perm.
  - apply filter_sublist.
  - rewrite length_map. apply filter_split_length.
Qed.

Lemma chain_loop (chain : list ConcreteFilter.t) (current : list Performance.t)
    (all_excluded : list ExcludedItem.t) :
  fold_left
    (fun '(current, all_excluded) filter =>
       let result := Filter.apply filter current in
       (FilterResult.included result, all_excluded ++ FilterResult.excluded result))
    (map ConcreteFilter.as_filter chain) (current, all_excluded)
  = (List.filter (fun p => forallb (fun c => ConcreteFilter.keeps c p) chain) current,
     all_excluded ++ ConcreteFilter.stage_exclusions chain current).
Proof.
  revert current all_excluded.
  induction chain as [|c chain IH]; intros current all_excluded; simpl.
  - rewrite app_nil_r. f_equal. induction current as [|p l IHl]; simpl; congruence.
  - rewrite concrete_apply_eq. simpl. rewrite IH. f_equal.
    + induction current as [|p l IHl]; simpl; [reflexivity|].
      destruct (ConcreteFilter.keeps c p); simpl; [|exact IHl].
      destruct (forallb _ chain); simpl; congruence.
    + now rewrite <- app_assoc.
Qed.

Lemma chain_apply_eq (chain : list ConcreteFilter.t) (l : list Performance.t) :
  FilterChain.apply (map ConcreteFilter.as_filter chain) l
  = FilterResult.mk
      (List.filter (fun p => forallb (fun c => ConcreteFilter.keeps c p) chain) l)
      (ConcreteFilter.stage_exclusions chain l).
Proof.
  unfold FilterChain.apply. now rewrite chain_loop.
Qed.

Lemma forallb_permutation {A : Type} (f : A -> bool) (l l' : list A) :
  Permutation l l' -> forallb f l = forallb f l'.
Proof.
  induction 1; simpl; try congruence.
  now rewrite !andb_assoc, (andb_comm (f y)).
Qed.

Lemma flat_map_split {A B : Type} (keep : A -> bool) (g h : A -> list B) (l : list A) :
  Permutation
    (flat_map g (List.filter (fun p => negb (keep p)) l) ++ flat_map h (List.filter keep l))
    (flat_map (fun p => if keep p then h p else g p) l).
Proof.
  induction l as [|p l IH]; simpl; [constructor|].
  destruct (keep p); simpl.
  - rewrite <- IH. rewrite !app_assoc. apply Permutation_app_tail, Permutation_app_comm.
  - rewrite <- app_assoc. now apply Permutation_app_head.
Qed.

Lemma stage_exclusions_attribution (chain : list ConcreteFilter.t) (l : list Performance.t) :
  Permutation (ConcreteFilter.stage_exclusions chain l)
              (flat_map (ConcreteFilter.first_exclusion chain) l).
Proof.
  revert l. induction chain as [|c chain IH]; intros l; simpl.
  - induction l; simpl; auto.
  - rewrite IH.
    replace (map (ConcreteFilter.exclusion c)
               (List.filter (fun p => negb (ConcreteFilter.keeps c p)) l))
      with (flat_map (fun p => [ConcreteFilter.exclusion c p])
              (List.filter (fun p => negb (ConcreteFilter.keeps c p)) l))
      by (induction (List.filter _ l); simpl; congruence).
    rewrite flat_map_split.
    erewrite flat_map_ext; [reflexivity|].
    intros p. unfold ConcreteFilter.first_exclusion. simpl.
    now destruct (ConcreteFilter.keeps c p).
Qed.

(** C5. Reordering the filters of a chain leaves the included list as it is:
    a record is included exactly when every filter of the chain keeps it, and
    the included list is the input restricted to those records, in input order.
    The excluded items come stage by stage, and each excluded record carries
    the item of the first filter, in chain order, that does not keep it; so
    after a reordering the same number of records is excluded, and only the
    filter each item comes from can change. *)
Theorem chain_order_independent
    (chain chain' : list ConcreteFilter.t) (performances : list Performance.t) :
  Permutation chain chain' ->
  let result := FilterChain.apply (map ConcreteFilter.as_filter chain) performances in
  let result' := FilterChain.apply (map ConcreteFilter.as_filter chain') performances in
  FilterResult.included result = FilterResult.included result'
  /\ FilterResult.included result
     = List.filter (fun p => forallb (fun c => ConcreteFilter.keeps c p) chain) performances
  /\ FilterResult.excluded result = ConcreteFilter.stage_exclusions chain performances
  /\ Permutation (FilterResult.excluded result)
       (flat_map (ConcreteFilter.first_exclusion chain) performances)
  /\ Permutation (FilterResult.excluded result')
       (flat_map (ConcreteFilter.first_exclusion chain') performances)
  /\ length (FilterResult.excluded result) = length (FilterResult.excluded result')
  /\ length (FilterResult.included result) + length (FilterResult.excluded result)
     = length performances.
Proof.
  intros Hperm. cbv zeta. rewrite !chain_apply_eq. simpl.
  assert (Hsame : forall p,
             forallb (fun c => ConcreteFilter.keeps c p) chain
             = forallb (fun c => ConcreteFilter.keeps c p) chain')
    by (intros p; now apply forallb_permutation).
  assert (Hlen : forall ch,
             length (List.filter (fun p => forallb (fun c => ConcreteFilter.keeps c p) ch)
                       performances)
             + length (ConcreteFilter.stage_exclusions ch performances)
             = length performances).
  { intros ch. rewrite (Permutation_length (stage_exclusions_attribution ch performances)).
    clear. induction performances as [|p l IH]; simpl; [reflexivity|].
    unfold ConcreteFilter.first_exclusion at 1.
    rewrite length_app.
    destruct (forallb (fun c => ConcreteFilter.keeps c p) ch) eqn:E.
    - destruct (find _ ch) eqn:F.
      + apply find_some in F. destruct F as [Hin Hk].
        rewrite forallb_forall in E. rewrite (E _ Hin) in Hk. discriminate.
      + simpl. lia.
    - destruct (find _ ch) eqn:F.
      + simpl. lia.
      + exfalso. assert (forallb (fun c => ConcreteFilter.keeps c p) ch = true);
          [|congruence].
        apply forallb_forall. intros c Hin.
        pose proof (find_none _ _ F c Hin) as Hn. simpl in Hn.
        now destruct (ConcreteFilter.keeps c p). }
  assert (Hinc : List.filter (fun p => forallb (fun c => ConcreteFilter.keeps c p) chain)
                   performances
                 = List.filter (fun p => forallb (fun c => ConcreteFilter.keeps c p) chain')
                     performances)
    by (apply filter_ext; exact Hsame).
  repeat split.
  - exact Hinc.
  - apply stage_exclusions_attribution.
  - apply stage_exclusions_attribution.
  - pose proof (Hlen chain). pose proof (Hlen chain'). rewrite Hinc in *. lia.
  - apply Hlen.
Qed.

Lemma filter_per_record {A : Type} (keep : A -> bool) (l : list A) :
  List.filter keep l = flat_map (fun p => List.filter keep [p]) l.
Proof.
  induction l as [|p l IH]; simpl in *; [reflexivity|].
  destruct (keep p); simpl; now rewrite IH.
Qed.

Lemma date_range_single (self : DateRangeFilter.t) (perf : Performance.t) :
  DateRangeFilter.apply self [perf]
  = if DateRangeFilter.keeps self perf then FilterResult.mk [perf] []
    else FilterResult.mk [] [DateRangeFilter.exclusion self perf].
Proof.
  rewrite date_range_apply_eq. simpl. now destruct (DateRangeFilter.keeps self perf).
Qed.

(** C2. The date-range filter on a record: with neither an exact date nor a
    range the record is excluded; with an exact date [d] it is included
    exactly when [start <= d <= end], whatever its range is; with a range
    [rs, re] and no exact date it is included exactly when [rs <= end] and
    [start <= re].  A list of records is decided record by record. *)
Theorem date_range_rule (self : DateRangeFilter.t) (perf : Performance.t) :
  let result := DateRangeFilter.apply self [perf] in
  let start := DateRangeFilter.start_date self in
  let end_ := DateRangeFilter.end_date self in
  (Performance.performance_date perf = None ->
   Performance.performance_date_range perf = None ->
   fails_with result (DateRangeFilter.missing_date self perf))
  /\ (forall d, Performance.performance_date perf = Some d ->
       (passes result perf <-> Py.date_le start d = true /\ Py.date_le d end_ = true)
       /\ (~ passes result perf -> fails_with result (DateRangeFilter.outside self perf)))
  /\ (forall rs re, Performance.performance_date perf = None ->
       Performance.performance_date_range perf = Some (rs, re) ->
       (passes result perf <-> Py.date_le rs end_ = true /\ Py.date_le start re = true)
       /\ (~ passes result perf -> fails_with result (DateRangeFilter.outside self perf)))
  /\ (forall l, FilterResult.included (DateRangeFilter.apply self l)
       = flat_map (fun p => FilterResult.included (DateRangeFilter.apply self [p])) l).
Proof.
  cbv zeta. unfold passes, fails_with. rewrite date_range_single.
  unfold DateRangeFilter.keeps, DateRangeFilter.exclusion,
    Performance.has_valid_date, Performance.overlaps_range.
  split; [|split; [|split]].
  - intros -> ->. reflexivity.
  - intros d ->. simpl.
    destruct (Py.date_le _ d); destruct (Py.date_le d _); simpl;
      (split; [split; [intros E; now inversion E | now intros [? ?]]
              | intros Hn; solve [reflexivity | now destruct Hn]]).
  - intros rs re -> ->. simpl.
    destruct (Py.date_le rs _); destruct (Py.date_le _ re); simpl;
      (split; [split; [intros E; now inversion E | now intros [? ?]]
              | intros Hn; solve [reflexivity | now destruct Hn]]).
  - intros l. rewrite date_range_apply_eq. simpl.
    rewrite filter_per_record. apply flat_map_ext. intros p.
    now rewrite date_range_apply_eq.
Qed.

Lemma round_half_even_nearest (a b : Z) :
  (0 < b)%Z -> (2 * Z.abs (a - Py.round_half_even a b * b) <= b)%Z.
Proof.
  intros Hb. unfold Py.round_half_even.
  pose proof (Z.div_mod a b ltac:(lia)) as Hdm.
  pose proof (Z.mod_pos_bound a b Hb) as Hr.
  destruct (Z.compare_spec (2 * (a mod b)) b) as [E|E|E];
    [destruct (Z.even (a / b))| |]; nia.
Qed.

Lemma confidence_single (self : ConfidenceFilter.t) (perf : Performance.t) :
  ConfidenceFilter.apply self [perf]
  = if ConfidenceFilter.keeps self perf then FilterResult.mk [perf] []
    else FilterResult.mk [] [ConfidenceFilter.exclusion self perf].
Proof.
  rewrite confidence_apply_eq. simpl. now destruct (ConfidenceFilter.keeps self perf).
Qed.

(** C8. A confidence filter cannot be built with a threshold outside [0, 1]:
    the constructor raises [ValueError] (the error the specification calls
    InvalidConfiguration); inside [0, 1] it keeps the threshold as given.  The
    filter includes a record exactly when its score is at least the threshold
    and otherwise excludes it with the reason
    ["Confidence <score> below threshold <threshold>"], the score printed with
    two decimals, that is, as the hundredth nearest to it.  With threshold 0.5
    the score 0.49 is excluded with ["0.49"] in the reason and the score 0.5
    is included. *)
Theorem confidence_filter_rule :
  (forall m : Q, ~ ((0 <= m)%Q /\ (m <= 1)%Q) ->
     ConfidenceFilter.__init__ m
     = Py.Raise (Py.ValueError "min_confidence must be between 0.0 and 1.0"))
  /\ (forall m : Q, (0 <= m)%Q -> (m <= 1)%Q ->
        ConfidenceFilter.__init__ m = Py.Ok (ConfidenceFilter.mk m))
  /\ (forall (self : ConfidenceFilter.t) (perf : Performance.t),
        let result := ConfidenceFilter.apply self [perf] in
        let score := Performance.confidence_score perf in
        let threshold := ConfidenceFilter.min_confidence self in
        (passes result perf <-> (threshold <= score)%Q)
        /\ (~ (threshold <= score)%Q ->
            fails_with result
              (ExcludedItem.mk "performance" (perf_label perf)
                 ("Confidence " ++ Py.format_2f score ++ " below threshold "
                    ++ Py.str_float threshold)
                 (Some (ConfidenceFilter.name self)))))
  /\ (forall x : Q, (0 <= x)%Q ->
        exists n : Z,
          Py.format_2f x
          = (Py.str_int (n / 100) ++ "." ++ Py.zfill 2 (Py.str_int (n mod 100)))%string
          /\ (2 * Z.abs (100 * Qnum x - n * Zpos (Qden x)) <= Zpos (Qden x))%Z)
  /\ ConfidenceFilter.__init__ Sample.float_0_5 = Py.Ok Sample.at_least_half
  /\ fails_with (ConfidenceFilter.apply Sample.at_least_half [Sample.blondie])
       (ExcludedItem.mk "performance" "Blondie @ CBGB"
          ("Confidence 0.49 below threshold " ++ Py.str_float Sample.float_0_5)
          (Some (ConfidenceFilter.name Sample.at_least_half)))
  /\ passes (ConfidenceFilter.apply Sample.at_least_half [Sample.television])
       Sample.television.
Proof.
  split; [|split; [|split; [|split; [|split; [|split]]]]].
  - intros m Hm. unfold ConfidenceFilter.__init__.
    destruct (Qle_bool 0 m) eqn:E1; destruct (Qle_bool m 1) eqn:E2; simpl;
      try reflexivity.
    exfalso. apply Hm. split; now apply Qle_bool_iff.
  - intros m H0 H1. unfold ConfidenceFilter.__init__.
    apply Qle_bool_iff in H0, H1. now rewrite H0, H1.
  - intros self perf. cbv zeta. unfold passes, fails_with.
    rewrite confidence_single. unfold ConfidenceFilter.keeps.
    destruct (Qle_bool _ _) eqn:E.
    + apply Qle_bool_iff in E. split; [tauto|]. intros Hn. now destruct Hn.
    + split; [|reflexivity]. split; [intros Hc; inversion Hc|].
      intros Hle. apply Qle_bool_iff in Hle. congruence.
  - intros [a b] Hx. unfold Qle in Hx. simpl in Hx.
    exists (Py.round_half_even (Z.abs a * 100) (Zpos b)). split.
    + unfold Py.format_2f. simpl Qnum. simpl Qden.
      destruct (Z.ltb_spec a 0); [lia|]. reflexivity.
    + simpl Qnum. simpl Qden.
      pose proof (round_half_even_nearest (Z.abs a * 100) (Zpos b) ltac:(lia)).
      replace (100 * a)%Z with (Z.abs a * 100)%Z by lia. assumption.
  - reflexivity.
  - reflexivity.
  - reflexivity.
Qed.

Lemma field_single (self : FieldFilter.t) (perf : Performance.t) :
  FieldFilter.apply self [perf]
  = if FieldFilter.keeps self perf then FilterResult.mk [perf] []
    else FilterResult.mk [] [FieldFilter.exclusion self perf].
Proof.
  rewrite field_apply_eq. simpl. now destruct (FieldFilter.keeps self perf).
Qed.

Lemma verdict_cases (perf : Performance.t) (item : ExcludedItem.t) (keep : bool) (P : Prop) :
  (keep = true <-> P) ->
  let result := if keep then FilterResult.mk [perf] [] else FilterResult.mk [] [item] in
  (passes result perf <-> P) /\ (~ P -> fails_with result item).
Proof.
  intros HP. cbv zeta. unfold passes, fails_with. destruct keep.
  - split; [tauto|]. intros Hn. exfalso. apply Hn. now apply HP.
  - split; [|reflexivity]. split; [intros E; inversion E|].
    intros HPp. apply HP in HPp. discriminate.
Qed.

Lemma mem_normalized (field : string) (allowed : list scalar) (ci im : bool) (x : scalar) :
  let self := FieldFilter.__init__ field allowed ci im in
  let norm := fun v => if ci then FieldFilter.lower_if_str v else v in
  Value.mem (FieldFilter._normalize_value self x) (FieldFilter._normalized_allowed self) = true
  <-> exists a, In a allowed /\ Value.eqb (norm x) (norm a) = true.
Proof.
  cbv zeta. unfold FieldFilter._normalize_value, Value.mem. simpl.
  rewrite existsb_exists. destruct ci.
  - split.
    + intros [a' [Hin He]]. apply in_map_iff in Hin. destruct Hin as [a [<- Hin]]. eauto.
    + intros [a [Hin He]]. exists (FieldFilter.lower_if_str a). split; [|exact He].
      now apply in_map.
  - reflexivity.
Qed.

(** C9. The field filter on a record, for a filter built by its constructor.
    When the metadata has no value for the field (the key is missing or holds
    [None]) the record is included exactly when the include-missing flag is
    set.  When the value is a list the record is included exactly when some
    element matches an allowed value; otherwise exactly when the value itself
    does.  Matching is equality after both sides are lowercased, when they are
    strings and the case-insensitive flag is set.  With allowed values
    [{"punk", "rock"}], case-insensitive: genre ["Punk"] is included, genre
    [["Jazz", "Rock"]] is included, a missing genre is excluded. *)
Theorem field_filter_rule
    (field : string) (allowed : list scalar) (ci im : bool) (perf : Performance.t) :
  let self := FieldFilter.__init__ field allowed ci im in
  let result := FieldFilter.apply self [perf] in
  let stored := Performance.metadata perf !! field in
  let norm := fun v => if ci then FieldFilter.lower_if_str v else v in
  let matches := fun x => exists a, In a allowed /\ Value.eqb (norm x) (norm a) = true in
  (stored = None \/ stored = Some (VScalar SNone) ->
     (passes result perf <-> im = true)
     /\ (im <> true -> fails_with result (FieldFilter.missing self perf)))
  /\ (forall l, stored = Some (VList l) ->
        (passes result perf <-> exists x, In x l /\ matches x)
        /\ (~ (exists x, In x l /\ matches x) ->
            fails_with result (FieldFilter.not_allowed self perf (VList l))))
  /\ (forall x, stored = Some (VScalar x) -> x <> SNone ->
        (passes result perf <-> matches x)
        /\ (~ matches x ->
            fails_with result (FieldFilter.not_allowed self perf (VScalar x))))
  /\ passes (FieldFilter.apply Sample.punk_or_rock [Sample.ramones]) Sample.ramones
  /\ passes (FieldFilter.apply Sample.punk_or_rock [Sample.television]) Sample.television
  /\ fails_with (FieldFilter.apply Sample.punk_or_rock [Sample.blondie])
       (FieldFilter.missing Sample.punk_or_rock Sample.blondie).
Proof.
  cbv zeta. rewrite field_single.
  unfold FieldFilter.keeps, FieldFilter.exclusion, FieldFilter.field_value.
  change (FieldFilter.field (FieldFilter.__init__ field allowed ci im)) with field.
  split; [|split; [|split; [|split; [|split]]]].
  - intros Hs.
    assert (E : match Performance.metadata perf !! field with
                | Some (VScalar SNone) | None => None
                | Some v => Some v
                end = None) by (destruct Hs as [-> | ->]; reflexivity).
    rewrite E. apply verdict_cases. reflexivity.
  - intros l ->. apply verdict_cases. simpl. rewrite existsb_exists.
    split.
    + intros [x [Hin Hm]]. exists x. split; [exact Hin|].
      now apply (mem_normalized field allowed ci im x).
    + intros [x [Hin Hm]]. exists x. split; [exact Hin|].
      now apply (mem_normalized field allowed ci im x).
  - intros x -> Hx.
    assert (E : match x with SNone => @None value | _ => Some (VScalar x) end
                = Some (VScalar x)) by (destruct x; congruence).
    replace (match Some (VScalar x) with
             | Some (VScalar SNone) | None => None
             | Some v => Some v
             end) with (Some (VScalar x)) by (destruct x; congruence).
    apply verdict_cases. simpl. apply (mem_normalized field allowed ci im x).
  - vm_compute. reflexivity.
  - vm_compute. reflexivity.
  - reflexivity.
Qed.

End FilterFacts.

(** ** Stable sorting *)

Section Sorting.
Context {A : Type} (key : A -> Z).

Lemma insert_desc_perm (x : A) (l : list A) :
  Permutation (Py.insert_desc key x l) (x :: l).
Proof.
  induction l as [|y l IH]; simpl; [reflexivity|].
  destruct (key x <? key y)%Z; [|reflexivity].
  rewrite IH. apply perm_swap.
Qed.

Lemma sorted_desc_perm (l : list A) : Permutation (Py.sorted_desc key l) l.
Proof.
  induction l as [|x l IH]; simpl; [reflexivity|].
  rewrite insert_desc_perm. now constructor.
Qed.

Lemma insert_desc_sorted (x : A) (l : list A) :
  StronglySorted (fun a b => (key b <= key a)%Z) l ->
  StronglySorted (fun a b => (key b <= key a)%Z) (Py.insert_desc key x l).
Proof.
  induction 1 as [|y l Hs IH Hy]; simpl.
  - repeat constructor.
  - destruct (Z.ltb_spec (key x) (key y)).
    + constructor; [exact IH|].
      apply (Permutation_Forall (Permutation_sym (insert_desc_perm x l))).
      constructor; [lia|exact Hy].
    + constructor; [now constructor|].
      constructor; [exact H|].
      eapply List.Forall_impl; [|exact Hy]. simpl. intros a Ha. lia.
Qed.

Lemma sorted_desc_sorted (l : list A) :
  StronglySorted (fun a b => (key b <= key a)%Z) (Py.sorted_desc key l).
Proof.
  induction l as [|x l IH]; simpl; [constructor|].
  now apply insert_desc_sorted.
Qed.

Lemma insert_desc_stable (k : Z) (x : A) (l : list A) :
  StronglySorted (fun a b => (key b <= key a)%Z) l ->
  List.filter (fun a => (key a =? k)%Z) (Py.insert_desc key x l)
  = List.filter (fun a => (key a =? k)%Z) (x :: l).
Proof.
  induction 1 as [|y l Hs IH Hy]; [reflexivity|].
  cbn [Py.insert_desc]. destruct (Z.ltb_spec (key x) (key y)); [|reflexivity].
  cbn [List.filter] in *. rewrite IH.
  destruct (Z.eqb_spec (key x) k), (Z.eqb_spec (key y) k); try reflexivity; lia.
Qed.

Lemma sorted_desc_stable (k : Z) (l : list A) :
  List.filter (fun a => (key a =? k)%Z) (Py.sorted_desc key l)
  = List.filter (fun a => (key a =? k)%Z) l.
Proof.
  induction l as [|x l IH]; [reflexivity|].
  cbn [Py.sorted_desc fold_right].
  rewrite insert_desc_stable by apply sorted_desc_sorted.
  cbn [List.filter]. fold (Py.sorted_desc key l). now rewrite IH.
Qed.

Lemma insert_asc_desc (x : A) (l : list A) :
  Py.insert_asc key x l = Py.insert_desc (fun a => (- key a)%Z) x l.
Proof.
  induction l as [|y l IH]; simpl; [reflexivity|].
  rewrite IH.
  destruct (Z.ltb_spec (key y) (key x)), (Z.ltb_spec (- key x) (- key y));
    try reflexivity; lia.
Qed.

Lemma sorted_asc_desc (l : list A) :
  Py.sorted_asc key l = Py.sorted_desc (fun a => (- key a)%Z) l.
Proof.
  induction l as [|x l IH]; simpl; [reflexivity|].
  fold (Py.sorted_asc key l). fold (Py.sorted_desc (fun a => (- key a)%Z) l).
  now rewrite IH, insert_asc_desc.
Qed.

End Sorting.

Lemma sorted_asc_perm {A : Type} (key : A -> Z) (l : list A) :
  Permutation (Py.sorted_asc key l) l.
Proof. rewrite sorted_asc_desc. apply sorted_desc_perm. Qed.

Lemma sorted_asc_sorted {A : Type} (key : A -> Z) (l : list A) :
  StronglySorted (fun a b => (key a <= key b)%Z) (Py.sorted_asc key l).
Proof.
  rewrite sorted_asc_desc.
  eapply StronglySorted_ind with (P := StronglySorted (fun a b => (key a <= key b)%Z));
    [constructor| |apply (sorted_desc_sorted (fun a => (- key a)%Z))].
  intros a l' _ IH Ha. constructor; [exact IH|].
  eapply List.Forall_impl; [|exact Ha]. simpl. intros b Hb. lia.
Qed.

Lemma sorted_asc_stable {A : Type} (key : A -> Z) (k : Z) (l : list A) :
  List.filter (fun a => (key a =? k)%Z) (Py.sorted_asc key l)
  = List.filter (fun a => (key a =? k)%Z) l.
Proof.
  rewrite sorted_asc_desc.
  assert (E : forall a, (key a =? k)%Z = (- key a =? - k)%Z)
    by (intros a; destruct (Z.eqb_spec (key a) k), (Z.eqb_spec (- key a) (- k));
        try reflexivity; lia).
  rewrite !(filter_ext _ _ E).
  apply (sorted_desc_stable (fun a => (- key a)%Z) (- k)%Z l).
Qed.

(** Sorting pairs by their first component, as the era-weighted strategy does. *)
Lemma sorted_desc_decorated {A : Type} (key : A -> Z) (l : list A) :
  Py.sorted_desc fst (map (fun t => (key t, t)) l)
  = map (fun t => (key t, t)) (Py.sorted_desc key l).
Proof.
  induction l as [|x l IH]; [reflexivity|].
  cbn [map Py.sorted_desc fold_right].
  fold (Py.sorted_desc (@fst Z A) (map (fun t => (key t, t)) l)).
  fold (Py.sorted_desc key l). rewrite IH.
  generalize (Py.sorted_desc key l). intros s.
  induction s as [|y s IHs]; [reflexivity|].
  simpl. destruct (key x <? key y)%Z; simpl; [now rewrite IHs|reflexivity].
Qed.

(** ** The strategy resolver *)

Lemma split_no_sep (sep : ascii) (s : string) :
  Py.contains sep s = false -> Py.split sep s = [s].
Proof.
  induction s as [|c s IH]; simpl; [reflexivity|].
  destruct (Ascii.eqb c sep); simpl; [discriminate|].
  intros Hc. now rewrite IH.
Qed.

Lemma split_first (sep : ascii) (prefix rest : string) :
  Py.contains sep prefix = false ->
  Py.split sep (prefix ++ String sep rest) = prefix :: Py.split sep rest.
Proof.
  induction prefix as [|c s IH]; simpl.
  - intros _. now rewrite Ascii.eqb_refl.
  - destruct (Ascii.eqb c sep); simpl; [discriminate|].
    intros Hc. now rewrite IH.
Qed.

Lemma contains_app_sep (sep : ascii) (prefix rest : string) :
  Py.contains sep (prefix ++ String sep rest) = true.
Proof.
  induction prefix as [|c s IH]; simpl.
  - now rewrite Ascii.eqb_refl.
  - rewrite IH. apply orb_true_r.
Qed.

Lemma get_strategy_prefix (name : string) (max_popularity : option Z) :
  get_strategy name max_popularity
  = match strategies !! Py.lower (hd "" (Py.split "-" name)) with
    | None =>
        (Strategy.top_n, [Warning "unknown_strategy" [("name", name); ("fallback", "top_n")]])
    | Some Strategy.DeepCuts =>
        (Strategy.deep_cuts (DeepCutsStrategy.mk (default 60%Z max_popularity)), [])
    | Some Strategy.TopN => (Strategy.top_n, [])
    | Some Strategy.RandomN => (Strategy.random_n, [])
    | Some Strategy.EraWeighted => (Strategy.era_weighted, [])
    end.
Proof.
  unfold get_strategy. destruct (Py.contains "-" name) eqn:E; [reflexivity|].
  now rewrite (split_no_sep _ _ E).
Qed.

(** C7. The resolver looks up the lowercased part of the token before its
    first hyphen in the table: [top] and [top_n] give Top-N, [random] and
    [random_n] Random-N, [era] and [era_weighted] Era-weighted, [deep] and
    [deep_cuts] Deep-cuts (with [max_popularity] 60 unless given), and nothing
    is logged; any other prefix gives Top-N and logs the warning
    [unknown_strategy].  What follows the first hyphen plays no part.  The
    resolver is a total function: it returns a strategy for every token.
    ["deep-4"] gives Deep-cuts and ["xyz-2"] gives Top-N. *)
Theorem get_strategy_rule (name : string) (max_popularity : option Z) :
  let prefix := Py.lower (hd "" (Py.split "-" name)) in
  let resolved := get_strategy name max_popularity in
  let warning := Warning "unknown_strategy" [("name", name); ("fallback", "top_n")] in
  (prefix = "top" \/ prefix = "top_n" -> resolved = (Strategy.top_n, []))
  /\ (prefix = "random" \/ prefix = "random_n" -> resolved = (Strategy.random_n, []))
  /\ (prefix = "era" \/ prefix = "era_weighted" -> resolved = (Strategy.era_weighted, []))
  /\ (prefix = "deep" \/ prefix = "deep_cuts" ->
      resolved
      = (Strategy.deep_cuts (DeepCutsStrategy.mk (default 60%Z max_popularity)), []))
  /\ (~ In prefix ["top"; "top_n"; "random"; "random_n"; "era"; "era_weighted";
                   "deep"; "deep_cuts"] ->
      resolved = (Strategy.top_n, [warning]))
  /\ (forall before after : string,
        Py.contains "-" before = false ->
        hd "" (Py.split "-" (before ++ String "-" after)) = before
        /\ fst (get_strategy (before ++ String "-" after) max_popularity)
           = fst (get_strategy before max_popularity))
  /\ fst (get_strategy "deep-4" None) = Strategy.deep_cuts (DeepCutsStrategy.mk 60%Z)
  /\ get_strategy "xyz-2" None
     = (Strategy.top_n,
        [Warning "unknown_strategy" [("name", "xyz-2"); ("fallback", "top_n")]]).
Proof.
  cbv zeta. rewrite get_strategy_prefix.
  split; [|split; [|split; [|split; [|split; [|split; [|split]]]]]].
  - intros [-> | ->]; vm_compute; reflexivity.
  - intros [-> | ->]; vm_compute; reflexivity.
  - intros [-> | ->]; vm_compute; reflexivity.
  - intros [-> | ->]; reflexivity.
  - intros Hn.
    assert (E : strategies !! Py.lower (hd "" (Py.split "-" name)) = None).
    { unfold strategies. apply not_elem_of_list_to_map_1.
      rewrite list_elem_of_In. exact Hn. }
    now rewrite E.
  - intros before after Hb. rewrite split_first by exact Hb. split; [reflexivity|].
    rewrite !get_strategy_prefix, split_first by exact Hb.
    rewrite (split_no_sep _ _ Hb). simpl hd.
    destruct (strategies !! Py.lower before) as [[]|]; reflexivity.
  - vm_compute. reflexivity.
  - vm_compute. reflexivity.
Qed.

(** ** The era-weighted strategy *)

Lemma split_cons (sep : ascii) (s : string) :
  exists h t, Py.split sep s = h :: t.
Proof.
  induction s as [|c s [h [t IH]]]; simpl; [eauto|].
  destruct (Ascii.eqb c sep); [eauto|]. rewrite IH. eauto.
Qed.

Lemma era_score_eq (performance_date : Py.date) (t : TrackData.t) :
  EraWeightedStrategy.score_in_range performance_date t = true ->
  EraWeightedStrategy._calculate_era_score
    (default "" (TrackData.release_date t)) performance_date
  = Py.Ok (EraWeightedStrategy.era_score (Py.year performance_date) t).
Proof.
  unfold EraWeightedStrategy.score_in_range, EraWeightedStrategy.era_score,
    EraWeightedStrategy.release_year, EraWeightedStrategy._calculate_era_score.
  destruct (TrackData.release_date t) as [s|]; simpl; [|reflexivity].
  destruct (String.eqb s ""); [reflexivity|].
  destruct (split_cons "-" s) as [h [tl ->]]. simpl.
  destruct (Py.int h) as [y|]; [|reflexivity].
  intros Hr. apply Z.ltb_lt in Hr.
  destruct (Z.leb_spec Py.float_overflow (Z.abs (y - Py.year performance_date) * 10));
    [lia|].
  do 2 f_equal. lia.
Qed.

Lemma mapM_decorate {A B : Type} (f : A -> Py.result B) (g : A -> B) (l : list A) :
  Forall (fun t => f t = Py.Ok (g t)) l ->
  Py.mapM (fun t => Py.bind (f t) (fun s => Py.Ok (s, t))) l
  = Py.Ok (map (fun t => (g t, t)) l).
Proof.
  induction 1 as [|t l Ht Hl IH]; simpl; [reflexivity|].
  now rewrite Ht, IH.
Qed.

Lemma slice_to_map {A B : Type} (f : A -> B) (l : list A) (n : Z) :
  map f (Py.slice_to l n) = Py.slice_to (map f l) n.
Proof.
  unfold Py.slice_to. rewrite length_map. destruct (0 <=? n)%Z; symmetry; apply firstn_map.
Qed.

Lemma slice_to_firstn {A : Type} (l : list A) (n : Z) :
  (0 <= n)%Z -> Py.slice_to l n = firstn (Z.to_nat n) l.
Proof.
  intros Hn. unfold Py.slice_to. now destruct (Z.leb_spec 0 n); [|lia].
Qed.

Lemma era_select_eq
    (artist_id artist_name : string) (tracks : list TrackData.t)
    (performance_date : Py.date) (count : Z) :
  Forall (fun t => EraWeightedStrategy.score_in_range performance_date t = true) tracks ->
  EraWeightedStrategy.select_tracks artist_id artist_name tracks
    (Some performance_date) count
  = Py.mapM
      (fun t =>
         BaseStrategy._track_to_model EraWeightedStrategy.name t
           (EraWeightedStrategy.reason t))
      (Py.slice_to
         (Py.sorted_desc (EraWeightedStrategy.era_score (Py.year performance_date)) tracks)
         count).
Proof.
  intros Hrange. unfold EraWeightedStrategy.select_tracks.
  rewrite (mapM_decorate _
             (EraWeightedStrategy.era_score (Py.year performance_date))).
  - simpl. rewrite sorted_desc_decorated, slice_to_map, map_map. simpl.
    now rewrite map_id.
  - eapply List.Forall_impl; [|exact Hrange]. simpl. intros t Ht.
    now apply era_score_eq.
Qed.

(** C3. Without a performance date the era-weighted strategy returns what
    Top-N returns.  With one, every track gets the score
    [max(0, 100 - 10 * |release year - performance year|)], 0 when the release
    date is missing or its year does not parse; the tracks are ranked by
    descending score, tracks of equal score staying in catalog order; and the
    first [count] of the ranking are returned.  For performance year 1978 the
    tracks released in 1977, 1978 and 1985 score 90, 100 and 30, and with
    [count = 2] the result is the 1978 track, then the 1977 track. *)
Theorem era_weighted_rule
    (artist_id artist_name : string) (tracks : list TrackData.t)
    (performance_date : Py.date) (count : Z) :
  Forall (fun t => EraWeightedStrategy.score_in_range performance_date t = true) tracks ->
  let score := EraWeightedStrategy.era_score (Py.year performance_date) in
  let ranked := Py.sorted_desc score tracks in
  EraWeightedStrategy.select_tracks artist_id artist_name tracks None count
  = TopNStrategy.select_tracks artist_id artist_name tracks None count
  /\ Forall
       (fun t =>
          EraWeightedStrategy._calculate_era_score
            (default "" (TrackData.release_date t)) performance_date
          = Py.Ok (score t)
          /\ (EraWeightedStrategy.release_year t = None -> score t = 0%Z)
          /\ (forall y, EraWeightedStrategy.release_year t = Some y ->
              score t = Z.max 0 (100 - 10 * Z.abs (y - Py.year performance_date))))
       tracks
  /\ EraWeightedStrategy.select_tracks artist_id artist_name tracks
       (Some performance_date) count
     = Py.mapM
         (fun t =>
            BaseStrategy._track_to_model EraWeightedStrategy.name t
              (EraWeightedStrategy.reason t))
         (Py.slice_to ranked count)
  /\ ((0 <= count)%Z -> Py.slice_to ranked count = firstn (Z.to_nat count) ranked)
  /\ Permutation ranked tracks
  /\ StronglySorted (fun a b => (score b <= score a)%Z) ranked
  /\ (forall k, List.filter (fun t => (score t =? k)%Z) ranked
                = List.filter (fun t => (score t =? k)%Z) tracks)
  /\ map (EraWeightedStrategy.era_score 1978) [Sample.judy; Sample.sedated; Sample.bonzo]
     = [90; 100; 30]%Z
  /\ EraWeightedStrategy.select_tracks "a1" "Ramones"
       [Sample.judy; Sample.sedated; Sample.bonzo] (Some Sample.october_1978) 2
     = Py.Ok
         [ Track.mk "t2" "I Wanna Be Sedated" "Ramones" "Collected"
             (Some (Py.mkdate 1978 9 22)) 70 "era_weighted"
             "Era-weighted: released 1978-09-22";
           Track.mk "t1" "Judy Is a Punk" "Ramones" "Collected"
             (Some (Py.mkdate 1977 1 1)) 10 "era_weighted"
             "Era-weighted: released 1977" ].
Proof.
  intros Hrange. cbv zeta.
  split; [reflexivity|].
  split.
  { eapply List.Forall_impl; [|exact Hrange]. simpl. intros t Ht.
    split; [now apply era_score_eq|].
    unfold EraWeightedStrategy.era_score.
    split; [now intros ->|now intros y ->]. }
  split.
  { now apply era_select_eq. }
  split; [apply slice_to_firstn|].
  split; [apply sorted_desc_perm|].
  split; [apply sorted_desc_sorted|].
  split; [intros k; apply sorted_desc_stable|].
  split; vm_compute; reflexivity.
Qed.

Lemma era_weighted_rule_witness :
  EraWeightedStrategy.select_tracks "a1" "Ramones" Sample.catalog
    (Some Sample.october_1978) 2
  = Py.mapM
      (fun t =>
         BaseStrategy._track_to_model EraWeightedStrategy.name t
           (EraWeightedStrategy.reason t))
      (Py.slice_to
         (Py.sorted_desc (EraWeightedStrategy.era_score 1978) Sample.catalog) 2).
Proof.
  refine (proj1 (proj2 (proj2
    (era_weighted_rule "a1" "Ramones" Sample.catalog Sample.october_1978 2 _)))).
  repeat constructor.
Defined.

(** ** Building the [Track] models *)

Lemma try_date_total (y m d : option Z) :
  (forall z, y = Some z -> Py.fits_c_int z = true) ->
  (forall z, m = Some z -> Py.fits_c_int z = true) ->
  (forall z, d = Some z -> Py.fits_c_int z = true) ->
  exists r, BaseStrategy.try_date y m d = Py.Ok r.
Proof.
  intros Hy Hm Hd. unfold BaseStrategy.try_date.
  destruct y as [y|]; [|eauto]. destruct m as [m|]; [|eauto].
  destruct d as [d|]; [|eauto].
  unfold Py.date_new.
  rewrite (Hy y eq_refl), (Hm m eq_refl), (Hd d eq_refl). simpl.
  repeat match goal with
         | |- context [if negb ?b then _ else _] => destruct b; simpl
         end; eauto.
Qed.

Lemma parse_release_date_total (s : string) :
  forallb (fun part => match Py.int part with
                       | Some z => Py.fits_c_int z
                       | None => true
                       end) (Py.split "-" s) = true ->
  exists r, BaseStrategy.parse_release_date s = Py.Ok r.
Proof.
  intros Hparts. unfold BaseStrategy.parse_release_date.
  destruct (String.eqb s ""); [eauto|].
  rewrite forallb_forall in Hparts.
  assert (Hfit : forall part z, In part (Py.split "-" s) -> Py.int part = Some z ->
                                Py.fits_c_int z = true).
  { intros part z Hin Hz. specialize (Hparts part Hin). now rewrite Hz in Hparts. }
  assert (H1 : forall z, Some 1%Z = Some z -> Py.fits_c_int z = true)
    by (intros z [= <-]; reflexivity).
  destruct (Py.split "-" s) as [|p0 [|p1 [|p2 rest]]]; [eauto| | |].
  - destruct (Py.isdigit p0); [|eauto].
    apply try_date_total; auto. intros z. apply Hfit. now left.
  - apply try_date_total; auto; intros z; apply Hfit; simpl; auto.
  - apply try_date_total; intros z; apply Hfit; simpl; auto.
Qed.

Lemma model_total (self_name : string) (t : TrackData.t) (reason : string) :
  TrackData.well_formed t = true ->
  exists m, BaseStrategy._track_to_model self_name t reason = Py.Ok m.
Proof.
  unfold TrackData.well_formed. rewrite !andb_true_iff.
  intros [[[Hkeys Hartists] Hpop] Hdate].
  unfold BaseStrategy._track_to_model.
  assert (Hp : exists r, BaseStrategy.parse_release_date
                           (default "" (TrackData.release_date t)) = Py.Ok r).
  { destruct (TrackData.release_date t) as [s|]; simpl.
    - now apply parse_release_date_total.
    - now exists None. }
  destruct Hp as [r ->]. simpl.
  destruct (TrackData.id t); [|discriminate].
  destruct (TrackData.name t); [|discriminate].
  unfold TrackData.popularity_or_0, Track.new.
  destruct (TrackData.popularity t) as [p|].
  - rewrite Hpop. destruct (TrackData.artists t) as [[|a l]|]; [discriminate| |]; simpl; eauto.
  - destruct (TrackData.artists t) as [[|a l]|]; [discriminate| |]; simpl; eauto.
Qed.

Lemma model_fields (self_name : string) (t : TrackData.t) (reason : string) (m : Track.t) :
  BaseStrategy._track_to_model self_name t reason = Py.Ok m ->
  TrackData.id t = Some (Track.spotify_id m)
  /\ TrackData.name t = Some (Track.name m)
  /\ Track.popularity m = TrackData.popularity_or_0 t
  /\ Track.selection_strategy m = self_name
  /\ Track.selection_reason m = reason.
Proof.
  unfold BaseStrategy._track_to_model, Py.bind, Track.new.
  destruct (BaseStrategy.parse_release_date _); [|discriminate].
  destruct (TrackData.id t); [|discriminate].
  destruct (TrackData.name t); [|discriminate].
  destruct (default _ (TrackData.artists t)); [discriminate|].
  destruct (_ && _); [|discriminate].
  intros [= <-]. simpl. auto.
Qed.

Lemma mapM_total {A B : Type} (f : A -> Py.result B) (l : list A) :
  Forall (fun t => exists m, f t = Py.Ok m) l ->
  exists ms, Py.mapM f l = Py.Ok ms.
Proof.
  induction 1 as [|t l [m Hm] Hl [ms IH]]; simpl; [eauto|].
  rewrite Hm, IH. simpl. eauto.
Qed.

Lemma mapM_Forall2 {A B : Type} (f : A -> Py.result B) (l : list A) (ms : list B) :
  Py.mapM f l = Py.Ok ms -> Forall2 (fun t m => f t = Py.Ok m) l ms.
Proof.
  revert ms. induction l as [|t l IH]; simpl; intros ms.
  - intros [= <-]. constructor.
  - destruct (f t) as [m|] eqn:Hm; simpl; [|discriminate].
    destruct (Py.mapM f l) as [ms'|]; simpl; [|discriminate].
    intros [= <-]. constructor; auto.
Qed.

Lemma mapM_enum_total {A B : Type} (f : Z -> A -> Py.result B) (l : list A) :
  Forall (fun t => forall i, exists m, f i t = Py.Ok m) l ->
  forall i, exists ms, Py.mapM_enum f i l = Py.Ok ms /\ length ms = length l.
Proof.
  induction 1 as [|t l Ht Hl IH]; simpl; intros i; [eauto|].
  destruct (Ht i) as [m ->]. destruct (IH (i + 1)%Z) as [ms [-> Hlen]].
  simpl. eexists. split; [reflexivity|]. simpl. now rewrite Hlen.
Qed.

(** ** Drawing from a pool *)

Lemma picks_facts {A : Type} (population : list A) (k : nat) (chosen : list A) :
  Random.picks population k chosen ->
  length chosen = k /\ Forall (fun x => In x population) chosen.
Proof.
  intros [positions [_ [Hlen Hall]]]. split.
  - rewrite <- Hlen. symmetry. clear Hlen. induction Hall; simpl; congruence.
  - clear Hlen. induction Hall as [|i x ps xs Hx _ IH]; constructor; [|exact IH].
    eapply nth_error_In. exact Hx.
Qed.

Lemma first_positions_contract : Random.contract Random.first_positions.
Proof.
  intros A population k Hk. simpl.
  exists (seq 0 k). split; [apply NoDup_seq|]. split; [apply length_seq|].
  revert k Hk. induction population as [|x l IH] using rev_ind; intros k Hk.
  - simpl in Hk. assert (k = 0) as -> by lia. constructor.
  - rewrite length_app in Hk. simpl in Hk.
    destruct (Nat.eq_dec k (length l + 1)) as [->|Hne].
    + rewrite firstn_all2 by (rewrite length_app; simpl; lia).
      rewrite seq_app. apply Forall2_app.
      * specialize (IH (length l) (le_n _)). rewrite firstn_all in IH.
        eapply Forall2_impl; [exact IH|]. simpl. intros i y Hy.
        rewrite nth_error_app1; [exact Hy|].
        apply nth_error_Some. congruence.
      * simpl. constructor; [|constructor].
        rewrite nth_error_app2 by lia. now rewrite Nat.sub_diag.
    + rewrite firstn_app. replace (k - length l) with 0 by lia.
      simpl. rewrite app_nil_r.
      eapply Forall2_impl; [apply IH; lia|]. simpl. intros i y Hy.
      rewrite nth_error_app1; [exact Hy|].
      apply nth_error_Some. congruence.
Qed.

Section Draw.
Context `{R : Random.Source} (contract : Random.contract R).
Context {A : Type} (pool : list A) (count : Z).

Lemma choose_spec :
  (0 <= count)%Z ->
  exists selected,
    (if (Py.len pool <=? count)%Z then Py.Ok pool else Random.sample pool count)
    = Py.Ok selected
    /\ (Py.len selected <= count)%Z
    /\ Forall (fun x => In x pool) selected
    /\ ((Py.len pool <= count)%Z -> selected = pool)
    /\ ((count < Py.len pool)%Z ->
        selected = Random.random_sample pool (Z.to_nat count)
        /\ Random.picks pool (Z.to_nat count) selected
        /\ Py.len selected = count).
Proof using contract.
  intros Hc. unfold Py.len, Random.sample.
  destruct (Z.leb_spec (Z.of_nat (length pool)) count) as [Hle|Hlt].
  - exists pool. split; [reflexivity|]. split; [exact Hle|].
    split; [apply List.Forall_forall; auto|]. split; [reflexivity|]. lia.
  - assert (Hk : Z.to_nat count <= length pool) by lia.
    destruct (picks_facts _ _ _ (contract A pool (Z.to_nat count) Hk)) as [Hlen Hin].
    exists (Random.random_sample pool (Z.to_nat count)).
    unfold Py.len.
    destruct (Z.ltb_spec count 0); [lia|].
    destruct (Z.ltb_spec (Z.of_nat (length pool)) count); [lia|]. simpl.
    split; [reflexivity|]. split; [lia|]. split; [exact Hin|]. split; [lia|].
    intros _. split; [reflexivity|]. split; [now apply contract|lia].
Qed.
End Draw.

(** ** No strategy raises on a well-formed catalog *)

Lemma float_overflow_large : (2 ^ 40 < Py.float_overflow)%Z.
Proof. vm_compute. reflexivity. Qed.

Lemma date_new_year (y m d : Z) (x : Py.date) :
  Py.date_new y m d = Py.Ok x -> (1 <= Py.year x <= 9999)%Z.
Proof.
  unfold Py.date_new.
  destruct (negb _); [discriminate|].
  destruct (Z.leb_spec 1 y), (Z.leb_spec y 9999); simpl; try discriminate.
  destruct (negb _); [discriminate|].
  destruct (negb _); [discriminate|].
  intros [= <-]. simpl. lia.
Qed.

Lemma wf_score_in_range (performance_date : Py.date) (t : TrackData.t) :
  (1 <= Py.year performance_date <= 9999)%Z ->
  TrackData.well_formed t = true ->
  EraWeightedStrategy.score_in_range performance_date t = true.
Proof.
  intros Hyear. unfold TrackData.well_formed. rewrite !andb_true_iff.
  intros [_ Hdate].
  unfold EraWeightedStrategy.score_in_range, EraWeightedStrategy.release_year.
  destruct (TrackData.release_date t) as [s|]; [|reflexivity].
  destruct (String.eqb s ""); [reflexivity|].
  destruct (split_cons "-" s) as [h [tl E]]. rewrite E in *. simpl in *.
  destruct (Py.int h) as [y|]; [|reflexivity].
  apply andb_true_iff in Hdate. destruct Hdate as [Hfit _].
  unfold Py.fits_c_int in Hfit. apply andb_true_iff in Hfit.
  destruct Hfit as [Hlo Hhi]. apply Z.leb_le in Hlo. apply Z.ltb_lt in Hhi.
  apply Z.ltb_lt. pose proof float_overflow_large.
  change (2 ^ 31)%Z with 2147483648%Z in *.
  change (2 ^ 40)%Z with 1099511627776%Z in *. lia.
Qed.

Lemma Forall_firstn_of {A : Type} (P : A -> Prop) (n : nat) (l : list A) :
  Forall P l -> Forall P (firstn n l).
Proof.
  intros H. revert n. induction H; intros [|n]; simpl; constructor; auto.
Qed.

Lemma length_firstn_le {A : Type} (n : nat) (l : list A) :
  length (firstn n l) <= n /\ length (firstn n l) <= length l.
Proof. rewrite length_firstn. lia. Qed.

Lemma pool_from_tracks (self : DeepCutsStrategy.t) (tracks : list TrackData.t) (count : Z) :
  Forall (fun t => In t tracks) (DeepCutsStrategy.pool self tracks count).
Proof.
  unfold DeepCutsStrategy.pool.
  destruct (List.filter _ tracks) as [|t l] eqn:E.
  - unfold Py.slice_to. destruct (0 <=? count * 2)%Z; apply Forall_firstn_of;
      apply List.Forall_forall; intros x Hx;
      apply (Permutation_in _ (sorted_asc_perm TrackData.popularity_or_0 tracks)), Hx.
  - rewrite <- E. apply List.Forall_forall. intros x Hx.
    apply filter_In in Hx. tauto.
Qed.

Lemma Forall_In_trans {A : Type} (P : A -> Prop) (l l' : list A) :
  Forall P l -> Forall (fun x => In x l) l' -> Forall P l'.
Proof.
  intros H H'. rewrite List.Forall_forall in H.
  eapply List.Forall_impl; [|exact H']. exact H.
Qed.

Lemma mapM_length {A B : Type} (f : A -> Py.result B) (l : list A) (ms : list B) :
  Py.mapM f l = Py.Ok ms -> length ms = length l.
Proof.
  intros H. apply mapM_Forall2 in H. symmetry. induction H; simpl; congruence.
Qed.

Section Totality.
Context `{R : Random.Source} (contract : Random.contract R).
Context (artist_id artist_name : string) (tracks : list TrackData.t).
Context (performance_date : option Py.date) (count : Z).
Hypothesis catalog_well_formed : Forall (fun t => TrackData.well_formed t = true) tracks.
Hypothesis date_exists : forall d, performance_date = Some d ->
  Py.date_new (Py.year d) (Py.month d) (Py.day d) = Py.Ok d.
Hypothesis count_nonneg : (0 <= count)%Z.

Lemma top_n_total :
  exists selected,
    TopNStrategy.select_tracks artist_id artist_name tracks performance_date count
    = Py.Ok selected
    /\ (Py.len selected <= count)%Z /\ (tracks = [] -> selected = []).
Proof using catalog_well_formed count_nonneg.
  unfold TopNStrategy.select_tracks. rewrite slice_to_firstn by exact count_nonneg.
  destruct (mapM_enum_total
              (fun i t => BaseStrategy._track_to_model TopNStrategy.name t
                            ("Top " ++ Py.str_int (i + 1) ++ " by popularity"))
              (firstn (Z.to_nat count) tracks)) with (i := 0%Z) as [ms [E Hlen]].
  { apply Forall_firstn_of. eapply List.Forall_impl; [|exact catalog_well_formed].
    simpl. intros t Ht i. now apply model_total. }
  exists ms. split; [exact E|]. split.
  - unfold Py.len. rewrite Hlen. pose proof (length_firstn_le (Z.to_nat count) tracks). lia.
  - intros ->. rewrite firstn_nil in Hlen. now destruct ms.
Qed.

Lemma all_models_total (self_name : string) (reason : TrackData.t -> string)
    (selected : list TrackData.t) :
  Forall (fun t => In t tracks) selected ->
  exists ms,
    Py.mapM (fun t => BaseStrategy._track_to_model self_name t (reason t)) selected
    = Py.Ok ms
    /\ length ms = length selected.
Proof using catalog_well_formed.
  intros Hin.
  destruct (mapM_total
              (fun t => BaseStrategy._track_to_model self_name t (reason t)) selected)
    as [ms E].
  { eapply List.Forall_impl; [|exact (Forall_In_trans _ _ _ catalog_well_formed Hin)].
    simpl. intros t Ht. now apply model_total. }
  exists ms. split; [exact E|]. now apply mapM_length in E.
Qed.

Lemma drawn_total (self_name : string) (reason : TrackData.t -> string)
    (pool : list TrackData.t) :
  Forall (fun t => In t tracks) pool ->
  exists selected,
    Py.bind
      (if (Py.len pool <=? count)%Z then Py.Ok pool else Random.sample pool count)
      (fun chosen =>
         Py.mapM (fun t => BaseStrategy._track_to_model self_name t (reason t)) chosen)
    = Py.Ok selected
    /\ (Py.len selected <= count)%Z /\ (pool = [] -> selected = []).
Proof using catalog_well_formed count_nonneg contract.
  intros Hpool.
  destruct (choose_spec contract pool count count_nonneg)
    as [chosen [-> [Hlen [Hin [Hall _]]]]].
  simpl.
  destruct (all_models_total self_name reason chosen) as [ms [E Hms]].
  { rewrite List.Forall_forall in Hpool. eapply List.Forall_impl; [|exact Hin].
    exact Hpool. }
  exists ms. split; [exact E|]. split.
  - unfold Py.len in *. lia.
  - intros ->. rewrite Hall in Hms by (unfold Py.len; simpl; lia). now destruct ms.
Qed.

(** C6. On a catalog of well-formed tracks, with a nonnegative [count] and
    any performance date, each of the four strategies returns a list, of at
    most [count] tracks, and the empty list for the empty catalog. *)
Theorem select_tracks_total (s : Strategy.t) :
  exists selected,
    Strategy.select_tracks s artist_id artist_name tracks performance_date count
    = Py.Ok selected
    /\ (Py.len selected <= count)%Z
    /\ (tracks = [] -> selected = []).
Proof using catalog_well_formed date_exists count_nonneg contract.
  destruct s as [| | |self]; simpl.
  - apply top_n_total.
  - unfold RandomNStrategy.select_tracks.
    apply drawn_total. apply List.Forall_forall. auto.
  - destruct performance_date as [d|] eqn:Ed.
    + rewrite era_select_eq.
      * rewrite slice_to_firstn by exact count_nonneg.
        set (ranked := Py.sorted_desc _ tracks).
        destruct (all_models_total EraWeightedStrategy.name EraWeightedStrategy.reason
                    (firstn (Z.to_nat count) ranked)) as [ms [E Hms]].
        { apply Forall_firstn_of. apply List.Forall_forall. intros x Hx.
          apply (Permutation_in _
                   (sorted_desc_perm (EraWeightedStrategy.era_score (Py.year d)) tracks)),
            Hx. }
        exists ms. split; [exact E|]. split.
        -- unfold Py.len. rewrite Hms.
           pose proof (length_firstn_le (Z.to_nat count) ranked). lia.
        -- intros ->. subst ranked. simpl in Hms. rewrite firstn_nil in Hms.
           now destruct ms.
      * eapply List.Forall_impl; [|exact catalog_well_formed]. simpl. intros t.
        apply wf_score_in_range. eapply date_new_year. now apply date_exists.
    + pose proof top_n_total as H. rewrite Ed in H. exact H.
  - unfold DeepCutsStrategy.select_tracks.
    destruct (drawn_total (DeepCutsStrategy.name self) DeepCutsStrategy.reason
                (DeepCutsStrategy.pool self tracks count)) as [ms [E [Hlen Hnil]]].
    { apply pool_from_tracks. }
    exists ms. split; [exact E|]. split; [exact Hlen|].
    intros ->. apply Hnil. unfold DeepCutsStrategy.pool. simpl.
    unfold Py.slice_to. destruct (0 <=? count * 2)%Z; apply firstn_nil.
Qed.

End Totality.

Lemma select_tracks_total_witness :
  exists selected,
    Strategy.select_tracks (H := Random.first_positions) Strategy.era_weighted
      "a1" "Ramones" Sample.catalog (Some Sample.october_1978) 2
    = Py.Ok selected
    /\ (Py.len selected <= 2)%Z
    /\ (Sample.catalog = [] -> selected = []).
Proof.
  apply (select_tracks_total first_positions_contract "a1" "Ramones" Sample.catalog
           (Some Sample.october_1978) 2).
  - repeat constructor.
  - intros d [= <-]. reflexivity.
  - lia.
Defined.

(** ** The deep-cuts strategy *)

Lemma pool_cases (self : DeepCutsStrategy.t) (tracks : list TrackData.t) (count : Z) :
  let candidates :=
    List.filter
      (fun t => (TrackData.popularity_or_0 t <=? DeepCutsStrategy.max_popularity self)%Z)
      tracks in
  (candidates <> [] -> DeepCutsStrategy.pool self tracks count = candidates)
  /\ (candidates = [] ->
      DeepCutsStrategy.pool self tracks count
      = Py.slice_to (Py.sorted_asc TrackData.popularity_or_0 tracks) (count * 2)).
Proof.
  cbv zeta. unfold DeepCutsStrategy.pool.
  destruct (List.filter _ tracks); split; congruence.
Qed.

Section DeepCuts.
Context `{R : Random.Source} (contract : Random.contract R).

(** C4. The deep-cuts strategy, whose [max_popularity] is 60 unless given.
    Its candidates are the tracks with popularity at most [max_popularity];
    the pool is the candidates, or, when there are none, the first
    [2 * count] tracks of the catalog sorted by ascending popularity.  The
    strategy returns the models of the whole pool when the pool has at most
    [count] tracks, and otherwise of the [count] tracks that [random.sample]
    draws from the pool, at distinct positions.  Every selected track is in
    the pool, and the reason of one that has a popularity reads
    ["Deep cut: popularity <value>"].  With [max_popularity] 60 and
    popularities 10, 70, 55, 90, 40 the pool is the tracks of popularity 10,
    55, 40, and [count = 2] returns two tracks with popularities among
    these. *)
Theorem deep_cuts_rule
    (self : DeepCutsStrategy.t) (artist_id artist_name : string)
    (tracks : list TrackData.t) (performance_date : option Py.date) (count : Z) :
  (0 <= count)%Z ->
  let candidates :=
    List.filter
      (fun t => (TrackData.popularity_or_0 t <=? DeepCutsStrategy.max_popularity self)%Z)
      tracks in
  let by_popularity := Py.sorted_asc TrackData.popularity_or_0 tracks in
  let pool := DeepCutsStrategy.pool self tracks count in
  let model := fun t =>
    BaseStrategy._track_to_model (DeepCutsStrategy.name self) t (DeepCutsStrategy.reason t) in
  let returned :=
    DeepCutsStrategy.select_tracks self artist_id artist_name tracks performance_date count in
  DeepCutsStrategy.default_max_popularity = 60%Z
  /\ (candidates <> [] -> pool = candidates)
  /\ (candidates = [] -> pool = firstn (Z.to_nat (2 * count)) by_popularity)
  /\ Permutation by_popularity tracks
  /\ StronglySorted
       (fun a b => (TrackData.popularity_or_0 a <= TrackData.popularity_or_0 b)%Z)
       by_popularity
  /\ (exists selected,
        returned = Py.mapM model selected
        /\ ((Py.len pool <= count)%Z -> selected = pool)
        /\ ((count < Py.len pool)%Z ->
            selected = Random.random_sample pool (Z.to_nat count)
            /\ Random.picks pool (Z.to_nat count) selected
            /\ Py.len selected = count)
        /\ Forall (fun t => In t pool) selected
        /\ Forall
             (fun t => forall p, TrackData.popularity t = Some p ->
                DeepCutsStrategy.reason t = ("Deep cut: popularity " ++ Py.str_int p)%string)
             selected
        /\ (forall result, returned = Py.Ok result ->
            Forall2
              (fun t r =>
                 model t = Py.Ok r
                 /\ Track.selection_reason r = DeepCutsStrategy.reason t
                 /\ Track.popularity r = TrackData.popularity_or_0 t)
              selected result))
  /\ DeepCutsStrategy.pool (DeepCutsStrategy.mk 60) Sample.catalog 2
     = [Sample.judy; Sample.bonzo; Sample.outtake]
  /\ (exists result,
        DeepCutsStrategy.select_tracks (DeepCutsStrategy.mk 60) "a1" "Ramones"
          Sample.catalog None 2
        = Py.Ok result
        /\ length result = 2
        /\ Forall (fun r => In (Track.popularity r) [10; 55; 40]%Z) result).
Proof using contract.
  intros Hcount. cbv zeta.
  destruct (pool_cases self tracks count) as [Hsome Hnone].
  split; [reflexivity|]. split; [exact Hsome|].
  split.
  { intros E. rewrite (Hnone E), slice_to_firstn by lia. f_equal. f_equal. lia. }
  split; [apply sorted_asc_perm|]. split; [apply sorted_asc_sorted|].
  split.
  { unfold DeepCutsStrategy.select_tracks.
    destruct (choose_spec contract (DeepCutsStrategy.pool self tracks count) count Hcount)
      as [selected [-> [_ [Hin [Hall Hdraw]]]]].
    exists selected. simpl.
    split; [reflexivity|]. split; [exact Hall|]. split; [exact Hdraw|].
    split; [exact Hin|]. split.
    - apply List.Forall_forall. intros t _ p Hp. unfold DeepCutsStrategy.reason.
      now rewrite Hp.
    - intros result Hres. apply mapM_Forall2 in Hres.
      eapply Forall2_impl; [exact Hres|]. simpl. intros t r Hr.
      split; [exact Hr|]. apply model_fields in Hr. tauto. }
  split; [reflexivity|].
  unfold DeepCutsStrategy.select_tracks.
  change (DeepCutsStrategy.pool (DeepCutsStrategy.mk 60) Sample.catalog 2)
    with [Sample.judy; Sample.bonzo; Sample.outtake].
  destruct (choose_spec contract [Sample.judy; Sample.bonzo; Sample.outtake] 2 ltac:(lia))
    as [selected [-> [_ [Hin [_ Hdraw]]]]].
  destruct Hdraw as [_ [_ Hlen]]; [reflexivity|]. simpl.
  destruct (mapM_total
              (fun t => BaseStrategy._track_to_model
                          (DeepCutsStrategy.name (DeepCutsStrategy.mk 60)) t
                          (DeepCutsStrategy.reason t)) selected) as [ms E].
  { eapply List.Forall_impl; [|exact Hin]. simpl. intros t Ht. apply model_total.
    destruct Ht as [<-|[<-|[<-|[]]]]; reflexivity. }
  exists ms. split; [exact E|]. split.
  - apply mapM_length in E. unfold Py.len in Hlen. lia.
  - apply mapM_Forall2 in E. clear Hlen.
    induction E as [|t r ts rs Hr _ IH]; constructor.
    + apply model_fields in Hr. destruct Hr as [_ [_ [-> _]]].
      apply Forall_inv in Hin. simpl in Hin.
      destruct Hin as [<-|[<-|[<-|[]]]]; simpl; auto.
    + apply IH. eapply Forall_inv_tail. exact Hin.
Qed.

End DeepCuts.

Lemma deep_cuts_rule_witness :
  exists selected,
    DeepCutsStrategy.select_tracks (H := Random.first_positions) (DeepCutsStrategy.mk 60)
      "a1" "Ramones" Sample.catalog None 2
    = Py.mapM
        (fun t =>
           BaseStrategy._track_to_model (DeepCutsStrategy.name (DeepCutsStrategy.mk 60)) t
             (DeepCutsStrategy.reason t))
        selected
    /\ Forall (fun t => In t (DeepCutsStrategy.pool (DeepCutsStrategy.mk 60) Sample.catalog 2))
         selected.
Proof.
  destruct (deep_cuts_rule first_positions_contract (DeepCutsStrategy.mk 60)
              "a1" "Ramones" Sample.catalog None 2 ltac:(lia))
    as [_ [_ [_ [_ [_ [[selected [E [_ [_ [Hin _]]]]] _]]]]]].
  exists selected. split; [exact E|exact Hin].
Defined.

(** ** Tracks without a popularity *)

Lemma sorted_nth {A : Type} (before : A -> A -> Prop) (l : list A) :
  StronglySorted before l ->
  forall i j a b, i < j -> nth_error l i = Some a -> nth_error l j = Some b -> before a b.
Proof.
  induction 1 as [|x l Hs IH Hx]; intros i j a b Hij Ha Hb.
  - destruct i; discriminate.
  - destruct j as [|j]; [lia|]. simpl in Hb. destruct i as [|i]; simpl in Ha.
    + injection Ha as <-. rewrite List.Forall_forall in Hx. apply Hx.
      eapply nth_error_In. exact Hb.
    + apply (IH i j); [lia|assumption|assumption].
Qed.

Lemma slice_to_prefix {A : Type} (l : list A) (n : Z) :
  exists k, Py.slice_to l n = firstn k l.
Proof. unfold Py.slice_to. destruct (0 <=? n)%Z; eauto. Qed.

Lemma nth_error_firstn_some {A : Type} (l : list A) (k j : nat) (x : A) :
  nth_error (firstn k l) j = Some x -> j < k /\ nth_error l j = Some x.
Proof.
  revert k j. induction l as [|y l IH]; intros [|k] [|j]; simpl; try discriminate.
  - intros H. split; [lia|exact H].
  - intros H. apply IH in H. split; [lia|tauto].
Qed.

Lemma nth_error_firstn_lt {A : Type} (l : list A) (k i : nat) :
  i < k -> nth_error (firstn k l) i = nth_error l i.
Proof.
  revert k i. induction l as [|y l IH]; intros [|k] [|i] H; simpl; try reflexivity; try lia.
  apply IH. lia.
Qed.

(** C10, as the code has it.  A track without a popularity counts as
    popularity 0.  It is a candidate of the deep-cuts strategy, and so in its
    pool, whenever [max_popularity] is not negative.  In the catalog sorted by
    ascending popularity it stands before every track of positive popularity;
    so when there are no candidates, which for a catalog holding such a track
    means a negative [max_popularity], a track of positive popularity is in
    the pool only behind it. *)
Theorem missing_popularity_rule
    (self : DeepCutsStrategy.t) (tracks : list TrackData.t) (count : Z)
    (t : TrackData.t) :
  TrackData.popularity t = None ->
  In t tracks ->
  let candidates :=
    List.filter
      (fun u => (TrackData.popularity_or_0 u <=? DeepCutsStrategy.max_popularity self)%Z)
      tracks in
  let by_popularity := Py.sorted_asc TrackData.popularity_or_0 tracks in
  let pool := DeepCutsStrategy.pool self tracks count in
  TrackData.popularity_or_0 t = 0%Z
  /\ ((0 <= DeepCutsStrategy.max_popularity self)%Z -> In t candidates /\ In t pool)
  /\ (forall i j u,
        nth_error by_popularity i = Some t ->
        nth_error by_popularity j = Some u ->
        (0 < TrackData.popularity_or_0 u)%Z -> i < j)
  /\ (candidates = [] ->
      (DeepCutsStrategy.max_popularity self < 0)%Z
      /\ forall j u,
           nth_error pool j = Some u -> (0 < TrackData.popularity_or_0 u)%Z ->
           exists i, i < j /\ nth_error pool i = Some t).
Proof.
  intros Hpop Hin. cbv zeta.
  assert (Hzero : TrackData.popularity_or_0 t = 0%Z)
    by (unfold TrackData.popularity_or_0; now rewrite Hpop).
  assert (Hcand : (0 <= DeepCutsStrategy.max_popularity self)%Z ->
                  In t (List.filter
                          (fun u => (TrackData.popularity_or_0 u
                                     <=? DeepCutsStrategy.max_popularity self)%Z) tracks)).
  { intros Hmax. apply filter_In. split; [exact Hin|]. rewrite Hzero. now apply Z.leb_le. }
  assert (Hahead : forall i j u,
             nth_error (Py.sorted_asc TrackData.popularity_or_0 tracks) i = Some t ->
             nth_error (Py.sorted_asc TrackData.popularity_or_0 tracks) j = Some u ->
             (0 < TrackData.popularity_or_0 u)%Z -> i < j).
  { intros i j u Hi Hj Hu.
    destruct (Nat.lt_trichotomy i j) as [Hlt|[Heq|Hgt]]; [exact Hlt| |].
    - subst j. rewrite Hi in Hj. injection Hj as <-. lia.
    - pose proof (sorted_nth _ _ (sorted_asc_sorted TrackData.popularity_or_0 tracks)
                    j i u t Hgt Hj Hi) as Hle.
      simpl in Hle. lia. }
  split; [exact Hzero|]. split.
  { intros Hmax. split; [now apply Hcand|].
    destruct (pool_cases self tracks count) as [Hsome _].
    rewrite Hsome; [now apply Hcand|].
    intros E. specialize (Hcand Hmax). rewrite E in Hcand. destruct Hcand. }
  split; [exact Hahead|].
  intros E. split.
  { destruct (Z.lt_ge_cases (DeepCutsStrategy.max_popularity self) 0) as [Hneg|Hmax];
      [exact Hneg|].
    specialize (Hcand Hmax). rewrite E in Hcand. destruct Hcand. }
  intros j u Hj Hu.
  destruct (pool_cases self tracks count) as [_ Hnone]. rewrite (Hnone E) in *.
  destruct (slice_to_prefix (Py.sorted_asc TrackData.popularity_or_0 tracks) (count * 2))
    as [k Ek].
  rewrite Ek in *. apply nth_error_firstn_some in Hj. destruct Hj as [Hjk Hj].
  assert (Hsorted_in : In t (Py.sorted_asc TrackData.popularity_or_0 tracks))
    by (apply (Permutation_in _ (Permutation_sym (sorted_asc_perm _ tracks))), Hin).
  apply In_nth_error in Hsorted_in. destruct Hsorted_in as [i Hi].
  exists i. pose proof (Hahead i j u Hi Hj Hu) as Hij.
  split; [exact Hij|]. rewrite nth_error_firstn_lt by lia. exact Hi.
Qed.

Lemma missing_popularity_rule_witness :
  In Sample.unrated
     (DeepCutsStrategy.pool (DeepCutsStrategy.mk 60)
        [Sample.blitzkrieg; Sample.unrated] 1).
Proof.
  refine (proj2 (proj1 (proj2
    (missing_popularity_rule (DeepCutsStrategy.mk 60) [Sample.blitzkrieg; Sample.unrated] 1
       Sample.unrated eq_refl _)) _)).
  - simpl. auto.
  - simpl. lia.
Defined.

(** C10, as stated, fails for a negative [max_popularity]: with
    [max_popularity = -1] the track without a popularity is no candidate, and
    with [count = 0] the strategy returns nothing at all. *)
Lemma missing_popularity_counterexample :
  TrackData.popularity Sample.unrated = None
  /\ List.filter
       (fun u => (TrackData.popularity_or_0 u
                  <=? DeepCutsStrategy.max_popularity (DeepCutsStrategy.mk (-1)))%Z)
       [Sample.blitzkrieg; Sample.unrated] = []
  /\ DeepCutsStrategy.pool (DeepCutsStrategy.mk (-1)) [Sample.blitzkrieg; Sample.unrated] 0
     = []
  /\ DeepCutsStrategy.select_tracks (H := Random.first_positions) (DeepCutsStrategy.mk (-1))
       "a1" "Ramones" [Sample.blitzkrieg; Sample.unrated] None 0
     = Py.Ok [].
Proof. repeat split. Qed.

(** ** One chain, two orders *)

Lemma chain_order_independent_witness :
  let chain := [ConcreteFilter.DateRange Sample.autumn_1978;
                ConcreteFilter.Confidence Sample.at_least_half] in
  let chain' := [ConcreteFilter.Confidence Sample.at_least_half;
                 ConcreteFilter.DateRange Sample.autumn_1978] in
  let gigs := [Sample.ramones; Sample.television; Sample.blondie; Sample.undated] in
  FilterResult.included
    (FilterChain.apply (map (ConcreteFilter.as_filter (H := Sample.repr)) chain) gigs)
  = FilterResult.included
      (FilterChain.apply (map (ConcreteFilter.as_filter (H := Sample.repr)) chain') gigs).
Proof.
  cbv zeta.
  refine (proj1 (chain_order_independent (H := Sample.repr) _ _ _ _)).
  apply perm_swap.
Defined.

(** The record that fails both filters is excluded under either order, by the
    filter that comes first. *)
Example chain_order_changes_reason :
  let by_date := FilterChain.apply
      (map (ConcreteFilter.as_filter (H := Sample.repr))
         [ConcreteFilter.DateRange Sample.autumn_1978;
          ConcreteFilter.Confidence Sample.at_least_half]) [Sample.blondie] in
  let by_score := FilterChain.apply
      (map (ConcreteFilter.as_filter (H := Sample.repr))
         [ConcreteFilter.Confidence Sample.at_least_half;
          ConcreteFilter.DateRange Sample.autumn_1978]) [Sample.blondie] in
  FilterResult.included by_date = [] /\ FilterResult.included by_score = []
  /\ map ExcludedItem.reason (FilterResult.excluded by_date)
     = ["Date 1977-03-02 outside range 1978-09-01 to 1978-12-31"]
  /\ map ExcludedItem.reason (FilterResult.excluded by_score)
     = ["Confidence 0.49 below threshold 0.50"].
Proof. repeat split. Qed.

(** The examples of the specification for the date-range filter and Top-N. *)
Example date_range_on_samples :
  passes (DateRangeFilter.apply Sample.autumn_1978 [Sample.ramones]) Sample.ramones
  /\ map ExcludedItem.reason
       (FilterResult.excluded (DateRangeFilter.apply Sample.autumn_1978
          [Sample.ramones; Sample.television; Sample.undated]))
     = ["Date (datetime.date(1978, 6, 1), datetime.date(1978, 8, 1)) outside range 1978-09-01 to 1978-12-31";
        "No temporal evidence (missing date)"].
Proof. repeat split. Qed.

Example top_n_on_samples :
  option_map (map (fun t => (Track.name t, Track.selection_reason t)))
    (match TopNStrategy.select_tracks "a1" "Ramones" Sample.catalog None 3 with
     | Py.Ok l => Some l
     | Py.Raise _ => None
     end)
  = Some [("Judy Is a Punk", "Top 1 by popularity");
          ("I Wanna Be Sedated", "Top 2 by popularity");
          ("Bonzo Goes to Bitburg", "Top 3 by popularity")].
Proof. vm_compute. reflexivity. Qed.


(** * Further properties of the filters *)

Lemma chain_fold_prefix (chain : list Filter.t) (current : list Performance.t)
    (all_excluded : list ExcludedItem.t) :
  fold_left
    (fun '(current, all_excluded) filter =>
       let result := Filter.apply filter current in
       (FilterResult.included result, all_excluded ++ FilterResult.excluded result))
    chain (current, all_excluded)
  = (FilterResult.included (FilterChain.apply chain current),
     all_excluded ++ FilterResult.excluded (FilterChain.apply chain current)).
Proof.
  unfold FilterChain.apply. revert current all_excluded.
  induction chain as [|f chain IH]; intros current all_excluded; simpl.
  - now rewrite app_nil_r.
  - rewrite IH. rewrite (IH _ (FilterResult.excluded (Filter.apply f current))).
    simpl. now rewrite app_assoc.
Qed.

Lemma chain_apply_result (chain : list Filter.t) (l : list Performance.t) :
  fold_left
    (fun '(current, all_excluded) filter =>
       let result := Filter.apply filter current in
       (FilterResult.included result, all_excluded ++ FilterResult.excluded result))
    chain (l, [])
  = (FilterResult.included (FilterChain.apply chain l),
     FilterResult.excluded (FilterChain.apply chain l)).
Proof. now rewrite chain_fold_prefix. Qed.

(** X1. A chain of any filters composes: running two chains one after the
    other, the second on what the first included, is running their
    concatenation; the exclusions of the first come before those of the
    second.  In particular [add] puts a filter last, and the empty chain
    returns its input with no exclusion. *)
Theorem chain_composes (chain chain' : FilterChain.t) (l : list Performance.t) :
  let first := FilterChain.apply chain l in
  let second := FilterChain.apply chain' (FilterResult.included first) in
  FilterChain.apply (chain ++ chain') l
  = FilterResult.mk (FilterResult.included second)
      (FilterResult.excluded first ++ FilterResult.excluded second)
  /\ (forall f : Filter.t,
        let last := Filter.apply f (FilterResult.included first) in
        FilterChain.apply (FilterChain.add chain f) l
        = FilterResult.mk (FilterResult.included last)
            (FilterResult.excluded first ++ FilterResult.excluded last))
  /\ FilterChain.apply FilterChain.__init__ l = FilterResult.mk l [].
Proof.
  cbv zeta.
  assert (Happ : forall c c',
    FilterChain.apply (c ++ c') l
    = FilterResult.mk
        (FilterResult.included
           (FilterChain.apply c' (FilterResult.included (FilterChain.apply c l))))
        (FilterResult.excluded (FilterChain.apply c l)
           ++ FilterResult.excluded
                (FilterChain.apply c' (FilterResult.included (FilterChain.apply c l))))).
  { intros c c'. unfold FilterChain.apply at 1.
    rewrite fold_left_app, chain_apply_result, chain_fold_prefix. reflexivity. }
  split; [apply Happ|]. split; [|reflexivity].
  intros f. unfold FilterChain.add. rewrite Happ. reflexivity.
Qed.

Lemma filter_filter_same {A : Type} (keep : A -> bool) (l : list A) :
  List.filter keep (List.filter keep l) = List.filter keep l
  /\ List.filter (fun p => negb (keep p)) (List.filter keep l) = [].
Proof.
  induction l as [|p l [IH1 IH2]]; simpl; [auto|].
  destruct (keep p) eqn:E; simpl; [|auto].
  rewrite E. simpl. now rewrite IH1, IH2.
Qed.

Lemma stage_exclusions_none `{Py.Repr} (chain : list ConcreteFilter.t)
    (l : list Performance.t) :
  Forall (fun p => forallb (fun c => ConcreteFilter.keeps c p) chain = true) l ->
  ConcreteFilter.stage_exclusions chain l = [].
Proof.
  revert l. induction chain as [|c chain IH]; intros l Hall; simpl; [reflexivity|].
  assert (Hc : Forall (fun p => ConcreteFilter.keeps c p = true) l).
  { eapply List.Forall_impl; [|exact Hall]. simpl. intros p Hp.
    now apply andb_true_iff in Hp. }
  assert (Hkeep : List.filter (ConcreteFilter.keeps c) l = l).
  { clear Hall IH. induction Hc as [|p l' Hp _ IHl]; simpl; [reflexivity|].
    now rewrite Hp, IHl. }
  assert (Hdrop : List.filter (fun p => negb (ConcreteFilter.keeps c p)) l = []).
  { clear Hall IH Hkeep. induction Hc as [|p l' Hp _ IHl]; simpl; [reflexivity|].
    now rewrite Hp. }
  rewrite Hkeep, Hdrop. simpl. apply IH.
  eapply List.Forall_impl; [|exact Hall]. simpl. intros p Hp.
  now apply andb_true_iff in Hp.
Qed.

(** X2. Filtering is idempotent.  A filter applied to the records it has
    included includes them all again and excludes nothing; the same holds for a
    whole chain of the three filters. *)
Theorem filters_idempotent `{Py.Repr}
    (c : ConcreteFilter.t) (chain : list ConcreteFilter.t) (l : list Performance.t) :
  let once := Filter.apply (ConcreteFilter.as_filter c) l in
  let through := FilterChain.apply (map ConcreteFilter.as_filter chain) l in
  Filter.apply (ConcreteFilter.as_filter c) (FilterResult.included once)
  = FilterResult.mk (FilterResult.included once) []
  /\ FilterChain.apply (map ConcreteFilter.as_filter chain) (FilterResult.included through)
     = FilterResult.mk (FilterResult.included through) [].
Proof.
  cbv zeta. split.
  - rewrite !concrete_apply_eq. simpl.
    destruct (filter_filter_same (ConcreteFilter.keeps c) l) as [-> ->]. reflexivity.
  - rewrite !chain_apply_eq. simpl.
    destruct (filter_filter_same
                (fun p => forallb (fun c => ConcreteFilter.keeps c p) chain) l)
      as [-> _].
    f_equal. apply stage_exclusions_none.
    apply List.Forall_forall. intros p Hp. apply filter_In in Hp. tauto.
Qed.

Lemma filter_sublist_of {A : Type} (narrow wide : A -> bool) (l : list A) :
  (forall p, narrow p = true -> wide p = true) ->
  sublist (List.filter narrow l) (List.filter wide l)
  /\ List.filter narrow (List.filter wide l) = List.filter narrow l.
Proof.
  intros Himp. induction l as [|p l [IH1 IH2]]; simpl; [split; [constructor|reflexivity]|].
  destruct (narrow p) eqn:En.
  - rewrite (Himp p En). simpl. rewrite En. split; [now constructor|now rewrite IH2].
  - destruct (wide p); simpl; [rewrite En|]; split; auto. now constructor.
Qed.

(** X3. Raising the confidence threshold only removes records: what the
    stricter filter includes is a sublist of what the laxer one includes, and
    filtering with the laxer one first changes nothing. *)
Theorem confidence_threshold_monotone `{Py.Repr}
    (lax strict : ConfidenceFilter.t) (l : list Performance.t) :
  (ConfidenceFilter.min_confidence lax <= ConfidenceFilter.min_confidence strict)%Q ->
  let by_lax := FilterResult.included (ConfidenceFilter.apply lax l) in
  let by_strict := FilterResult.included (ConfidenceFilter.apply strict l) in
  sublist by_strict by_lax
  /\ FilterResult.included (ConfidenceFilter.apply strict by_lax) = by_strict
  /\ length (FilterResult.excluded (ConfidenceFilter.apply lax l))
     <= length (FilterResult.excluded (ConfidenceFilter.apply strict l)).
Proof.
  intros Hle. cbv zeta. rewrite !confidence_apply_eq. simpl.
  destruct (filter_sublist_of (ConfidenceFilter.keeps strict) (ConfidenceFilter.keeps lax) l)
    as [Hsub Hre].
  { unfold ConfidenceFilter.keeps. intros p Hp. apply Qle_bool_iff in Hp.
    apply Qle_bool_iff. eapply Qle_trans; eassumption. }
  split; [exact Hsub|]. split; [exact Hre|].
  rewrite !length_map.
  pose proof (filter_split_length (ConfidenceFilter.keeps lax) l).
  pose proof (filter_split_length (ConfidenceFilter.keeps strict) l).
  pose proof (sublist_length _ _ Hsub). lia.
Qed.

Lemma confidence_threshold_monotone_witness :
  sublist
    (FilterResult.included
       (ConfidenceFilter.apply (H := Sample.repr) (ConfidenceFilter.mk 1)
          [Sample.ramones; Sample.television; Sample.blondie]))
    (FilterResult.included
       (ConfidenceFilter.apply (H := Sample.repr) Sample.at_least_half
          [Sample.ramones; Sample.television; Sample.blondie])).
Proof.
  refine (proj1 (confidence_threshold_monotone (H := Sample.repr) Sample.at_least_half
                   (ConfidenceFilter.mk 1)
                   [Sample.ramones; Sample.television; Sample.blondie] _)).
  vm_compute. discriminate.
Defined.

(** X4. Widening the window of a date-range filter only adds records: with an
    earlier start and a later end, everything the narrow filter includes is
    included by the wide one, in the same order. *)
Theorem date_window_monotone (narrow wide : DateRangeFilter.t) (l : list Performance.t) :
  Py.date_le (DateRangeFilter.start_date wide) (DateRangeFilter.start_date narrow) = true ->
  Py.date_le (DateRangeFilter.end_date narrow) (DateRangeFilter.end_date wide) = true ->
  let by_narrow := FilterResult.included (DateRangeFilter.apply narrow l) in
  let by_wide := FilterResult.included (DateRangeFilter.apply wide l) in
  sublist by_narrow by_wide
  /\ FilterResult.included (DateRangeFilter.apply narrow by_wide) = by_narrow.
Proof.
  intros Hstart Hend. cbv zeta. rewrite !date_range_apply_eq. simpl.
  apply filter_sublist_of. intros p.
  unfold DateRangeFilter.keeps, Performance.overlaps_range.
  destruct (Performance.has_valid_date p); simpl; [|discriminate].
  destruct (Performance.performance_date p) as [d|].
  - rewrite !andb_true_iff. intros [H1 H2]. split.
    + eapply date_le_trans; eassumption.
    + eapply date_le_trans; eassumption.
  - destruct (Performance.performance_date_range p) as [[rs re]|]; [|discriminate].
    rewrite !andb_true_iff. intros [H1 H2]. split.
    + eapply date_le_trans; eassumption.
    + eapply date_le_trans; eassumption.
Qed.

Lemma date_window_monotone_witness :
  sublist
    (FilterResult.included
       (DateRangeFilter.apply Sample.autumn_1978
          [Sample.ramones; Sample.television; Sample.blondie]))
    (FilterResult.included
       (DateRangeFilter.apply
          (DateRangeFilter.__init__ (Py.mkdate 1978 1 1) (Py.mkdate 1980 12 31))
          [Sample.ramones; Sample.television; Sample.blondie])).
Proof.
  refine (proj1 (date_window_monotone Sample.autumn_1978
                   (DateRangeFilter.__init__ (Py.mkdate 1978 1 1) (Py.mkdate 1980 12 31))
                   [Sample.ramones; Sample.television; Sample.blondie] _ _));
    reflexivity.
Defined.

(** X5. The overlap test of [overlaps_range] is exact.  For a record that has
    only a range [rs, re], with [rs <= re], and a window with [start <= end],
    the test holds exactly when some date lies in both; and with an inverted
    window ([end] before [start]) no record with an exact date passes. *)
Theorem overlap_is_common_date
    (perf : Performance.t) (rs re start end_ : Py.date) :
  Performance.performance_date perf = None ->
  Performance.performance_date_range perf = Some (rs, re) ->
  Py.date_le rs re = true ->
  Py.date_le start end_ = true ->
  (Performance.overlaps_range perf start end_ = true
   <-> exists d, Py.date_le rs d = true /\ Py.date_le d re = true
                 /\ Py.date_le start d = true /\ Py.date_le d end_ = true)
  /\ (forall (dated : Performance.t) (d s e : Py.date),
        Performance.performance_date dated = Some d ->
        Py.date_le s e = false ->
        Performance.overlaps_range dated s e = false).
Proof.
  intros Hd Hr Hrange Hwindow. split.
  - unfold Performance.overlaps_range. rewrite Hd, Hr. rewrite andb_true_iff. split.
    + intros [H1 H2]. destruct (Py.date_le rs start) eqn:E.
      * exists start. repeat split; auto. apply date_le_refl.
      * exists rs. repeat split; auto; [apply date_le_refl|].
        destruct (date_le_total rs start) as [Ht|Ht]; [congruence|exact Ht].
    + intros [d [H1 [H2 [H3 H4]]]]. split; eapply date_le_trans; eassumption.
  - intros dated d s e Hdated Hinv. unfold Performance.overlaps_range. rewrite Hdated.
    destruct (Py.date_le s d) eqn:E1; [|reflexivity].
    destruct (Py.date_le d e) eqn:E2; [|reflexivity].
    rewrite (date_le_trans _ _ _ E1 E2) in Hinv. discriminate.
Qed.

Lemma overlap_is_common_date_witness :
  Performance.overlaps_range Sample.television (Py.mkdate 1978 7 1) (Py.mkdate 1978 12 31)
  = true
  <-> exists d, Py.date_le (Py.mkdate 1978 6 1) d = true
                /\ Py.date_le d (Py.mkdate 1978 8 1) = true
                /\ Py.date_le (Py.mkdate 1978 7 1) d = true
                /\ Py.date_le d (Py.mkdate 1978 12 31) = true.
Proof.
  refine (proj1 (overlap_is_common_date Sample.television
                   (Py.mkdate 1978 6 1) (Py.mkdate 1978 8 1)
                   (Py.mkdate 1978 7 1) (Py.mkdate 1978 12 31) _ _ _ _));
    reflexivity.
Defined.

Lemma exclusion_fields `{Py.Repr} (c : ConcreteFilter.t) (perf : Performance.t) :
  ExcludedItem.item_type (ConcreteFilter.exclusion c perf) = "performance"
  /\ ExcludedItem.name (ConcreteFilter.exclusion c perf) = perf_label perf
  /\ ExcludedItem.filter_name (ConcreteFilter.exclusion c perf)
     = Some (Filter.name (ConcreteFilter.as_filter c)).
Proof.
  destruct c as [f|f|f]; simpl.
  - auto.
  - unfold DateRangeFilter.exclusion. destruct (negb _); simpl; auto.
  - unfold FieldFilter.exclusion. destruct (FieldFilter.field_value f perf); simpl; auto.
Qed.

(** X6. Every exclusion can be traced.  An item excluded by one of the three
    filters has type ["performance"], is named ["<artist> @ <venue>"] after an
    input record the filter does not keep, and carries the name of the filter;
    an item excluded by a chain carries the name of one of the filters of the
    chain, which does not keep the record. *)
Theorem exclusions_are_attributed `{Py.Repr}
    (c : ConcreteFilter.t) (chain : list ConcreteFilter.t) (l : list Performance.t) :
  Forall
    (fun item =>
       ExcludedItem.item_type item = "performance"
       /\ ExcludedItem.filter_name item = Some (Filter.name (ConcreteFilter.as_filter c))
       /\ exists perf, In perf l /\ ConcreteFilter.keeps c perf = false
                       /\ ExcludedItem.name item = perf_label perf)
    (FilterResult.excluded (Filter.apply (ConcreteFilter.as_filter c) l))
  /\ Forall
       (fun item =>
          ExcludedItem.item_type item = "performance"
          /\ exists c' perf,
               In c' chain /\ In perf l /\ ConcreteFilter.keeps c' perf = false
               /\ ExcludedItem.filter_name item
                  = Some (Filter.name (ConcreteFilter.as_filter c'))
               /\ ExcludedItem.name item = perf_label perf)
       (FilterResult.excluded (FilterChain.apply (map ConcreteFilter.as_filter chain) l)).
Proof.
  split.
  - rewrite concrete_apply_eq. simpl. apply List.Forall_forall. intros item Hin.
    apply in_map_iff in Hin. destruct Hin as [perf [<- Hperf]].
    apply filter_In in Hperf. destruct Hperf as [Hperf Hk].
    destruct (exclusion_fields c perf) as [H1 [H2 H3]].
    split; [exact H1|]. split; [exact H3|]. exists perf.
    repeat split; auto. now destruct (ConcreteFilter.keeps c perf).
  - rewrite chain_apply_eq. simpl.
    apply (Permutation_Forall (Permutation_sym (stage_exclusions_attribution chain l))).
    apply List.Forall_forall. intros item Hin. apply in_flat_map in Hin.
    destruct Hin as [perf [Hperf Hitem]]. unfold ConcreteFilter.first_exclusion in Hitem.
    destruct (find _ chain) as [c'|] eqn:F; [|destruct Hitem].
    destruct Hitem as [<-|[]]. apply find_some in F. destruct F as [Hc' Hk].
    destruct (exclusion_fields c' perf) as [H1 [H2 H3]].
    split; [exact H1|]. exists c', perf. repeat split; auto.
    now destruct (ConcreteFilter.keeps c' perf).
Qed.

Lemma lower_char_idempotent (c : ascii) : Py.lower_char (Py.lower_char c) = Py.lower_char c.
Proof. destruct c as [[] [] [] [] [] [] [] []]; reflexivity. Qed.

Lemma lower_idempotent (s : string) : Py.lower (Py.lower s) = Py.lower s.
Proof.
  induction s as [|c s IH]; simpl; [reflexivity|].
  now rewrite lower_char_idempotent, IH.
Qed.

(** X7. A case-insensitive field filter does not see letter case.  Two
    filters whose allowed values agree after lowercasing include the same
    records, so the allowed values may as well be given in lower case; and two
    records whose stored strings agree after lowercasing get the same
    verdict. *)
Theorem case_insensitive_verdicts `{Py.Repr}
    (field : string) (allowed allowed' : list scalar) (im : bool)
    (l : list Performance.t) :
  map FieldFilter.lower_if_str allowed = map FieldFilter.lower_if_str allowed' ->
  let self := FieldFilter.__init__ field allowed true im in
  let self' := FieldFilter.__init__ field allowed' true im in
  FilterResult.included (FieldFilter.apply self l)
  = FilterResult.included (FieldFilter.apply self' l)
  /\ FilterResult.included
       (FieldFilter.apply
          (FieldFilter.__init__ field (map FieldFilter.lower_if_str allowed) true im) l)
     = FilterResult.included (FieldFilter.apply self l)
  /\ (forall (perf perf' : Performance.t) (s s' : string),
        Performance.metadata perf !! field = Some (VScalar (SStr s)) ->
        Performance.metadata perf' !! field = Some (VScalar (SStr s')) ->
        Py.lower s = Py.lower s' ->
        FieldFilter.keeps self perf = FieldFilter.keeps self perf')
  /\ (forall (perf perf' : Performance.t) (v v' : list scalar),
        Performance.metadata perf !! field = Some (VList v) ->
        Performance.metadata perf' !! field = Some (VList v') ->
        map FieldFilter.lower_if_str v = map FieldFilter.lower_if_str v' ->
        FieldFilter.keeps self perf = FieldFilter.keeps self perf').
Proof.
  intros Hsame. cbv zeta.
  assert (Hkeeps : forall a a',
    map FieldFilter.lower_if_str a = map FieldFilter.lower_if_str a' ->
    forall p, FieldFilter.keeps (FieldFilter.__init__ field a true im) p
              = FieldFilter.keeps (FieldFilter.__init__ field a' true im) p).
  { intros a a' Ha p. unfold FieldFilter.keeps, FieldFilter.field_value,
      FieldFilter._matches, FieldFilter._normalize_value. simpl. now rewrite Ha. }
  split; [|split; [|split]].
  - rewrite !field_apply_eq. simpl. apply filter_ext. now apply Hkeeps.
  - rewrite !field_apply_eq. simpl. apply filter_ext. apply Hkeeps.
    rewrite map_map. apply map_ext. intros [| | | |s]; simpl; try reflexivity.
    now rewrite lower_idempotent.
  - intros perf perf' s s' Hp Hp' Hs.
    unfold FieldFilter.keeps, FieldFilter.field_value, FieldFilter._matches,
      FieldFilter._normalize_value. simpl. rewrite Hp, Hp'. simpl. now rewrite Hs.
  - intros perf perf' v v' Hp Hp' Hv.
    unfold FieldFilter.keeps, FieldFilter.field_value, FieldFilter._matches,
      FieldFilter._normalize_value. simpl. rewrite Hp, Hp'. simpl.
    assert (Hmap : forall w,
      existsb (fun x => Value.mem (FieldFilter.lower_if_str x)
                          (map FieldFilter.lower_if_str allowed)) w
      = existsb (fun y => Value.mem y (map FieldFilter.lower_if_str allowed))
          (map FieldFilter.lower_if_str w))
      by (intros w; induction w as [|x w IHw]; simpl; congruence).
    now rewrite !Hmap, Hv.
Qed.

Lemma case_insensitive_verdicts_witness :
  FilterResult.included
    (FieldFilter.apply (H := Sample.repr) Sample.punk_or_rock
       [Sample.ramones; Sample.television; Sample.blondie])
  = FilterResult.included
      (FieldFilter.apply (H := Sample.repr)
         (FieldFilter.__init__ "genre" [SStr "PUNK"; SStr "Rock"] true false)
         [Sample.ramones; Sample.television; Sample.blondie]).
Proof.
  refine (proj1 (case_insensitive_verdicts (H := Sample.repr) "genre"
                   [SStr "punk"; SStr "rock"] [SStr "PUNK"; SStr "Rock"] false
                   [Sample.ramones; Sample.television; Sample.blondie] _)).
  reflexivity.
Defined.

(** * Further properties of the strategies *)

Lemma mapM_enum_spec {A B : Type} (f : Z -> A -> Py.result B) (l : list A) :
  forall (i : Z) (ms : list B),
    Py.mapM_enum f i l = Py.Ok ms ->
    length ms = length l
    /\ forall k m, nth_error ms k = Some m ->
         exists t, nth_error l k = Some t /\ f (i + Z.of_nat k)%Z t = Py.Ok m.
Proof.
  induction l as [|t l IH]; simpl; intros i ms.
  - intros [= <-]. split; [reflexivity|]. intros [|k] m; discriminate.
  - destruct (f i t) as [m0|] eqn:E0; simpl; [|discriminate].
    destruct (Py.mapM_enum f (i + 1) l) as [ms'|] eqn:E; simpl; [|discriminate].
    intros [= <-]. destruct (IH _ _ E) as [Hlen Hnth]. split; [simpl; congruence|].
    intros [|k] m; cbn [nth_error].
    + intros [= <-]. exists t. split; [reflexivity|]. now rewrite Z.add_0_r.
    + intros Hk. destruct (Hnth k m Hk) as [t' [Ht' Hf]]. exists t'. split; [exact Ht'|].
      replace (i + Z.of_nat (S k))%Z with (i + 1 + Z.of_nat k)%Z by lia. exact Hf.
Qed.

(** X8. Top-N on a well-formed catalog returns the models of the first
    [count] tracks (all of them when the catalog is shorter), in catalog
    order: the track at position [i] is built from the catalog entry at
    position [i], is marked ["top_n"], and has the reason
    ["Top <i+1> by popularity"]. *)
Theorem top_n_returns_prefix
    (artist_id artist_name : string) (tracks : list TrackData.t)
    (performance_date : option Py.date) (count : Z) :
  Forall (fun t => TrackData.well_formed t = true) tracks ->
  (0 <= count)%Z ->
  exists selected,
    TopNStrategy.select_tracks artist_id artist_name tracks performance_date count
    = Py.Ok selected
    /\ length selected = Nat.min (Z.to_nat count) (length tracks)
    /\ forall i m, nth_error selected i = Some m ->
         exists t, nth_error tracks i = Some t
           /\ TrackData.id t = Some (Track.spotify_id m)
           /\ TrackData.name t = Some (Track.name m)
           /\ Track.popularity m = TrackData.popularity_or_0 t
           /\ Track.selection_strategy m = "top_n"
           /\ Track.selection_reason m
              = ("Top " ++ Py.str_int (Z.of_nat i + 1) ++ " by popularity")%string.
Proof.
  intros Hwf Hcount.
  destruct (top_n_total artist_id artist_name tracks performance_date count Hwf Hcount)
    as [selected [E _]].
  exists selected. split; [exact E|].
  unfold TopNStrategy.select_tracks in E. rewrite slice_to_firstn in E by exact Hcount.
  apply mapM_enum_spec in E. destruct E as [Hlen Hnth].
  split; [now rewrite Hlen, length_firstn|].
  intros i m Hi. destruct (Hnth i m Hi) as [t [Ht Hm]].
  apply nth_error_firstn_some in Ht. destruct Ht as [_ Ht].
  exists t. split; [exact Ht|].
  apply model_fields in Hm. destruct Hm as [H1 [H2 [H3 [H4 H5]]]].
  repeat split; auto.
Qed.

Lemma top_n_returns_prefix_witness :
  exists selected,
    TopNStrategy.select_tracks "a1" "Ramones" Sample.catalog None 3 = Py.Ok selected
    /\ length selected = 3.
Proof.
  destruct (top_n_returns_prefix "a1" "Ramones" Sample.catalog None 3)
    as [selected [E [Hlen _]]].
  - repeat constructor.
  - lia.
  - exists selected. split; [exact E|exact Hlen].
Defined.

(** ** No track is returned twice *)

Lemma sublist_map {A B : Type} (g : A -> B) (l1 l2 : list A) :
  sublist l1 l2 -> sublist (map g l1) (map g l2).
Proof. induction 1; simpl; now constructor. Qed.

Lemma NoDup_map_firstn {A B : Type} (g : A -> B) (k : nat) (l : list A) :
  NoDup (map g l) -> NoDup (map g (firstn k l)).
Proof.
  intros Hnd. eapply sublist_NoDup; [exact Hnd|].
  apply sublist_map. apply sublist_take.
Qed.

Lemma NoDup_map_filter {A B : Type} (g : A -> B) (keep : A -> bool) (l : list A) :
  NoDup (map g l) -> NoDup (map g (List.filter keep l)).
Proof.
  intros Hnd. eapply sublist_NoDup; [exact Hnd|].
  apply sublist_map. apply filter_sublist.
Qed.

Lemma NoDup_map_slice {A B : Type} (g : A -> B) (n : Z) (l : list A) :
  NoDup (map g l) -> NoDup (map g (Py.slice_to l n)).
Proof.
  destruct (slice_to_prefix l n) as [k ->]. apply NoDup_map_firstn.
Qed.

Lemma NoDup_map_picks {A B : Type} (g : A -> B) (population chosen : list A) (k : nat) :
  Random.picks population k chosen ->
  NoDup (map g population) -> NoDup (map g chosen).
Proof.
  intros [positions [Hnd [_ Hall]]] Hpop.
  apply NoDup_ListNoDup in Hnd. apply NoDup_ListNoDup in Hpop. apply NoDup_ListNoDup.
  induction Hall as [|i x ps xs Hx Hrest IH]; simpl; [constructor|].
  inversion Hnd as [|? ? Hi Hps]; subst. constructor; [|now apply IH].
  intros Hin. apply in_map_iff in Hin. destruct Hin as [y [Hy Hin]].
  assert (Hj : exists j, In j ps /\ nth_error population j = Some y).
  { clear -Hrest Hin. induction Hrest as [|j z ps xs Hz _ IHr]; [destruct Hin|].
    destruct Hin as [->|Hin].
    - exists j. split; [now left|exact Hz].
    - destruct (IHr Hin) as [j' [Hj' Hy]]. exists j'. split; [now right|exact Hy]. }
  destruct Hj as [j [Hjps Hj]].
  assert (i = j); [|subst; contradiction].
  apply (proj1 (List.NoDup_nth_error (map g population))) with (i := i) (j := j); auto.
  - rewrite length_map. apply nth_error_Some. congruence.
  - rewrite !nth_error_map, Hx, Hj. simpl. congruence.
Qed.

Lemma models_keep_ids (self_name : string) (reason : TrackData.t -> string)
    (chosen : list TrackData.t) (selected : list Track.t) :
  Py.mapM (fun t => BaseStrategy._track_to_model self_name t (reason t)) chosen
  = Py.Ok selected ->
  map TrackData.id chosen = map (fun m => Some (Track.spotify_id m)) selected
  /\ Forall2
       (fun t m =>
          TrackData.id t = Some (Track.spotify_id m)
          /\ TrackData.name t = Some (Track.name m)
          /\ Track.popularity m = TrackData.popularity_or_0 t
          /\ Track.selection_strategy m = self_name
          /\ Track.selection_reason m = reason t)
       chosen selected.
Proof.
  intros E. apply mapM_Forall2 in E.
  induction E as [|t m ts ms Hm _ [IH1 IH2]]; simpl; [split; [reflexivity|constructor]|].
  apply model_fields in Hm. split.
  - destruct Hm as [-> _]. now rewrite IH1.
  - constructor; [exact Hm|exact IH2].
Qed.

Lemma NoDup_some_ids (selected : list Track.t) :
  NoDup (map (fun m => Some (Track.spotify_id m)) selected) ->
  NoDup (map Track.spotify_id selected).
Proof.
  rewrite <- (map_map Track.spotify_id Some). intros Hnd.
  apply NoDup_ListNoDup. apply NoDup_ListNoDup in Hnd.
  eapply List.NoDup_map_inv. exact Hnd.
Qed.

Lemma Forall2_from {A B : Type} (P : A -> B -> Prop) (l : list A) (l' : list B) :
  Forall2 P l l' -> Forall (fun b => exists a, In a l /\ P a b) l'.
Proof.
  induction 1 as [|a b l l' Hab _ IH]; constructor.
  - exists a. split; [now left|exact Hab].
  - eapply List.Forall_impl; [|exact IH]. simpl. intros b' [a' [Ha' Hp]].
    exists a'. split; [now right|exact Hp].
Qed.

Lemma models_distinct (self_name : string) (reason : TrackData.t -> string)
    (tracks chosen : list TrackData.t) (selected : list Track.t) :
  Py.mapM (fun t => BaseStrategy._track_to_model self_name t (reason t)) chosen
  = Py.Ok selected ->
  NoDup (map TrackData.id chosen) ->
  Forall (fun t => In t tracks) chosen ->
  NoDup (map Track.spotify_id selected) /\ Forall (from_catalog tracks) selected.
Proof.
  intros E Hnd Hin. destruct (models_keep_ids _ _ _ _ E) as [Hids Hall]. split.
  - apply NoDup_some_ids. now rewrite <- Hids.
  - apply Forall2_from in Hall. eapply List.Forall_impl; [|exact Hall]. simpl.
    intros m [t [Ht [H1 [H2 [H3 _]]]]]. exists t. rewrite List.Forall_forall in Hin.
    repeat split; auto.
Qed.

Lemma link_distinct (tracks chosen : list TrackData.t) (selected : list Track.t) :
  Forall2
    (fun t m =>
       TrackData.id t = Some (Track.spotify_id m)
       /\ TrackData.name t = Some (Track.name m)
       /\ Track.popularity m = TrackData.popularity_or_0 t)
    chosen selected ->
  NoDup (map TrackData.id chosen) ->
  Forall (fun t => In t tracks) chosen ->
  NoDup (map Track.spotify_id selected) /\ Forall (from_catalog tracks) selected.
Proof.
  intros Hall Hnd Hin. split.
  - apply NoDup_some_ids.
    replace (map (fun m => Some (Track.spotify_id m)) selected)
      with (map TrackData.id chosen); [exact Hnd|].
    clear Hnd Hin. induction Hall as [|t m ts ms [Hm _] _ IH]; simpl; congruence.
  - rewrite List.Forall_forall in Hin. apply Forall2_from in Hall.
    eapply List.Forall_impl; [|exact Hall]. simpl.
    intros m [t [Ht [H1 [H2 H3]]]]. exists t. auto.
Qed.

Lemma mapM_enum_Forall2 {A B : Type} (f : Z -> A -> Py.result B) (l : list A) :
  forall i ms, Py.mapM_enum f i l = Py.Ok ms ->
               Forall2 (fun t m => exists k, f k t = Py.Ok m) l ms.
Proof.
  induction l as [|t l IH]; simpl; intros i ms.
  - intros [= <-]. constructor.
  - destruct (f i t) as [m0|] eqn:E0; simpl; [|discriminate].
    destruct (Py.mapM_enum f (i + 1) l) as [ms'|] eqn:E; simpl; [|discriminate].
    intros [= <-]. constructor; [eauto|]. eapply IH. exact E.
Qed.

Lemma mapM_scored {A B : Type} (f : A -> Py.result B) (l : list A) (scored : list (B * A)) :
  Py.mapM (fun t => Py.bind (f t) (fun s => Py.Ok (s, t))) l = Py.Ok scored ->
  map snd scored = l.
Proof.
  revert scored. induction l as [|t l IH]; simpl; intros scored.
  - now intros [= <-].
  - destruct (f t) as [s|]; simpl; [|discriminate].
    destruct (Py.mapM _ l) as [rest|]; simpl; [|discriminate].
    intros [= <-]. simpl. f_equal. now apply IH.
Qed.

Lemma Forall_In_self {A : Type} (l : list A) : Forall (fun x => In x l) l.
Proof. apply List.Forall_forall. auto. Qed.

Lemma Forall_In_firstn {A : Type} (k : nat) (l : list A) :
  Forall (fun x => In x l) (firstn k l).
Proof. apply Forall_firstn_of, Forall_In_self. Qed.

Lemma Forall_In_slice {A : Type} (n : Z) (l : list A) :
  Forall (fun x => In x l) (Py.slice_to l n).
Proof. destruct (slice_to_prefix l n) as [k ->]. apply Forall_In_firstn. Qed.

Section Distinct.
Context `{R : Random.Source} (contract : Random.contract R).

Lemma chosen_distinct {A B : Type} (g : A -> B) (pool chosen : list A) (count : Z) :
  (if (Py.len pool <=? count)%Z then Py.Ok pool else Random.sample pool count)
  = Py.Ok chosen ->
  NoDup (map g pool) ->
  NoDup (map g chosen) /\ Forall (fun x => In x pool) chosen.
Proof using contract.
  destruct (Py.len pool <=? count)%Z.
  - intros [= <-] Hnd. split; [exact Hnd|apply Forall_In_self].
  - unfold Random.sample.
    destruct (Z.ltb_spec count 0); simpl; [discriminate|].
    destruct (Z.ltb_spec (Py.len pool) count); simpl; [discriminate|].
    intros [= <-] Hnd. unfold Py.len in *.
    assert (Hpicks : Random.picks pool (Z.to_nat count)
                       (Random.random_sample pool (Z.to_nat count)))
      by (apply contract; lia).
    split; [eapply NoDup_map_picks; eassumption|].
    now apply picks_facts in Hpicks.
Qed.

(** X9. No strategy returns a track twice or invents one.  When the ids of
    the catalog are pairwise distinct, the tracks any of the four strategies
    returns have pairwise distinct ids, and each of them carries the id, the
    name and the popularity (0 when missing) of an entry of the catalog. *)
Theorem selected_tracks_distinct
    (s : Strategy.t) (artist_id artist_name : string) (tracks : list TrackData.t)
    (performance_date : option Py.date) (count : Z) (selected : list Track.t) :
  NoDup (map TrackData.id tracks) ->
  Strategy.select_tracks s artist_id artist_name tracks performance_date count
  = Py.Ok selected ->
  NoDup (map Track.spotify_id selected) /\ Forall (from_catalog tracks) selected.
Proof using contract.
  intros Hnd.
  assert (Htop : forall date,
    TopNStrategy.select_tracks artist_id artist_name tracks date count = Py.Ok selected ->
    NoDup (map Track.spotify_id selected) /\ Forall (from_catalog tracks) selected).
  { intros date E. unfold TopNStrategy.select_tracks in E.
    apply mapM_enum_Forall2 in E.
    apply (link_distinct tracks (Py.slice_to tracks count)).
    - eapply Forall2_impl; [exact E|]. simpl. intros t m [k Hk].
      apply model_fields in Hk. tauto.
    - now apply NoDup_map_slice.
    - apply Forall_In_slice. }
  assert (Hmodels : forall self_name reason chosen,
    Py.mapM (fun t => BaseStrategy._track_to_model self_name t (reason t)) chosen
    = Py.Ok selected ->
    NoDup (map TrackData.id chosen) -> Forall (fun t => In t tracks) chosen ->
    NoDup (map Track.spotify_id selected) /\ Forall (from_catalog tracks) selected).
  { intros self_name reason chosen E. now apply models_distinct with (1 := E). }
  destruct s as [| | |self]; simpl.
  - apply Htop.
  - unfold RandomNStrategy.select_tracks.
    destruct (if (Py.len tracks <=? count)%Z then _ else _) as [chosen|] eqn:E; simpl;
      [|discriminate].
    intros Hsel. destruct (chosen_distinct TrackData.id _ _ _ E Hnd) as [H1 H2].
    exact (Hmodels RandomNStrategy.name (fun _ => "Random selection from catalog")
             chosen Hsel H1 H2).
  - destruct performance_date as [d|]; [|apply Htop].
    unfold EraWeightedStrategy.select_tracks.
    destruct (Py.mapM _ tracks) as [scored|] eqn:E; simpl; [|discriminate].
    apply mapM_scored in E. intros Hsel. subst tracks.
    apply (Hmodels EraWeightedStrategy.name EraWeightedStrategy.reason _ Hsel).
    + rewrite map_map. apply NoDup_map_slice.
      rewrite (Permutation_map _ (sorted_desc_perm fst scored)).
      now rewrite <- map_map.
    + apply List.Forall_forall. intros t Ht. apply in_map_iff in Ht.
      destruct Ht as [[sc t'] [<- Ht]]. apply in_map_iff. exists (sc, t').
      split; [reflexivity|].
      pose proof (Forall_In_slice count (Py.sorted_desc fst scored)) as Hs.
      rewrite List.Forall_forall in Hs. apply Hs in Ht.
      apply (Permutation_in _ (sorted_desc_perm fst scored)), Ht.
  - unfold DeepCutsStrategy.select_tracks.
    destruct (if (Py.len _ <=? count)%Z then _ else _) as [chosen|] eqn:E; simpl;
      [|discriminate].
    intros Hsel.
    assert (Hpool : NoDup (map TrackData.id (DeepCutsStrategy.pool self tracks count))).
    { unfold DeepCutsStrategy.pool.
      destruct (List.filter _ tracks) as [|t l] eqn:F.
      - apply NoDup_map_slice.
        now rewrite (Permutation_map _ (sorted_asc_perm TrackData.popularity_or_0 tracks)).
      - rewrite <- F. now apply NoDup_map_filter. }
    destruct (chosen_distinct TrackData.id _ _ _ E Hpool) as [H1 H2].
    apply (Hmodels (DeepCutsStrategy.name self) DeepCutsStrategy.reason _ Hsel H1).
    eapply Forall_In_trans; [apply pool_from_tracks|exact H2].
Qed.

End Distinct.

Lemma selected_tracks_distinct_witness :
  NoDup (map Track.spotify_id
           [ Track.mk "t2" "I Wanna Be Sedated" "Ramones" "Collected"
               (Some (Py.mkdate 1978 9 22)) 70 "era_weighted"
               "Era-weighted: released 1978-09-22";
             Track.mk "t1" "Judy Is a Punk" "Ramones" "Collected"
               (Some (Py.mkdate 1977 1 1)) 10 "era_weighted"
               "Era-weighted: released 1977" ]).
Proof.
  refine (proj1 (selected_tracks_distinct first_positions_contract Strategy.era_weighted
                   "a1" "Ramones" [Sample.judy; Sample.sedated; Sample.bonzo]
                   (Some Sample.october_1978) 2 _ _ _)).
  - apply NoDup_ListNoDup. repeat constructor; simpl; intuition discriminate.
  - vm_compute. reflexivity.
Defined.

(** ** How many tracks come back *)

Lemma pool_nonempty (self : DeepCutsStrategy.t) (tracks : list TrackData.t) (count : Z) :
  tracks <> [] -> (1 <= count)%Z -> DeepCutsStrategy.pool self tracks count <> [].
Proof.
  intros Hne Hcount. unfold DeepCutsStrategy.pool.
  destruct (List.filter _ tracks) as [|t l]; [|discriminate].
  rewrite slice_to_firstn by lia.
  pose proof (Permutation_length (sorted_asc_perm TrackData.popularity_or_0 tracks)) as Hlen.
  destruct (Py.sorted_asc TrackData.popularity_or_0 tracks) as [|x xs].
  - destruct tracks; [congruence|discriminate].
  - destruct (Z.to_nat (count * 2)) eqn:E; [lia|discriminate].
Qed.

Section Sizes.
Context `{R : Random.Source} (contract : Random.contract R).
Context (artist_id artist_name : string) (tracks : list TrackData.t).
Context (performance_date : option Py.date) (count : Z).
Hypothesis catalog_well_formed : Forall (fun t => TrackData.well_formed t = true) tracks.
Hypothesis date_exists : forall d, performance_date = Some d ->
  Py.date_new (Py.year d) (Py.month d) (Py.day d) = Py.Ok d.
Hypothesis count_nonneg : (0 <= count)%Z.

Lemma top_n_size :
  exists selected,
    TopNStrategy.select_tracks artist_id artist_name tracks performance_date count
    = Py.Ok selected
    /\ length selected = Nat.min (Z.to_nat count) (length tracks).
Proof using catalog_well_formed count_nonneg.
  destruct (top_n_total artist_id artist_name tracks performance_date count
              catalog_well_formed count_nonneg) as [selected [E _]].
  exists selected. split; [exact E|].
  unfold TopNStrategy.select_tracks in E. rewrite slice_to_firstn in E by exact count_nonneg.
  apply mapM_enum_spec in E. destruct E as [-> _]. apply length_firstn.
Qed.

Lemma drawn_size (self_name : string) (reason : TrackData.t -> string)
    (pool : list TrackData.t) :
  Forall (fun t => In t tracks) pool ->
  exists selected,
    Py.bind
      (if (Py.len pool <=? count)%Z then Py.Ok pool else Random.sample pool count)
      (fun chosen =>
         Py.mapM (fun t => BaseStrategy._track_to_model self_name t (reason t)) chosen)
    = Py.Ok selected
    /\ length selected = Nat.min (Z.to_nat count) (length pool).
Proof using catalog_well_formed count_nonneg contract.
  intros Hpool.
  destruct (choose_spec contract pool count count_nonneg)
    as [chosen [-> [Hlen [Hin [Hall Hdraw]]]]].
  simpl.
  destruct (all_models_total tracks catalog_well_formed self_name reason chosen)
    as [ms [E Hms]].
  { eapply Forall_In_trans; [exact Hpool|exact Hin]. }
  exists ms. split; [exact E|]. rewrite Hms. unfold Py.len in *.
  destruct (Z.le_gt_cases (Z.of_nat (length pool)) count) as [Hle|Hgt].
  - rewrite (Hall Hle). lia.
  - destruct Hdraw as [_ [_ Hc]]; [lia|]. lia.
Qed.

Lemma strategy_size (s : Strategy.t) :
  exists selected,
    Strategy.select_tracks s artist_id artist_name tracks performance_date count
    = Py.Ok selected
    /\ length selected
       = Nat.min (Z.to_nat count)
           (length match s with
                   | Strategy.deep_cuts self => DeepCutsStrategy.pool self tracks count
                   | _ => tracks
                   end).
Proof using catalog_well_formed date_exists count_nonneg contract.
  destruct s as [| | |self]; simpl.
  - apply top_n_size.
  - unfold RandomNStrategy.select_tracks.
    apply (drawn_size RandomNStrategy.name (fun _ => "Random selection from catalog")
             tracks (Forall_In_self tracks)).
  - destruct performance_date as [d|] eqn:Ed.
    + rewrite era_select_eq.
      * rewrite slice_to_firstn by exact count_nonneg.
        set (ranked := Py.sorted_desc (EraWeightedStrategy.era_score (Py.year d)) tracks).
        assert (Hperm : Permutation ranked tracks) by apply sorted_desc_perm.
        destruct (all_models_total tracks catalog_well_formed EraWeightedStrategy.name
                    EraWeightedStrategy.reason (firstn (Z.to_nat count) ranked))
          as [ms [E Hms]].
        { apply Forall_firstn_of. apply List.Forall_forall. intros x Hx.
          apply (Permutation_in _ Hperm), Hx. }
        exists ms. split; [exact E|].
        rewrite Hms, length_firstn, (Permutation_length Hperm). reflexivity.
      * eapply List.Forall_impl; [|exact catalog_well_formed]. simpl. intros t.
        apply wf_score_in_range. eapply date_new_year. now apply date_exists.
    + pose proof top_n_size as [selected [E Hlen]]. rewrite Ed in E.
      exists selected. split; [exact E|exact Hlen].
  - unfold DeepCutsStrategy.select_tracks.
    apply (drawn_size (DeepCutsStrategy.name self) DeepCutsStrategy.reason
             (DeepCutsStrategy.pool self tracks count) (pool_from_tracks _ _ _)).
Qed.

(** X10. On a well-formed catalog and for a nonnegative [count], Top-N,
    Random-N and Era-weighted return exactly [min(count, catalog size)]
    tracks and Deep-cuts exactly [min(count, pool size)]; so with
    [count >= 1] no strategy returns the empty list for a catalog that is not
    empty. *)
Theorem selection_size (s : Strategy.t) :
  exists selected,
    Strategy.select_tracks s artist_id artist_name tracks performance_date count
    = Py.Ok selected
    /\ length selected
       = Nat.min (Z.to_nat count)
           (length match s with
                   | Strategy.deep_cuts self => DeepCutsStrategy.pool self tracks count
                   | _ => tracks
                   end)
    /\ (tracks <> [] -> (1 <= count)%Z -> selected <> []).
Proof using catalog_well_formed date_exists count_nonneg contract.
  destruct (strategy_size s) as [selected [E Hlen]].
  exists selected. split; [exact E|]. split; [exact Hlen|].
  intros Htracks Hcount ->. simpl in Hlen.
  assert (Hpool : match s with
                  | Strategy.deep_cuts self => DeepCutsStrategy.pool self tracks count
                  | _ => tracks
                  end <> []).
  { destruct s as [| | |self]; try exact Htracks. now apply pool_nonempty. }
  destruct (match s with
            | Strategy.deep_cuts self => DeepCutsStrategy.pool self tracks count
            | _ => tracks
            end) as [|t pool]; [congruence|].
  simpl in Hlen. lia.
Qed.

End Sizes.

Lemma selection_size_witness :
  exists selected,
    Strategy.select_tracks (H := Random.first_positions) Strategy.random_n
      "a1" "Ramones" Sample.catalog None 3
    = Py.Ok selected
    /\ length selected = 3.
Proof.
  destruct (selection_size first_positions_contract "a1" "Ramones" Sample.catalog None 3)
    with (s := Strategy.random_n) as [selected [E [Hlen _]]].
  - repeat constructor.
  - discriminate.
  - lia.
  - exists selected. split; [exact E|exact Hlen].
Defined.

(** X11. A negative [count] is not refused up front.  Random-N and Deep-cuts
    then raise [ValueError] for every catalog, and Top-N and Era-weighted
    count from the end: they return what they return for the count
    [max(0, catalog size + count)], which can be more than [count] tracks. *)
Theorem negative_count `{R : Random.Source}
    (self : DeepCutsStrategy.t) (artist_id artist_name : string)
    (tracks : list TrackData.t) (performance_date : option Py.date) (count : Z) :
  (count < 0)%Z ->
  let error := Py.ValueError "Sample larger than population or is negative" in
  RandomNStrategy.select_tracks artist_id artist_name tracks performance_date count
  = Py.Raise error
  /\ DeepCutsStrategy.select_tracks self artist_id artist_name tracks performance_date count
     = Py.Raise error
  /\ TopNStrategy.select_tracks artist_id artist_name tracks performance_date count
     = TopNStrategy.select_tracks artist_id artist_name tracks performance_date
         (Z.max 0 (Py.len tracks + count))
  /\ EraWeightedStrategy.select_tracks artist_id artist_name tracks performance_date count
     = EraWeightedStrategy.select_tracks artist_id artist_name tracks performance_date
         (Z.max 0 (Py.len tracks + count)).
Proof.
  intros Hneg. cbv zeta.
  assert (Hdraw : forall pool : list TrackData.t,
    (if (Py.len pool <=? count)%Z then Py.Ok pool else Random.sample pool count)
    = Py.Raise (Py.ValueError "Sample larger than population or is negative")).
  { intros pool. unfold Py.len, Random.sample.
    destruct (Z.leb_spec (Z.of_nat (length pool)) count); [lia|].
    destruct (Z.ltb_spec count 0); [reflexivity|lia]. }
  assert (Hslice : forall (A : Type) (l : list A),
    length l = length tracks ->
    Py.slice_to l count = Py.slice_to l (Z.max 0 (Py.len tracks + count))).
  { intros A l Hlen. unfold Py.slice_to, Py.len.
    destruct (Z.leb_spec 0 count); [lia|].
    destruct (Z.leb_spec 0 (Z.max 0 (Z.of_nat (length tracks) + count))); [|lia].
    f_equal. lia. }
  split; [|split; [|split]].
  - unfold RandomNStrategy.select_tracks. now rewrite Hdraw.
  - unfold DeepCutsStrategy.select_tracks. now rewrite Hdraw.
  - unfold TopNStrategy.select_tracks. now rewrite Hslice.
  - unfold EraWeightedStrategy.select_tracks. destruct performance_date as [d|].
    + destruct (Py.mapM _ tracks) as [scored|] eqn:E; simpl; [|reflexivity].
      rewrite Hslice; [reflexivity|].
      rewrite (Permutation_length (sorted_desc_perm fst scored)).
      apply mapM_scored in E. rewrite <- E. now rewrite length_map.
    + unfold TopNStrategy.select_tracks. now rewrite Hslice.
Qed.

Lemma negative_count_witness :
  RandomNStrategy.select_tracks (H := Random.first_positions)
    "a1" "Ramones" Sample.catalog None (-1)
  = Py.Raise (Py.ValueError "Sample larger than population or is negative")
  /\ TopNStrategy.select_tracks "a1" "Ramones" Sample.catalog None (-1)
     = TopNStrategy.select_tracks "a1" "Ramones" Sample.catalog None 4.
Proof.
  destruct (negative_count (R := Random.first_positions) (DeepCutsStrategy.mk 60)
              "a1" "Ramones" Sample.catalog None (-1) ltac:(lia))
    as [H1 [_ [H3 _]]].
  split; [exact H1|exact H3].
Defined.

(** ** What [_track_to_model] raises *)

Lemma try_date_raises (y m d : option Z) (e : Py.exn) :
  BaseStrategy.try_date y m d = Py.Raise e -> e = Py.OverflowError.
Proof.
  unfold BaseStrategy.try_date, Py.date_new.
  destruct y as [y|]; [|discriminate]. destruct m as [m|]; [|discriminate].
  destruct d as [d|]; [|discriminate].
  repeat match goal with
         | |- context [if negb ?b then _ else _] => destruct b; simpl
         end; try discriminate.
  now intros [= <-].
Qed.

Lemma parse_release_date_raises (s : string) (e : Py.exn) :
  BaseStrategy.parse_release_date s = Py.Raise e -> e = Py.OverflowError.
Proof.
  unfold BaseStrategy.parse_release_date.
  destruct (String.eqb s ""); [discriminate|].
  destruct (Py.split "-" s) as [|p0 [|p1 [|p2 rest]]]; [discriminate| | |].
  - destruct (Py.isdigit p0); [apply try_date_raises|discriminate].
  - apply try_date_raises.
  - apply try_date_raises.
Qed.

(** X12. The failures of [_track_to_model].  It raises nothing but
    [OverflowError] (a number of the release date too large for [date()]),
    [KeyError] for a missing [id] or [name], [IndexError] for an empty
    [artists] list and the validation error of a popularity outside 0..100,
    in this order of precedence; a release date that does not parse is no
    error.  Otherwise it returns the track, with ["Unknown"] for a missing
    artist or album name and popularity 0 for a missing popularity. *)
Theorem track_to_model_outcomes
    (self_name : string) (track : TrackData.t) (reason : string) :
  let result := BaseStrategy._track_to_model self_name track reason in
  let parsed := BaseStrategy.parse_release_date (default "" (TrackData.release_date track)) in
  (forall e, result = Py.Raise e ->
     e = Py.OverflowError \/ e = Py.KeyError "id" \/ e = Py.KeyError "name"
     \/ e = Py.IndexError \/ e = Py.ValidationError "popularity")
  /\ (result = Py.Raise Py.OverflowError <-> parsed = Py.Raise Py.OverflowError)
  /\ (forall release, parsed = Py.Ok release ->
      (TrackData.id track = None -> result = Py.Raise (Py.KeyError "id"))
      /\ (forall i, TrackData.id track = Some i -> TrackData.name track = None ->
          result = Py.Raise (Py.KeyError "name"))
      /\ (forall i n, TrackData.id track = Some i -> TrackData.name track = Some n ->
          (TrackData.artists track = Some [] -> result = Py.Raise Py.IndexError)
          /\ (forall first,
                hd_error (default [ArtistData.mk None] (TrackData.artists track))
                = Some first ->
                let p := TrackData.popularity_or_0 track in
                ((p < 0 \/ 100 < p)%Z ->
                 result = Py.Raise (Py.ValidationError "popularity"))
                /\ ((0 <= p <= 100)%Z ->
                    result
                    = Py.Ok
                        (Track.mk i n
                           (default "Unknown" (ArtistData.name first))
                           (default "Unknown"
                              (match TrackData.album track with
                               | Some a => AlbumData.name a
                               | None => None
                               end))
                           release p self_name reason))))).
Proof.
  cbv zeta. unfold BaseStrategy._track_to_model.
  destruct (BaseStrategy.parse_release_date _) as [release|e0] eqn:Ep; simpl.
  - split; [|split; [|]].
    + intros e. destruct (TrackData.id track); [|intros [= <-]; auto].
      destruct (TrackData.name track); [|intros [= <-]; auto].
      destruct (default _ (TrackData.artists track)); [intros [= <-]; auto 6|].
      unfold Track.new. destruct (_ && _); [discriminate|]. intros [= <-]. auto 6.
    + split; [|discriminate].
      destruct (TrackData.id track); [|discriminate].
      destruct (TrackData.name track); [|discriminate].
      destruct (default _ (TrackData.artists track)); [discriminate|].
      unfold Track.new. destruct (_ && _); discriminate.
    + intros release' [= <-]. split; [now intros ->|].
      split; [now intros i -> ->|].
      intros i n -> ->. split; [now intros ->|].
      intros first Hfirst.
      destruct (default _ (TrackData.artists track)) as [|a l]; [discriminate|].
      injection Hfirst as ->. unfold Track.new. split.
      * intros Hp.
        destruct (Z.leb_spec 0 (TrackData.popularity_or_0 track)),
                 (Z.leb_spec (TrackData.popularity_or_0 track) 100);
          simpl; try reflexivity; lia.
      * intros [H0 H1]. apply Z.leb_le in H0, H1. now rewrite H0, H1.
  - pose proof (parse_release_date_raises _ _ Ep) as ->.
    split; [intros e [= <-]; auto|]. split; [tauto|]. intros release. discriminate.
Qed.

(** ** Release dates read back *)

Lemma iso_year_ok (y : Z) : (1 <= y <= 9999)%Z -> iso_field_ok 4 y = true.
Proof.
  intros Hy.
  assert (Hall : forallb (iso_field_ok 4) (map Z.of_nat (seq 1 (Z.to_nat 9999))) = true)
    by (vm_compute; reflexivity).
  rewrite forallb_forall in Hall. apply Hall. apply in_map_iff.
  exists (Z.to_nat y). split; [lia|]. apply in_seq. lia.
Qed.

Lemma iso_day_ok (d : Z) : (1 <= d <= 31)%Z -> iso_field_ok 2 d = true.
Proof.
  intros Hd.
  assert (Hall : forallb (iso_field_ok 2) (map Z.of_nat (seq 1 (Z.to_nat 31))) = true)
    by (vm_compute; reflexivity).
  rewrite forallb_forall in Hall. apply Hall. apply in_map_iff.
  exists (Z.to_nat d). split; [lia|]. apply in_seq. lia.
Qed.

Lemma iso_field_facts (width : nat) (z : Z) :
  iso_field_ok width z = true ->
  let s := Py.zfill width (Py.str_int z) in
  Py.int s = Some z /\ Py.contains "-" s = false /\ Py.isdigit s = true
  /\ String.eqb s "" = false.
Proof.
  unfold iso_field_ok. cbv zeta. rewrite !andb_true_iff, !negb_true_iff.
  intros [[[Hint Hc] Hd] He]. repeat split; auto.
  destruct (Py.int _) as [z'|]; [|discriminate].
  apply Z.eqb_eq in Hint. now subst.
Qed.

Lemma append_nonempty (a b : string) :
  String.eqb a "" = false -> String.eqb (a ++ b) "" = false.
Proof. destruct a; [discriminate|reflexivity]. Qed.

Lemma date_new_inv (y m d : Z) (x : Py.date) :
  Py.date_new y m d = Py.Ok x ->
  x = Py.mkdate y m d
  /\ (1 <= y <= 9999)%Z /\ (1 <= m <= 12)%Z /\ (1 <= d <= Py.days_in_month y m)%Z.
Proof.
  unfold Py.date_new.
  destruct (negb _); [discriminate|].
  destruct (Z.leb_spec 1 y), (Z.leb_spec y 9999); simpl; try discriminate.
  destruct (Z.leb_spec 1 m), (Z.leb_spec m 12); simpl; try discriminate.
  destruct (Z.leb_spec 1 d), (Z.leb_spec d (Py.days_in_month y m)); simpl;
    try discriminate.
  intros [= <-]. repeat split; lia.
Qed.

Lemma days_in_month_bounds (y m : Z) : (28 <= Py.days_in_month y m <= 31)%Z.
Proof.
  unfold Py.days_in_month.
  destruct (m =? 2)%Z; [destruct (Py.is_leap y); lia|].
  destruct (_ || _); lia.
Qed.

Lemma date_new_first (y m : Z) :
  (1 <= y <= 9999)%Z -> (1 <= m <= 12)%Z ->
  Py.date_new y m 1 = Py.Ok (Py.mkdate y m 1).
Proof.
  intros Hy Hm. unfold Py.date_new, Py.fits_c_int.
  pose proof (days_in_month_bounds y m).
  change (- 2 ^ 31)%Z with (-2147483648)%Z. change (2 ^ 31)%Z with 2147483648%Z.
  repeat match goal with
         | |- context [(?a <=? ?b)%Z] => destruct (Z.leb_spec a b); try lia
         | |- context [(?a <? ?b)%Z] => destruct (Z.ltb_spec a b); try lia
         end.
  reflexivity.
Qed.

(** X13. Release dates read back.  The ISO form [YYYY-MM-DD] of any date that
    exists is parsed by [_track_to_model] to that date; its form [YYYY-MM] to
    the first day of the month, and [YYYY] to the first of January. *)
Theorem release_date_round_trip (d : Py.date) :
  Py.date_new (Py.year d) (Py.month d) (Py.day d) = Py.Ok d ->
  let yyyy := Py.zfill 4 (Py.str_int (Py.year d)) in
  let mm := Py.zfill 2 (Py.str_int (Py.month d)) in
  BaseStrategy.parse_release_date (Py.str_date d) = Py.Ok (Some d)
  /\ BaseStrategy.parse_release_date (yyyy ++ String "-" mm)
     = Py.Ok (Some (Py.mkdate (Py.year d) (Py.month d) 1))
  /\ BaseStrategy.parse_release_date yyyy
     = Py.Ok (Some (Py.mkdate (Py.year d) 1 1)).
Proof.
  intros Hd. cbv zeta.
  destruct (date_new_inv _ _ _ _ Hd) as [_ [Hy [Hm Hday]]].
  pose proof (days_in_month_bounds (Py.year d) (Py.month d)) as Hdim.
  destruct (iso_field_facts 4 (Py.year d) (iso_year_ok _ Hy)) as [Yi [Yc [Yd Ye]]].
  destruct (iso_field_facts 2 (Py.month d) (iso_day_ok (Py.month d) ltac:(lia))) as [Mi [Mc [_ _]]].
  destruct (iso_field_facts 2 (Py.day d) (iso_day_ok (Py.day d) ltac:(lia))) as [Di [Dc [_ _]]].
  cbv zeta in *.
  split; [|split].
  - unfold BaseStrategy.parse_release_date, Py.str_date.
    change ("-" ++ ?x)%string with (String "-" x).
    rewrite (append_nonempty _ _ Ye).
    rewrite (split_first _ _ _ Yc).
    change ("-" ++ Py.zfill 2 (Py.str_int (Py.day d)))%string
      with (String "-" (Py.zfill 2 (Py.str_int (Py.day d)))).
    rewrite (split_first _ _ _ Mc), (split_no_sep _ _ Dc).
    rewrite Yi, Mi, Di. unfold BaseStrategy.try_date. now rewrite Hd.
  - unfold BaseStrategy.parse_release_date.
    rewrite (append_nonempty _ _ Ye).
    rewrite (split_first _ _ _ Yc), (split_no_sep _ _ Mc).
    rewrite Yi, Mi. unfold BaseStrategy.try_date.
    now rewrite (date_new_first _ _ Hy Hm).
  - unfold BaseStrategy.parse_release_date.
    rewrite Ye, (split_no_sep _ _ Yc), Yd, Yi. unfold BaseStrategy.try_date.
    now rewrite (date_new_first _ 1 Hy ltac:(lia)).
Qed.

Lemma release_date_round_trip_witness :
  BaseStrategy.parse_release_date (Py.str_date (Py.mkdate 1978 9 22))
  = Py.Ok (Some (Py.mkdate 1978 9 22)).
Proof.
  refine (proj1 (release_date_round_trip (Py.mkdate 1978 9 22) _)). reflexivity.
Defined.

(** ** The era score *)

Lemma era_score_unfold (release : string) (performance_date : Py.date) :
  release <> "" ->
  EraWeightedStrategy._calculate_era_score release performance_date
  = match Py.int (hd "" (Py.split "-" release)) with
    | None => Py.Ok 0%Z
    | Some y =>
        let years_diff := Z.abs (y - Py.year performance_date) in
        if (Py.float_overflow <=? years_diff * 10)%Z then Py.Raise Py.OverflowError
        else Py.Ok (Z.max 0 (100 - years_diff * 10))
    end.
Proof.
  intros Hne. unfold EraWeightedStrategy._calculate_era_score.
  apply String.eqb_neq in Hne. rewrite Hne.
  destruct (split_cons "-" release) as [h [tl ->]]. reflexivity.
Qed.

(** X14. The era score.  Whenever [_calculate_era_score] returns, the score
    is a multiple of 10 between 0 and 100; the only exception it raises is
    [OverflowError]; only the part of the release date before the first
    hyphen counts; the same year scores 100 and a distance of ten years or
    more scores 0; and of two release years the one nearer to the performance
    year never scores less. *)
Theorem era_score_properties (performance_date : Py.date) :
  let score := fun release =>
    EraWeightedStrategy._calculate_era_score release performance_date in
  let year_of := fun release => Py.int (hd "" (Py.split "-" release)) in
  let distance := fun y => Z.abs (y - Py.year performance_date) in
  (forall release s, score release = Py.Ok s -> (0 <= s <= 100)%Z /\ (s mod 10 = 0)%Z)
  /\ (forall release e, score release = Py.Raise e -> e = Py.OverflowError)
  /\ (forall r r', r <> "" -> r' <> "" ->
        hd "" (Py.split "-" r) = hd "" (Py.split "-" r') -> score r = score r')
  /\ (forall r y, r <> "" -> year_of r = Some y ->
        (distance y = 0%Z -> score r = Py.Ok 100%Z)
        /\ ((10 <= distance y)%Z -> (distance y * 10 < Py.float_overflow)%Z ->
            score r = Py.Ok 0%Z))
  /\ (forall r1 r2 y1 y2 s1 s2, r1 <> "" -> r2 <> "" ->
        year_of r1 = Some y1 -> year_of r2 = Some y2 ->
        score r1 = Py.Ok s1 -> score r2 = Py.Ok s2 ->
        (distance y1 <= distance y2)%Z -> (s2 <= s1)%Z).
Proof.
  cbv zeta. pose proof float_overflow_large as Hbig.
  change (2 ^ 40)%Z with 1099511627776%Z in Hbig.
  split; [|split; [|split; [|split]]].
  - intros release s. destruct (String.eqb_spec release "") as [->|Hne].
    + intros [= <-]. split; [lia|reflexivity].
    + rewrite (era_score_unfold _ _ Hne).
      destruct (Py.int _) as [y|]; [|intros [= <-]; split; [lia|reflexivity]].
      cbv zeta. destruct (_ <=? _)%Z; [discriminate|]. intros [= <-].
      split; [lia|].
      destruct (Z.le_gt_cases (Z.abs (y - Py.year performance_date) * 10) 100).
      * rewrite Z.max_r by lia.
        replace (100 - Z.abs (y - Py.year performance_date) * 10)%Z
          with ((10 - Z.abs (y - Py.year performance_date)) * 10)%Z by lia.
        apply Z.mod_mul. lia.
      * rewrite Z.max_l by lia. reflexivity.
  - intros release e. destruct (String.eqb_spec release "") as [->|Hne]; [discriminate|].
    rewrite (era_score_unfold _ _ Hne).
    destruct (Py.int _) as [y|]; [|discriminate].
    cbv zeta. destruct (_ <=? _)%Z; [|discriminate]. now intros [= <-].
  - intros r r' Hr Hr' Hhd. rewrite (era_score_unfold _ _ Hr), (era_score_unfold _ _ Hr').
    now rewrite Hhd.
  - intros r y Hr Hy. rewrite (era_score_unfold _ _ Hr), Hy. cbv zeta. split.
    + intros ->. destruct (Z.leb_spec Py.float_overflow (0 * 10)); [lia|reflexivity].
    + intros Hfar Hfit.
      destruct (Z.leb_spec Py.float_overflow (Z.abs (y - Py.year performance_date) * 10));
        [lia|].
      f_equal. lia.
  - intros r1 r2 y1 y2 s1 s2 Hr1 Hr2 Hy1 Hy2.
    rewrite (era_score_unfold _ _ Hr1), (era_score_unfold _ _ Hr2), Hy1, Hy2. cbv zeta.
    destruct (_ <=? _)%Z; [discriminate|]. destruct (_ <=? _)%Z; [discriminate|].
    intros [= <-] [= <-] Hd. lia.
Qed.

Lemma sorted_firstn_skipn {A : Type} (before : A -> A -> Prop) (l : list A) :
  StronglySorted before l ->
  forall k a b, In a (firstn k l) -> In b (skipn k l) -> before a b.
Proof.
  induction 1 as [|x l Hs IH Hx]; intros [|k] a b; simpl; try tauto.
  intros [<-|Ha] Hb.
  - rewrite List.Forall_forall in Hx. apply Hx.
    rewrite <- (firstn_skipn k l). apply in_or_app. now right.
  - eapply IH; eassumption.
Qed.

Lemma sorted_firstn {A : Type} (before : A -> A -> Prop) (k : nat) (l : list A) :
  StronglySorted before l -> StronglySorted before (firstn k l).
Proof.
  intros Hs. revert k. induction Hs as [|x l Hs IH Hx]; intros [|k]; simpl;
    try constructor; auto.
  now apply Forall_firstn_of.
Qed.

(** X15. Era-weighted keeps the tracks nearest in time.  The catalog splits
    into the [min(count, size)] tracks whose models are returned and the rest;
    no track of the rest scores more than a returned one, and the returned
    ones are in descending order of score. *)
Theorem era_weighted_takes_the_closest
    (artist_id artist_name : string) (tracks : list TrackData.t)
    (performance_date : Py.date) (count : Z) :
  Forall (fun t => EraWeightedStrategy.score_in_range performance_date t = true) tracks ->
  (0 <= count)%Z ->
  let score := EraWeightedStrategy.era_score (Py.year performance_date) in
  exists chosen rest,
    Permutation (chosen ++ rest) tracks
    /\ EraWeightedStrategy.select_tracks artist_id artist_name tracks
         (Some performance_date) count
       = Py.mapM
           (fun t =>
              BaseStrategy._track_to_model EraWeightedStrategy.name t
                (EraWeightedStrategy.reason t))
           chosen
    /\ length chosen = Nat.min (Z.to_nat count) (length tracks)
    /\ (forall a b, In a chosen -> In b rest -> (score b <= score a)%Z)
    /\ StronglySorted (fun a b => (score b <= score a)%Z) chosen.
Proof.
  intros Hrange Hcount. cbv zeta.
  set (ranked := Py.sorted_desc
                   (EraWeightedStrategy.era_score (Py.year performance_date)) tracks).
  assert (Hperm : Permutation ranked tracks) by apply sorted_desc_perm.
  assert (Hsorted : StronglySorted
            (fun a b => (EraWeightedStrategy.era_score (Py.year performance_date) b
                         <= EraWeightedStrategy.era_score (Py.year performance_date) a)%Z)
            ranked) by apply sorted_desc_sorted.
  exists (firstn (Z.to_nat count) ranked), (skipn (Z.to_nat count) ranked).
  split; [now rewrite firstn_skipn|].
  split; [now rewrite era_select_eq, slice_to_firstn|].
  split; [now rewrite length_firstn, (Permutation_length Hperm)|].
  split.
  - intros a b Ha Hb. exact (sorted_firstn_skipn _ _ Hsorted _ a b Ha Hb).
  - now apply sorted_firstn.
Qed.

Lemma era_weighted_takes_the_closest_witness :
  exists chosen rest,
    Permutation (chosen ++ rest) Sample.catalog
    /\ length chosen = 2
    /\ (forall a b, In a chosen -> In b rest ->
          (EraWeightedStrategy.era_score 1978 b <= EraWeightedStrategy.era_score 1978 a)%Z).
Proof.
  destruct (era_weighted_takes_the_closest "a1" "Ramones" Sample.catalog
              Sample.october_1978 2)
    as [chosen [rest [Hperm [_ [Hlen [Hbest _]]]]]].
  - repeat constructor.
  - lia.
  - exists chosen, rest. split; [exact Hperm|]. split; [exact Hlen|exact Hbest].
Defined.

(** ** The popularity ceiling of deep cuts *)

Section Ceiling.
Context `{R : Random.Source} (contract : Random.contract R).

Lemma chosen_in_pool {A : Type} (pool chosen : list A) (count : Z) :
  (if (Py.len pool <=? count)%Z then Py.Ok pool else Random.sample pool count)
  = Py.Ok chosen ->
  Forall (fun x => In x pool) chosen.
Proof using contract.
  destruct (Py.len pool <=? count)%Z.
  - intros [= <-]. apply Forall_In_self.
  - unfold Random.sample.
    destruct (Z.ltb_spec count 0); simpl; [discriminate|].
    destruct (Z.ltb_spec (Py.len pool) count); simpl; [discriminate|].
    intros [= <-]. unfold Py.len in *.
    assert (Hpicks : Random.picks pool (Z.to_nat count)
                       (Random.random_sample pool (Z.to_nat count)))
      by (apply contract; lia).
    now apply picks_facts in Hpicks.
Qed.

(** X16. Deep-cuts keeps its ceiling whenever it can.  If the catalog has a
    track with popularity at most [max_popularity], every returned track has
    popularity at most [max_popularity]; if it has none, every returned track
    is at most as popular as each track left out of the [2 * count] least
    popular ones.  Every returned track is marked with the name of the
    strategy. *)
Theorem deep_cuts_respects_ceiling
    (self : DeepCutsStrategy.t) (artist_id artist_name : string)
    (tracks : list TrackData.t) (performance_date : option Py.date) (count : Z)
    (selected : list Track.t) :
  (0 <= count)%Z ->
  DeepCutsStrategy.select_tracks self artist_id artist_name tracks performance_date count
  = Py.Ok selected ->
  let candidates :=
    List.filter
      (fun t => (TrackData.popularity_or_0 t <=? DeepCutsStrategy.max_popularity self)%Z)
      tracks in
  let left_out :=
    skipn (Z.to_nat (2 * count)) (Py.sorted_asc TrackData.popularity_or_0 tracks) in
  (candidates <> [] ->
   Forall (fun m => (Track.popularity m <= DeepCutsStrategy.max_popularity self)%Z) selected)
  /\ (candidates = [] ->
      forall m t, In m selected -> In t left_out ->
                  (Track.popularity m <= TrackData.popularity_or_0 t)%Z)
  /\ Forall (fun m => Track.selection_strategy m = DeepCutsStrategy.name self) selected.
Proof using contract.
  intros Hcount Hsel. cbv zeta.
  unfold DeepCutsStrategy.select_tracks in Hsel.
  destruct (if (Py.len _ <=? count)%Z then _ else _) as [chosen|] eqn:E; simpl in Hsel;
    [|discriminate].
  apply chosen_in_pool in E.
  destruct (models_keep_ids _ _ _ _ Hsel) as [_ Hall]. apply Forall2_from in Hall.
  destruct (pool_cases self tracks count) as [Hsome Hnone].
  rewrite List.Forall_forall in E.
  split; [|split].
  - intros Hc. rewrite (Hsome Hc) in E.
    eapply List.Forall_impl; [|exact Hall]. simpl.
    intros m [t [Ht [_ [_ [-> _]]]]]. apply E in Ht. apply filter_In in Ht.
    destruct Ht as [_ Ht]. now apply Z.leb_le in Ht.
  - intros Hc m t Hm Ht. rewrite (Hnone Hc), slice_to_firstn in E by lia.
    rewrite List.Forall_forall in Hall. destruct (Hall m Hm) as [t' [Ht' [_ [_ [-> _]]]]].
    apply E in Ht'. replace (count * 2)%Z with (2 * count)%Z in Ht' by lia.
    exact (sorted_firstn_skipn _ _ (sorted_asc_sorted TrackData.popularity_or_0 tracks)
             _ t' t Ht' Ht).
  - eapply List.Forall_impl; [|exact Hall]. simpl. intros m [t [_ H]]. tauto.
Qed.

End Ceiling.

Lemma deep_cuts_respects_ceiling_witness :
  Forall (fun m => (Track.popularity m <= 60)%Z)
    [ Track.mk "t1" "Judy Is a Punk" "Ramones" "Collected"
        (Some (Py.mkdate 1977 1 1)) 10 "deep_cuts(max_pop=60)" "Deep cut: popularity 10";
      Track.mk "t3" "Bonzo Goes to Bitburg" "Ramones" "Collected"
        (Some (Py.mkdate 1985 6 1)) 55 "deep_cuts(max_pop=60)" "Deep cut: popularity 55" ].
Proof.
  refine (proj1 (deep_cuts_respects_ceiling first_positions_contract
                   (DeepCutsStrategy.mk 60) "a1" "Ramones" Sample.catalog None 2 _ _ _) _).
  - lia.
  - vm_compute. reflexivity.
  - discriminate.
Defined.

(** * Properties of the callers *)

Lemma dedupe_loop (l : list Performance.t) (seen : gset string)
    (acc : list Performance.t) :
  snd (fold_left
         (fun '(seen_artists, unique_performances) perf =>
            if decide (Pipeline.artist_key perf ∈ (seen_artists : gset string))
            then (seen_artists, unique_performances)
            else ({[Pipeline.artist_key perf]} ∪ seen_artists,
                  unique_performances ++ [perf]))
         l (seen, acc))
  = acc ++ Pipeline.unique_from seen l.
Proof.
  revert seen acc. induction l as [|perf l IH]; intros seen acc; simpl.
  - now rewrite app_nil_r.
  - destruct (decide (Pipeline.artist_key perf ∈ seen)).
    + apply IH.
    + rewrite IH, <- app_assoc. reflexivity.
Qed.

Lemma dedupe_eq (l : list Performance.t) :
  Pipeline.dedupe l = Pipeline.unique_from ∅ l.
Proof. unfold Pipeline.dedupe. now rewrite dedupe_loop. Qed.

Lemma unique_from_sublist (seen : gset string) (l : list Performance.t) :
  sublist (Pipeline.unique_from seen l) l.
Proof.
  revert seen. induction l as [|perf l IH]; intros seen; simpl.
  - constructor.
  - destruct (decide (Pipeline.artist_key perf ∈ seen)).
    + apply sublist_cons, IH.
    + apply sublist_skip, IH.
Qed.

Lemma unique_from_unseen (seen : gset string) (l : list Performance.t)
    (perf : Performance.t) :
  In perf (Pipeline.unique_from seen l) -> Pipeline.artist_key perf ∉ seen.
Proof.
  revert seen. induction l as [|a l IH]; intros seen; simpl; [tauto|].
  destruct (decide (Pipeline.artist_key a ∈ seen)) as [Hin|Hout].
  - apply IH.
  - intros [<-|Hrest]; [exact Hout|].
    apply IH in Hrest. set_solver.
Qed.

Lemma unique_from_NoDup (seen : gset string) (l : list Performance.t) :
  NoDup (map Pipeline.artist_key (Pipeline.unique_from seen l)).
Proof.
  revert seen. induction l as [|a l IH]; intros seen; simpl.
  - constructor.
  - destruct (decide (Pipeline.artist_key a ∈ seen)) as [Hin|Hout]; [apply IH|].
    simpl. apply NoDup_cons. split; [|apply IH].
    rewrite list_elem_of_In, in_map_iff. intros [perf [Hkey Hperf]].
    apply unique_from_unseen in Hperf. set_solver.
Qed.

Lemma unique_from_find (k : string) (seen : gset string) (l : list Performance.t) :
  find (fun perf => String.eqb (Pipeline.artist_key perf) k) (Pipeline.unique_from seen l)
  = if decide (k ∈ seen) then None
    else find (fun perf => String.eqb (Pipeline.artist_key perf) k) l.
Proof.
  revert seen. induction l as [|a l IH]; intros seen; simpl.
  - now destruct (decide (k ∈ seen)).
  - destruct (decide (Pipeline.artist_key a ∈ seen)) as [Hin|Hout].
    + rewrite IH. destruct (decide (k ∈ seen)) as [|Hk]; [reflexivity|].
      destruct (String.eqb_spec (Pipeline.artist_key a) k) as [E|_]; [|reflexivity].
      subst k. contradiction.
    + simpl. destruct (String.eqb_spec (Pipeline.artist_key a) k) as [E|Hne].
      * subst k. destruct (decide (Pipeline.artist_key a ∈ seen)); [contradiction|reflexivity].
      * rewrite IH.
        destruct (decide (k ∈ {[Pipeline.artist_key a]} ∪ seen)) as [H1|H1];
          destruct (decide (k ∈ seen)) as [H2|H2]; try reflexivity; exfalso.
        -- apply elem_of_union in H1. destruct H1 as [H1|H1]; [|contradiction].
           apply elem_of_singleton in H1. congruence.
        -- apply H1, elem_of_union. now right.
Qed.

Lemma unique_from_fixed (seen : gset string) (l : list Performance.t) :
  NoDup (map Pipeline.artist_key l) ->
  (forall perf, In perf l -> Pipeline.artist_key perf ∉ seen) ->
  Pipeline.unique_from seen l = l.
Proof.
  revert seen. induction l as [|a l IH]; intros seen Hnd Hout; simpl; [reflexivity|].
  simpl in Hnd. apply NoDup_cons in Hnd. destruct Hnd as [Ha Hnd].
  destruct (decide (Pipeline.artist_key a ∈ seen)) as [Hin|_].
  - exfalso. apply (Hout a); [now left|exact Hin].
  - f_equal. apply IH; [exact Hnd|].
    intros perf Hperf Hk. apply elem_of_union in Hk. destruct Hk as [Hk|Hk].
    + apply elem_of_singleton in Hk. apply Ha. rewrite list_elem_of_In, in_map_iff.
      exists perf. split; [exact Hk|exact Hperf].
    + apply (Hout perf); [now right|exact Hk].
Qed.

(** X17. Step 4 of the pipeline keeps one record per artist, names compared
    in lower case: what it returns is a sublist of its input, in the input's
    order, in which no two records have the same key; for every key it holds
    the first record of the input with that key, so no artist of the input
    is lost; and running it again changes nothing. *)
Theorem dedupe_keeps_first_per_artist (l : list Performance.t) :
  sublist (Pipeline.dedupe l) l
  /\ NoDup (map Pipeline.artist_key (Pipeline.dedupe l))
  /\ (forall k : string,
        find (fun perf => String.eqb (Pipeline.artist_key perf) k) (Pipeline.dedupe l)
        = find (fun perf => String.eqb (Pipeline.artist_key perf) k) l)
  /\ (forall perf, In perf l ->
        exists kept, In kept (Pipeline.dedupe l)
                     /\ Pipeline.artist_key kept = Pipeline.artist_key perf)
  /\ Pipeline.dedupe (Pipeline.dedupe l) = Pipeline.dedupe l.
Proof.
  assert (Hfind : forall k : string,
            find (fun perf => String.eqb (Pipeline.artist_key perf) k) (Pipeline.dedupe l)
            = find (fun perf => String.eqb (Pipeline.artist_key perf) k) l).
  { intros k. rewrite dedupe_eq, unique_from_find.
    destruct (decide (k ∈ (∅ : gset string))) as [H|_]; [set_solver|reflexivity]. }
  split; [rewrite dedupe_eq; apply unique_from_sublist|].
  split; [rewrite dedupe_eq; apply unique_from_NoDup|].
  split; [exact Hfind|].
  split.
  - intros perf Hperf.
    destruct (find (fun p => String.eqb (Pipeline.artist_key p) (Pipeline.artist_key perf))
                (Pipeline.dedupe l)) as [kept|] eqn:E.
    + apply find_some in E. destruct E as [Hin Hk]. apply String.eqb_eq in Hk.
      exists kept. split; assumption.
    + rewrite Hfind in E. apply (find_none _ _ E) in Hperf.
      now rewrite String.eqb_refl in Hperf.
  - rewrite (dedupe_eq (Pipeline.dedupe l)). apply unique_from_fixed.
    + rewrite dedupe_eq. apply unique_from_NoDup.
    + intros perf _. set_solver.
Qed.

Lemma filter_all_kept {A : Type} (keep : A -> bool) (l : list A) :
  Forall (fun x => keep x = true) l -> List.filter keep l = l.
Proof.
  induction 1 as [|x l Hx _ IH]; simpl; [reflexivity|]. now rewrite Hx, IH.
Qed.

Lemma filter_step_eq `{Py.Repr} (start_date end_date : Py.date) (min_confidence : Q)
    (performances : list Performance.t) :
  Qle_bool 0 min_confidence && Qle_bool min_confidence 1 = true ->
  let chain :=
    [ConcreteFilter.DateRange (DateRangeFilter.__init__ start_date end_date);
     ConcreteFilter.Confidence (ConfidenceFilter.mk min_confidence)] in
  Pipeline.filter_step start_date end_date min_confidence performances
  = Py.Ok
      (FilterResult.mk
         (List.filter (fun perf => forallb (fun c => ConcreteFilter.keeps c perf) chain)
            performances)
         (ConcreteFilter.stage_exclusions chain performances)).
Proof.
  intros Hmin chain. unfold Pipeline.filter_step, ConfidenceFilter.__init__.
  rewrite Hmin. simpl Py.bind.
  change (FilterChain.add
            (FilterChain.add FilterChain.__init__
               (DateRangeFilter.as_filter (DateRangeFilter.__init__ start_date end_date)))
            (ConfidenceFilter.as_filter (ConfidenceFilter.mk min_confidence)))
    with (map ConcreteFilter.as_filter chain).
  now rewrite chain_apply_eq.
Qed.

(** X18. Step 3 of the pipeline: a confidence threshold outside [0, 1] is
    refused with a [ValueError] before any record is looked at; otherwise
    the step includes, in their order, the records that have temporal
    evidence overlapping the window and a confidence score at or above the
    threshold, and it lists the exclusions of the date-range filter first,
    then those the confidence filter made among the records the date-range
    filter kept. *)
Theorem filter_step_rule `{Py.Repr} (start_date end_date : Py.date) (min_confidence : Q)
    (performances : list Performance.t) :
  let date_filter := DateRangeFilter.__init__ start_date end_date in
  let confidence_filter := ConfidenceFilter.mk min_confidence in
  let in_window := List.filter (DateRangeFilter.keeps date_filter) performances in
  (Qle_bool 0 min_confidence && Qle_bool min_confidence 1 = false ->
   Pipeline.filter_step start_date end_date min_confidence performances
   = Py.Raise (Py.ValueError "min_confidence must be between 0.0 and 1.0"))
  /\ (Qle_bool 0 min_confidence && Qle_bool min_confidence 1 = true ->
      Pipeline.filter_step start_date end_date min_confidence performances
      = Py.Ok
          (FilterResult.mk
             (List.filter
                (fun perf =>
                   Performance.has_valid_date perf
                   && Performance.overlaps_range perf start_date end_date
                   && Qle_bool min_confidence (Performance.confidence_score perf))
                performances)
             (map (DateRangeFilter.exclusion date_filter)
                  (List.filter (fun perf => negb (DateRangeFilter.keeps date_filter perf))
                     performances)
              ++ map (ConfidenceFilter.exclusion confidence_filter)
                   (List.filter
                      (fun perf => negb (ConfidenceFilter.keeps confidence_filter perf))
                      in_window)))).
Proof.
  intros date_filter confidence_filter in_window. split; intros Hmin.
  - unfold Pipeline.filter_step, ConfidenceFilter.__init__. now rewrite Hmin.
  - rewrite filter_step_eq by exact Hmin. simpl. rewrite app_nil_r.
    f_equal. f_equal.
    apply filter_ext. intros perf.
    unfold DateRangeFilter.keeps, ConfidenceFilter.keeps. simpl.
    now rewrite andb_true_r.
Qed.

Lemma contains_In (c : ascii) (s : string) :
  Py.contains c s = true <-> In c (list_ascii_of_string s).
Proof.
  induction s as [|d s IH]; simpl; [split; [discriminate|tauto]|].
  rewrite orb_true_iff, IH, Ascii.eqb_eq. tauto.
Qed.

Lemma split_parts_free (sep : ascii) (s part : string) :
  In part (Py.split sep s) -> ~ In sep (list_ascii_of_string part).
Proof.
  revert part. induction s as [|c s IH]; intros part; simpl.
  - intros [<-|[]]. simpl. tauto.
  - destruct (Ascii.eqb_spec c sep) as [E|Hne].
    + intros [<-|Hin]; [simpl; tauto|]. now apply IH.
    + destruct (Py.split sep s) as [|h t] eqn:Es.
      * intros [<-|[]]. simpl. intros [E|[]]. congruence.
      * intros [<-|Hin].
        -- simpl. intros [E|Hh]; [congruence|]. revert Hh. apply IH. now left.
        -- apply IH. now right.
Qed.

Lemma lstrip_In (c : ascii) (l : list ascii) : In c (Py.lstrip l) -> In c l.
Proof.
  induction l as [|d l IH]; simpl; [tauto|].
  destruct (Py.is_space d); [right; auto|trivial].
Qed.

Lemma strip_In (c : ascii) (l : list ascii) : In c (Py.strip l) -> In c l.
Proof.
  unfold Py.strip. intros Hc. apply in_rev, lstrip_In, in_rev, lstrip_In in Hc. exact Hc.
Qed.

Lemma digits_nonneg (l : list ascii) (acc : Z) (n : nat) (after_digit : bool)
    (v : Z) (n' : nat) :
  Py.digits acc n after_digit l = Some (v, n') -> (0 <= acc)%Z -> (0 <= v)%Z.
Proof.
  revert acc n after_digit. induction l as [|c l IH]; intros acc n after_digit; simpl.
  - destruct after_digit; [|discriminate]. intros [= <- _]. trivial.
  - destruct (Py.is_digit c).
    + intros E Hacc. apply IH in E; [exact E|]. unfold Py.digit_value. lia.
    + destruct (Ascii.eqb c "_"); [|discriminate].
      destruct after_digit; [|discriminate]. apply IH.
Qed.

Lemma int_unsigned (s : string) (z : Z) :
  Py.int s = Some z -> ~ In "-"%char (list_ascii_of_string s) -> (0 <= z)%Z.
Proof.
  unfold Py.int. intros E Hfree.
  assert (Hstrip : ~ In "-"%char (Py.strip (list_ascii_of_string s))).
  { intros Hin. apply Hfree, strip_In, Hin. }
  destruct (Py.strip (list_ascii_of_string s)) as [|c r] eqn:El.
  - simpl in E. discriminate.
  - destruct (Ascii.eqb_spec c "-"%char) as [->|Hc].
    + exfalso. apply Hstrip. now left.
    + assert (Hsign : exists body,
                 (let '(sign, body) :=
                    match c :: r with
                    | "+"%char :: r => (1%Z, r)
                    | "-"%char :: r => ((-1)%Z, r)
                    | _ => (1%Z, c :: r)
                    end in
                  match Py.digits 0 0 false body with
                  | Some (v, n) =>
                      if (n <=? Py.int_max_str_digits)%nat then Some (sign * v)%Z else None
                  | None => None
                  end)
                 = match Py.digits 0 0 false body with
                   | Some (v, n) =>
                       if (n <=? Py.int_max_str_digits)%nat then Some (1 * v)%Z else None
                   | None => None
                   end).
      { destruct c as [[] [] [] [] [] [] [] []]; try (exists (c :: r); reflexivity);
          try (eexists; reflexivity). exfalso. now apply Hc. }
      destruct Hsign as [body Hsign]. rewrite Hsign in E.
      destruct (Py.digits 0 0 false body) as [[v n]|] eqn:Ed; [|discriminate].
      destruct (n <=? Py.int_max_str_digits)%nat; [|discriminate].
      injection E as <-. apply digits_nonneg in Ed; lia.
Qed.

Lemma parse_count_nonneg (strategy_name : string) :
  (0 <= SpotifyClient.parse_count strategy_name)%Z.
Proof.
  unfold SpotifyClient.parse_count.
  destruct (Py.contains "-" strategy_name); [|lia].
  destruct (Py.split "-" strategy_name) as [|kind [|part rest]] eqn:Es; try lia.
  destruct (Py.int part) as [count|] eqn:Ei; [|lia].
  apply (int_unsigned part count Ei).
  apply (split_parts_free "-"%char strategy_name). rewrite Es. right. now left.
Qed.

(** X19. The count that [get_tracks_for_artist] reads off a strategy name is
    never negative: the part between the first two hyphens cannot carry a
    minus sign. It is 3 for a name without a hyphen, and 3 again when that
    part is not an integer; so no name reaches a selection strategy with a
    negative count. *)
Theorem parse_count_never_negative (strategy_name : string) :
  (0 <= SpotifyClient.parse_count strategy_name)%Z
  /\ (Py.contains "-" strategy_name = false -> SpotifyClient.parse_count strategy_name = 3%Z)
  /\ (forall kind part rest,
        Py.split "-" strategy_name = kind :: part :: rest ->
        SpotifyClient.parse_count strategy_name = default 3%Z (Py.int part)).
Proof.
  split; [|split].
  - apply parse_count_nonneg.
  - unfold SpotifyClient.parse_count. now intros ->.
  - intros kind part rest Es. unfold SpotifyClient.parse_count. rewrite Es.
    destruct (Py.contains "-" strategy_name) eqn:Ec; [now destruct (Py.int part)|].
    exfalso. clear -Es Ec.
    revert kind part rest Es. induction strategy_name as [|c s IH]; intros kind part rest Es.
    + discriminate.
    + simpl in Ec. apply orb_false_iff in Ec. destruct Ec as [Ec Ec'].
      simpl in Es. rewrite Ec in Es.
      destruct (Py.split "-" s) as [|h [|p r]] eqn:E'; try discriminate.
      eapply IH; eauto.
Qed.

Lemma bind_Ok {A B : Type} (x : A) (f : A -> Py.result B) : Py.bind (Py.Ok x) f = f x.
Proof. reflexivity. Qed.

Section TracksForArtist.
Context `{api : SpotifyClient.Api} `{R : Random.Source} (contract : Random.contract R).
Hypothesis catalogs_well_formed : forall id,
  Forall (fun t => TrackData.well_formed t = true) (SpotifyClient.get_artist_catalog id).
Hypothesis top_tracks_well_formed : forall id,
  Forall (fun t => TrackData.well_formed t = true) (SpotifyClient.get_artist_top_tracks id).

Lemma tracks_for_artist (artist_name strategy_name : string)
    (performance_date : option Py.date) :
  (forall d, performance_date = Some d ->
     Py.date_new (Py.year d) (Py.month d) (Py.day d) = Py.Ok d) ->
  exists tracks excluded,
    SpotifyClient.get_tracks_for_artist artist_name strategy_name performance_date
    = Py.Ok (tracks, excluded)
    /\ (Py.len tracks <= SpotifyClient.parse_count strategy_name)%Z
    /\ (excluded = []
        \/ tracks = []
           /\ (excluded = [SpotifyClient.not_found artist_name]
               \/ excluded = [SpotifyClient.no_tracks artist_name]))
    /\ (tracks = [] -> excluded = [] -> SpotifyClient.parse_count strategy_name = 0%Z).
Proof using contract catalogs_well_formed top_tracks_well_formed.
  intros date_exists.
  pose proof (parse_count_nonneg strategy_name) as Hcount.
  assert (Hmiss : exists (tracks : list Track.t) (excluded : list ExcludedItem.t),
            @Py.Ok (list Track.t * list ExcludedItem.t)
              ([], [SpotifyClient.not_found artist_name])
            = Py.Ok (tracks, excluded)
            /\ (Py.len tracks <= SpotifyClient.parse_count strategy_name)%Z
            /\ (excluded = []
                \/ tracks = []
                   /\ (excluded = [SpotifyClient.not_found artist_name]
                       \/ excluded = [SpotifyClient.no_tracks artist_name]))
            /\ (tracks = [] -> excluded = [] ->
                SpotifyClient.parse_count strategy_name = 0%Z)).
  { exists [], [SpotifyClient.not_found artist_name].
    split; [reflexivity|]. split; [exact Hcount|]. split; [auto|discriminate]. }
  unfold SpotifyClient.get_tracks_for_artist.
  destruct (SpotifyClient.search_artist artist_name) as [artist|]; [|exact Hmiss].
  destruct (Artist.spotify_id artist) as [[|c id]|]; try exact Hmiss.
  set (spotify_id := String c id).
  set (tracks := if SpotifyClient.wants_catalog strategy_name
                 then SpotifyClient.get_artist_catalog spotify_id
                 else SpotifyClient.get_artist_top_tracks spotify_id).
  assert (Hwf : Forall (fun t => TrackData.well_formed t = true) tracks).
  { unfold tracks. destruct (SpotifyClient.wants_catalog strategy_name); auto. }
  destruct tracks as [|t tracks'] eqn:Et.
  - exists [], [SpotifyClient.no_tracks artist_name].
    split; [reflexivity|]. split; [exact Hcount|]. split; [auto|discriminate].
  - rewrite <- Et in *.
    destruct (strategy_size contract spotify_id (Artist.name artist) tracks performance_date
                (SpotifyClient.parse_count strategy_name) Hwf date_exists Hcount
                (fst (get_strategy strategy_name None)))
      as [selected [E Hlen]].
    rewrite E. simpl. exists selected, [].
    split; [reflexivity|]. split; [unfold Py.len; lia|]. split; [now left|].
    intros -> _. simpl in Hlen.
    destruct (Z.eq_dec (SpotifyClient.parse_count strategy_name) 0%Z) as [E0|Hne]; [exact E0|].
    exfalso.
    assert (Hpool : match fst (get_strategy strategy_name None) with
                    | Strategy.deep_cuts self =>
                        DeepCutsStrategy.pool self tracks
                          (SpotifyClient.parse_count strategy_name)
                    | _ => tracks
                    end <> []).
    { destruct (fst (get_strategy strategy_name None)) as [| | |self];
        try (rewrite Et; discriminate).
      apply pool_nonempty; [rewrite Et; discriminate|lia]. }
    destruct (match fst (get_strategy strategy_name None) with
              | Strategy.deep_cuts self =>
                  DeepCutsStrategy.pool self tracks (SpotifyClient.parse_count strategy_name)
              | _ => tracks
              end) as [|x pool]; [congruence|].
    simpl in Hlen. lia.
Qed.


Lemma collect_loop (strategy : string) (unique_performances : list Performance.t)
    (all_tracks : list Track.t) (all_excluded : list ExcludedItem.t) :
  Forall (fun perf => forall d, Performance.performance_date perf = Some d ->
            Py.date_new (Py.year d) (Py.month d) (Py.day d) = Py.Ok d)
    unique_performances ->
  exists tracks excluded,
    fold_left
      (fun state perf =>
         Py.bind state
           (fun '(all_tracks, all_excluded) =>
              Py.bind
                (SpotifyClient.get_tracks_for_artist (Performance.artist_name perf) strategy
                   (Performance.performance_date perf))
                (fun '(tracks, excluded) =>
                   Py.Ok (all_tracks ++ tracks, all_excluded ++ excluded))))
      unique_performances (Py.Ok (all_tracks, all_excluded))
    = Py.Ok (all_tracks ++ tracks, all_excluded ++ excluded)
    /\ (Py.len tracks
        <= SpotifyClient.parse_count strategy * Py.len unique_performances)%Z
    /\ (length excluded <= length unique_performances)%nat
    /\ Forall (fun item =>
                 ExcludedItem.item_type item = "artist"
                 /\ ExcludedItem.filter_name item = None
                 /\ exists perf, In perf unique_performances
                                 /\ ExcludedItem.name item = Performance.artist_name perf)
         excluded
    /\ ((1 <= SpotifyClient.parse_count strategy)%Z -> tracks = [] ->
        length excluded = length unique_performances).
Proof using contract catalogs_well_formed top_tracks_well_formed.
  revert all_tracks all_excluded.
  induction unique_performances as [|perf l IH]; intros all_tracks all_excluded Hdates.
  - exists [], []. simpl. rewrite !app_nil_r.
    split; [reflexivity|]. split; [unfold Py.len; simpl; lia|]. split; [lia|].
    split; [constructor|reflexivity].
  - inversion Hdates as [|? ? Hperf Hl]; subst.
    destruct (tracks_for_artist (Performance.artist_name perf) strategy
                (Performance.performance_date perf) Hperf)
      as [tracks [excluded [E [Hlen [Hcases Hsilent]]]]].
    cbn [fold_left]. rewrite bind_Ok. cbv beta iota. rewrite E, bind_Ok. cbv beta iota.
    destruct (IH (all_tracks ++ tracks) (all_excluded ++ excluded) Hl)
      as [tracks' [excluded' [E' [Hlen' [Hex' [Hitems' Hnone']]]]]].
    rewrite E'. exists (tracks ++ tracks'), (excluded ++ excluded').
    rewrite <- !app_assoc. split; [reflexivity|].
    assert (Hexcluded : length excluded <= 1
                        /\ Forall (fun item =>
                                     ExcludedItem.item_type item = "artist"
                                     /\ ExcludedItem.filter_name item = None
                                     /\ ExcludedItem.name item = Performance.artist_name perf)
                             excluded).
    { destruct Hcases as [->|[_ [->| ->]]]; simpl; split; try lia;
        repeat constructor. }
    destruct Hexcluded as [Hex Hitems].
    split; [|split; [|split]].
    + unfold Py.len in *. rewrite length_app. simpl length.
      pose proof (parse_count_nonneg strategy). nia.
    + rewrite length_app. simpl. lia.
    + apply Forall_app. split.
      * eapply List.Forall_impl; [|exact Hitems]. simpl.
        intros item [Ht [Hf Hn]]. repeat split; try assumption.
        exists perf. split; [now left|exact Hn].
      * eapply List.Forall_impl; [|exact Hitems']. simpl.
        intros item [Ht [Hf [p [Hp Hn]]]]. repeat split; try assumption.
        exists p. split; [now right|exact Hn].
    + intros Hcount Hempty. apply app_eq_nil in Hempty. destruct Hempty as [-> ->].
      rewrite length_app, (Hnone' Hcount eq_refl). simpl.
      destruct Hcases as [->|[_ [->| ->]]]; simpl; try reflexivity.
      specialize (Hsilent eq_refl eq_refl). lia.
Qed.

(** X25. Step 6 of the pipeline, for a service whose track listings are
    well formed and performance dates that exist, always completes: it
    collects at most [count] tracks per record, and at most one exclusion
    per record, each of type [artist], with no filter name, and named after
    the artist of one of the records. When the count is at least 1 and no
    track at all was collected, the case in which the run stops with
    [No tracks found for any artists], every record has its exclusion. *)
Theorem collect_tracks_accounting (strategy : string)
    (unique_performances : list Performance.t) :
  Forall (fun perf => forall d, Performance.performance_date perf = Some d ->
            Py.date_new (Py.year d) (Py.month d) (Py.day d) = Py.Ok d)
    unique_performances ->
  exists all_tracks all_excluded,
    Pipeline.collect_tracks strategy unique_performances = Py.Ok (all_tracks, all_excluded)
    /\ (Py.len all_tracks
        <= SpotifyClient.parse_count strategy * Py.len unique_performances)%Z
    /\ (length all_excluded <= length unique_performances)%nat
    /\ Forall (fun item =>
                 ExcludedItem.item_type item = "artist"
                 /\ ExcludedItem.filter_name item = None
                 /\ exists perf, In perf unique_performances
                                 /\ ExcludedItem.name item = Performance.artist_name perf)
         all_excluded
    /\ ((1 <= SpotifyClient.parse_count strategy)%Z -> all_tracks = [] ->
        length all_excluded = length unique_performances).
Proof using contract catalogs_well_formed top_tracks_well_formed.
  intros Hdates. unfold Pipeline.collect_tracks.
  destruct (collect_loop strategy unique_performances [] [] Hdates)
    as [tracks [excluded [E Hrest]]].
  rewrite E. simpl. exists tracks, excluded. split; [reflexivity|exact Hrest].
Qed.
End TracksForArtist.


Lemma collect_tracks_accounting_witness :
  exists all_tracks all_excluded,
    @Pipeline.collect_tracks Sample.api Random.first_positions "top-1"
      [Sample.ramones; Sample.television]
    = Py.Ok (all_tracks, all_excluded)
    /\ (Py.len all_tracks <= 2)%Z
    /\ (length all_excluded <= 2)%nat.
Proof.
  destruct (collect_tracks_accounting (api := Sample.api) first_positions_contract
              (fun _ => ltac:(repeat constructor))
              (fun _ => ltac:(repeat constructor))
              "top-1" [Sample.ramones; Sample.television])
    as [all_tracks [all_excluded [E [Hlen [Hex _]]]]].
  - repeat constructor.
    + intros d [= <-]. reflexivity.
    + discriminate.
  - exists all_tracks, all_excluded. split; [exact E|]. split; [exact Hlen|exact Hex].
Defined.

Lemma firstn_add_skipn {A : Type} (a b : nat) (l : list A) :
  firstn (a + b) l = firstn a l ++ firstn b (skipn a l).
Proof.
  revert l. induction a as [|a IH]; intros l; simpl; [reflexivity|].
  destruct l as [|x l]; simpl.
  - now rewrite firstn_nil.
  - now rewrite IH.
Qed.

Lemma accepted_le {A : Type} (calls : list (list A * bool)) :
  length (concat (map fst (List.filter snd calls))) <= length (concat (map fst calls)).
Proof.
  induction calls as [|[batch ok] calls IH]; simpl; [lia|].
  destruct ok; simpl; rewrite ?length_app; lia.
Qed.

Section Batches.
Context `{api : SpotifyClient.Api} (playlist_id : string) (uris : list string).

Lemma batch_loop (m : nat) :
  m <= (length uris + 99) / 100 ->
  exists added calls,
    fold_left
      (fun '(added, calls) i =>
         if SpotifyClient.playlist_add_items (length calls) playlist_id
              (PyMore.slice uris i (i + 100))
         then ((added + Py.len (PyMore.slice uris i (i + 100)))%Z,
               calls ++ [(PyMore.slice uris i (i + 100), true)])
         else (added, calls ++ [(PyMore.slice uris i (i + 100), false)]))
      (map (fun k => k * 100) (seq 0 m)) (0%Z, [])
    = (added, calls)
    /\ length calls = m
    /\ concat (map fst calls) = firstn (m * 100) uris
    /\ Forall (fun batch => 1 <= length batch <= 100) (map fst calls)
    /\ added = Py.len (concat (map fst (List.filter snd calls)))
    /\ Forall (fun call => exists k,
                 snd call = SpotifyClient.playlist_add_items k playlist_id (fst call))
         calls.
Proof using Type.
  induction m as [|m IH]; intros Hm.
  - exists 0%Z, []. simpl. repeat split; constructor.
  - destruct IH as [added [calls [E [Hlen [Hcat [Hsize [Hadded Hcalls]]]]]]]; [lia|].
    replace (S m * 100) with (m * 100 + 100) by lia.
    rewrite seq_S, map_app, fold_left_app, E. cbn [map fold_left Nat.add].
    set (batch := PyMore.slice uris (m * 100) (m * 100 + 100)).
    assert (Hbatch : batch = firstn 100 (skipn (m * 100) uris)).
    { unfold batch, PyMore.slice. f_equal. lia. }
    assert (Hb : 1 <= length batch <= 100).
    { rewrite Hbatch, length_firstn, length_skipn. clear -Hm. pose proof (Nat.Div0.mul_div_le (length uris + 99) 100). lia. }
    assert (Hcat' : forall ok,
              concat (map fst (calls ++ [(batch, ok)])) = firstn (m * 100 + 100) uris).
    { intros ok. rewrite map_app, concat_app, Hcat. simpl. rewrite app_nil_r.
      now rewrite firstn_add_skipn, Hbatch. }
    assert (Hsize' : forall ok,
              Forall (fun batch => 1 <= length batch <= 100)
                (map fst (calls ++ [(batch, ok)]))).
    { intros ok. rewrite map_app. apply Forall_app. split; [exact Hsize|].
      constructor; [exact Hb|constructor]. }
    destruct (SpotifyClient.playlist_add_items (length calls) playlist_id batch) eqn:Eok.
    + exists (added + Py.len batch)%Z, (calls ++ [(batch, true)]).
      split; [reflexivity|]. split; [rewrite length_app; simpl; lia|].
      split; [apply Hcat'|]. split; [apply Hsize'|]. split.
      * rewrite List.filter_app, map_app, concat_app. simpl. rewrite app_nil_r.
        unfold Py.len in *. rewrite length_app. lia.
      * apply Forall_app. split; [exact Hcalls|].
        constructor; [|constructor]. exists (length calls). simpl. now rewrite Eok.
    + exists added, (calls ++ [(batch, false)]).
      split; [reflexivity|]. split; [rewrite length_app; simpl; lia|].
      split; [apply Hcat'|]. split; [apply Hsize'|]. split.
      * rewrite List.filter_app, map_app, concat_app. simpl. rewrite app_nil_r.
        exact Hadded.
      * apply Forall_app. split; [exact Hcalls|].
        constructor; [|constructor]. exists (length calls). simpl. now rewrite Eok.
Qed.
End Batches.

(** X21. [add_tracks_to_playlist] sends every track exactly once and in
    order: the batches it sends, put end to end, are the URIs of the given
    track ids; each batch holds between 1 and 100 of them, and there are
    [ceil(n / 100)] batches, so none for the empty list. The number it
    returns is the number of URIs in the batches the service accepted: it
    lies between 0 and [n], and it is [n] when every call is accepted. A
    refused batch is not sent again. *)
Theorem playlist_batches `{api : SpotifyClient.Api} (playlist_id : string)
    (track_ids : list string) :
  let added := fst (SpotifyClient.add_tracks_to_playlist playlist_id track_ids) in
  let calls := snd (SpotifyClient.add_tracks_to_playlist playlist_id track_ids) in
  concat (map fst calls) = map SpotifyClient.uri track_ids
  /\ Forall (fun batch => 1 <= length batch <= 100) (map fst calls)
  /\ length calls = (length track_ids + 99) / 100
  /\ added = Py.len (concat (map fst (List.filter snd calls)))
  /\ (0 <= added <= Py.len track_ids)%Z
  /\ ((forall k batch, SpotifyClient.playlist_add_items k playlist_id batch = true) ->
      added = Py.len track_ids).
Proof.
  intros added calls.
  assert (H : concat (map fst calls) = map SpotifyClient.uri track_ids
              /\ Forall (fun batch => 1 <= length batch <= 100) (map fst calls)
              /\ length calls = (length track_ids + 99) / 100
              /\ added = Py.len (concat (map fst (List.filter snd calls)))
              /\ Forall (fun call => exists k,
                           snd call
                           = SpotifyClient.playlist_add_items k playlist_id (fst call))
                   calls).
  { subst added calls. unfold SpotifyClient.add_tracks_to_playlist.
    destruct track_ids as [|tid track_ids'] eqn:Et.
    - simpl. repeat split; constructor.
    - rewrite <- Et. set (uris := map SpotifyClient.uri track_ids).
      unfold PyMore.range_step.
      replace (length uris + 100 - 1) with (length uris + 99) by lia.
      destruct (batch_loop playlist_id uris ((length uris + 99) / 100) (le_n _))
        as [added [calls [E [Hlen [Hcat [Hsize [Hadded Hcalls]]]]]]].
      cbv zeta. rewrite E. simpl.
      split; [|split; [exact Hsize|split; [|split; [exact Hadded|exact Hcalls]]]].
      + rewrite Hcat. apply firstn_all2.
        pose proof (Nat.div_mod_eq (length uris + 99) 100) as Hq.
        pose proof (Nat.mod_upper_bound (length uris + 99) 100) as Hr. lia.
      + rewrite Hlen. unfold uris. now rewrite length_map. }
  destruct H as [Hcat [Hsize [Hlen [Hadded Hcalls]]]].
  assert (Hn : length (concat (map fst calls)) = length track_ids).
  { now rewrite Hcat, length_map. }
  repeat (split; [assumption|]). split.
  - rewrite Hadded. unfold Py.len. pose proof (accepted_le calls). lia.
  - intros Hall. rewrite Hadded. unfold Py.len. rewrite <- Hn. do 4 f_equal.
    clear -Hcalls Hall. induction calls as [|[batch ok] calls IH]; [reflexivity|].
    inversion Hcalls as [|? ? [k Hk] Hrest]; subst. simpl in Hk. rewrite Hall in Hk.
    subst ok. simpl. f_equal. apply IH, Hrest.
Qed.

Lemma dict_get_set {V : Type} (d : list (string * V)) (k k' : string) (v : V) :
  PyMore.dict_get (PyMore.dict_set d k v) k'
  = if String.eqb k k' then Some v else PyMore.dict_get d k'.
Proof.
  induction d as [|[k0 v0] d IH]; simpl; [reflexivity|].
  destruct (String.eqb_spec k0 k) as [->|Hne]; simpl.
  - now destruct (String.eqb k k').
  - rewrite IH. destruct (String.eqb_spec k0 k') as [->|Hne'].
    + destruct (String.eqb_spec k k') as [->|_]; [contradiction|reflexivity].
    + reflexivity.
Qed.

Lemma dict_set_keys {V : Type} (d : list (string * V)) (k x : string) (v : V) :
  In x (map fst (PyMore.dict_set d k v)) <-> x = k \/ In x (map fst d).
Proof.
  induction d as [|[k0 v0] d IH]; simpl; [intuition|].
  destruct (String.eqb_spec k0 k) as [->|Hne]; simpl; [intuition|].
  rewrite IH. intuition.
Qed.

Lemma dict_set_NoDup {V : Type} (d : list (string * V)) (k : string) (v : V) :
  List.NoDup (map fst d) -> List.NoDup (map fst (PyMore.dict_set d k v)).
Proof.
  induction d as [|[k0 v0] d IH]; simpl; intros Hnd.
  - constructor; [tauto|constructor].
  - inversion Hnd as [|? ? Hout Hrest]; subst.
    destruct (String.eqb_spec k0 k) as [->|Hne]; simpl.
    + constructor; assumption.
    + constructor; [|apply IH, Hrest].
      rewrite dict_set_keys. intros [E|Hin]; [congruence|contradiction].
Qed.

Lemma dict_set_Forall {V : Type} (P : string * V -> Prop) (d : list (string * V))
    (k : string) (v : V) :
  P (k, v) -> Forall P d -> Forall P (PyMore.dict_set d k v).
Proof.
  intros Hk. induction 1 as [|[k0 v0] d H0 Hd IH]; simpl.
  - constructor; [exact Hk|constructor].
  - destruct (String.eqb k0 k); constructor; assumption.
Qed.

(** X22. A registry built by any sequence of [register] calls holds one
    entry per name: [names] has no duplicate and lists exactly the names of
    the registered sources, [all] lists one source for each of these names,
    in the same order, and [get] returns the source registered last under a
    name, or [None] for a name that was never registered. *)
Theorem registry_last_registration_wins {Source : Type} (name_of : Source -> string)
    (sources : list Source) :
  let registry :=
    fold_left (DataSourceRegistry.register name_of) sources DataSourceRegistry.__init__ in
  NoDup (DataSourceRegistry.names registry)
  /\ map name_of (DataSourceRegistry.all registry) = DataSourceRegistry.names registry
  /\ (forall name,
        In name (DataSourceRegistry.names registry) <-> In name (map name_of sources))
  /\ (forall name,
        DataSourceRegistry.get registry name
        = find (fun source => String.eqb (name_of source) name) (rev sources)).
Proof.
  intros registry. subst registry.
  induction sources as [|source sources IH] using rev_ind.
  - simpl. repeat split; try constructor; tauto.
  - rewrite fold_left_app. simpl.
    set (registry := fold_left (DataSourceRegistry.register name_of) sources
                       DataSourceRegistry.__init__) in *.
    destruct IH as [Hnd [Hall [Hnames Hget]]].
    unfold DataSourceRegistry.register, DataSourceRegistry.names,
      DataSourceRegistry.all, DataSourceRegistry.get in *.
    split; [|split; [|split]].
    + apply NoDup_ListNoDup, dict_set_NoDup, NoDup_ListNoDup, Hnd.
    + assert (Hkeys : Forall (fun entry => name_of (snd entry) = fst entry) registry).
      { clear -Hall. induction registry as [|[k v] r IHr]; constructor.
        - simpl in Hall. now injection Hall.
        - apply IHr. simpl in Hall. now injection Hall. }
      apply (dict_set_Forall (fun entry => name_of (snd entry) = fst entry) _
               (name_of source) source eq_refl) in Hkeys.
      clear -Hkeys. induction Hkeys as [|[k v] r Hk _ IHr]; simpl; [reflexivity|].
      simpl in Hk. now rewrite Hk, IHr.
    + intros name. rewrite dict_set_keys, Hnames, map_app, in_app_iff. simpl.
      intuition.
    + intros name. rewrite dict_get_set, rev_app_distr. simpl. now rewrite Hget.
Qed.

Section SetlistFm.
Context (strptime_dmy : string -> option Py.date).

Lemma convert_loop (all_setlists : list Setlist.t) (start_date end_date : option Py.date)
    (performances : list Performance.t) :
  fold_left
    (fun performances setlist =>
       match SetlistFmSource._setlist_to_performance strptime_dmy setlist with
       | None => performances
       | Some perf =>
           match start_date, end_date with
           | Some s, Some e =>
               if Performance.overlaps_range perf s e then performances ++ [perf]
               else performances
           | _, _ => performances ++ [perf]
           end
       end)
    all_setlists performances
  = performances
    ++ flat_map
         (fun setlist =>
            match SetlistFmSource._setlist_to_performance strptime_dmy setlist with
            | None => []
            | Some perf =>
                match start_date, end_date with
                | Some s, Some e => if Performance.overlaps_range perf s e then [perf] else []
                | _, _ => [perf]
                end
            end)
         all_setlists.
Proof using Type.
  revert performances. induction all_setlists as [|setlist l IH]; intros performances; simpl.
  - now rewrite app_nil_r.
  - rewrite IH.
    destruct (SetlistFmSource._setlist_to_performance strptime_dmy setlist) as [perf|];
      [|reflexivity].
    destruct start_date as [s|], end_date as [e|]; try (now rewrite <- app_assoc).
    destruct (Performance.overlaps_range perf s e); [now rewrite <- app_assoc|reflexivity].
Qed.

Lemma convert_eq (all_setlists : list Setlist.t) (start_date end_date : option Py.date) :
  SetlistFmSource.convert strptime_dmy all_setlists start_date end_date
  = flat_map
      (fun setlist =>
         match SetlistFmSource._setlist_to_performance strptime_dmy setlist with
         | None => []
         | Some perf =>
             match start_date, end_date with
             | Some s, Some e => if Performance.overlaps_range perf s e then [perf] else []
             | _, _ => [perf]
             end
         end)
      all_setlists.
Proof using Type. unfold SetlistFmSource.convert. now rewrite convert_loop. Qed.

Lemma setlist_record (setlist : Setlist.t) (perf : Performance.t) :
  SetlistFmSource._setlist_to_performance strptime_dmy setlist = Some perf ->
  exists event_date,
    strptime_dmy (default "" (Setlist.eventDate setlist)) = Some event_date
    /\ Performance.performance_date perf = Some event_date
    /\ Performance.performance_date_range perf = None
    /\ Performance.confidence_score perf = 1%Q
    /\ Performance.source_name perf = "setlist.fm".
Proof using Type.
  unfold SetlistFmSource._setlist_to_performance, SetlistFmSource._parse_date.
  destruct (strptime_dmy (default "" (Setlist.eventDate setlist))) as [event_date|];
    [|discriminate].
  intros [= <-]. exists event_date. repeat split.
Qed.

(** X23. What the setlist.fm source makes of the setlists of a venue, when
    both ends of a window are given: every record comes from a setlist whose
    event date parses, carries that date as an exact date inside the window,
    no date range, the confidence score 1.0 and the source name
    [setlist.fm]; a setlist whose date does not parse gives no record. So
    step 3 of the pipeline, run with the same window and any valid
    threshold, includes all of these records and excludes none. *)
Theorem setlist_records_pass_the_filter_step `{Py.Repr} (all_setlists : list Setlist.t)
    (start_date end_date : Py.date) :
  let performances :=
    SetlistFmSource.convert strptime_dmy all_setlists (Some start_date) (Some end_date) in
  Forall
    (fun perf =>
       exists setlist event_date,
         In setlist all_setlists
         /\ strptime_dmy (default "" (Setlist.eventDate setlist)) = Some event_date
         /\ Performance.performance_date perf = Some event_date
         /\ Performance.performance_date_range perf = None
         /\ Performance.confidence_score perf = 1%Q
         /\ Performance.source_name perf = "setlist.fm"
         /\ Py.date_le start_date event_date = true
         /\ Py.date_le event_date end_date = true)
    performances
  /\ (forall setlist,
        strptime_dmy (default "" (Setlist.eventDate setlist)) = None ->
        SetlistFmSource._setlist_to_performance strptime_dmy setlist = None)
  /\ length performances <= length all_setlists
  /\ (forall min_confidence,
        Qle_bool 0 min_confidence && Qle_bool min_confidence 1 = true ->
        Pipeline.filter_step start_date end_date min_confidence performances
        = Py.Ok (FilterResult.mk performances [])).
Proof using Type.
  intros performances.
  assert (Hrec : Forall
                   (fun perf =>
                      exists setlist event_date,
                        In setlist all_setlists
                        /\ strptime_dmy (default "" (Setlist.eventDate setlist))
                           = Some event_date
                        /\ Performance.performance_date perf = Some event_date
                        /\ Performance.performance_date_range perf = None
                        /\ Performance.confidence_score perf = 1%Q
                        /\ Performance.source_name perf = "setlist.fm"
                        /\ Py.date_le start_date event_date = true
                        /\ Py.date_le event_date end_date = true)
                   performances
                 /\ length performances <= length all_setlists).
  { subst performances. rewrite convert_eq.
    induction all_setlists as [|setlist l [IH1 IH2]]; simpl; [split; [constructor|lia]|].
    assert (Hl : Forall
                   (fun perf =>
                      exists setlist0 event_date,
                        (setlist = setlist0 \/ In setlist0 l)
                        /\ strptime_dmy (default "" (Setlist.eventDate setlist0))
                           = Some event_date
                        /\ Performance.performance_date perf = Some event_date
                        /\ Performance.performance_date_range perf = None
                        /\ Performance.confidence_score perf = 1%Q
                        /\ Performance.source_name perf = "setlist.fm"
                        /\ Py.date_le start_date event_date = true
                        /\ Py.date_le event_date end_date = true)
                   (flat_map
                      (fun setlist =>
                         match SetlistFmSource._setlist_to_performance strptime_dmy setlist
                         with
                         | None => []
                         | Some perf =>
                             if Performance.overlaps_range perf start_date end_date
                             then [perf] else []
                         end) l)).
    { eapply List.Forall_impl; [|exact IH1]. simpl.
      intros perf [s [d [Hin Hrest]]]. exists s, d. split; [now right|exact Hrest]. }
    destruct (SetlistFmSource._setlist_to_performance strptime_dmy setlist) as [perf|] eqn:E;
      [|split; [exact Hl|simpl; lia]].
    destruct (Performance.overlaps_range perf start_date end_date) eqn:Eo;
      [|split; [exact Hl|simpl; lia]].
    split; [|simpl; lia]. simpl. constructor; [|exact Hl].
    destruct (setlist_record setlist perf E) as [d [Hd [Hdate [Hrange [Hconf Hsrc]]]]].
    exists setlist, d. unfold Performance.overlaps_range in Eo. rewrite Hdate in Eo.
    apply andb_true_iff in Eo. destruct Eo as [Hs He].
    repeat (split; [first [now left|assumption]|]). exact He. }
  destruct Hrec as [Hrec Hlen].
  split; [exact Hrec|]. split; [|split; [exact Hlen|]].
  - intros setlist Hnone.
    unfold SetlistFmSource._setlist_to_performance, SetlistFmSource._parse_date.
    now rewrite Hnone.
  - intros min_confidence Hmin. rewrite filter_step_eq by exact Hmin.
    assert (Hkeep : Forall
                      (fun perf =>
                         forallb (fun c => ConcreteFilter.keeps c perf)
                           [ConcreteFilter.DateRange
                              (DateRangeFilter.__init__ start_date end_date);
                            ConcreteFilter.Confidence (ConfidenceFilter.mk min_confidence)]
                         = true)
                      performances).
    { eapply List.Forall_impl; [|exact Hrec]. simpl.
      intros perf [s [d [_ [_ [Hdate [_ [Hconf [_ [Hs He]]]]]]]]].
      unfold DateRangeFilter.keeps, ConfidenceFilter.keeps, Performance.has_valid_date,
        Performance.overlaps_range. simpl. rewrite Hdate, Hconf, Hs, He. simpl.
      apply andb_true_iff in Hmin. destruct Hmin as [_ ->]. reflexivity. }
    cbv zeta. rewrite (filter_all_kept _ performances Hkeep).
    now rewrite (stage_exclusions_none _ performances Hkeep).
Qed.
End SetlistFm.

Lemma given_some (s : option string) (x : string) :
  s = Some x -> x <> "" -> GeminiParser.given s = Some x.
Proof. intros -> Hx. destruct x; [congruence|reflexivity]. Qed.

(** X24. What the LLM parser makes of one parsed entry: a record it returns
    has temporal evidence and a source name that starts with [parsed:]; its
    confidence score is one of 1.0, 0.9, 0.8 and 0.7, it is 0.7 for a date
    marked approximate and at most 0.8 without an exact date, so every
    confidence filter with a threshold up to 0.7, the default 0.5 among
    them, keeps the record. An entry whose date string parses always gives a
    record with that date; an entry with no date and without both ends of a
    range gives none. *)
Theorem llm_record_confidence (fromisoformat : string -> option Py.date)
    (parsed : ParsedPerformance.t) (venue_name city source_name source_reference : string) :
  let result :=
    GeminiParser._to_performance fromisoformat parsed venue_name city source_name
      source_reference in
  (forall perf, result = Some perf ->
     Performance.has_valid_date perf = true
     /\ Performance.source_name perf = ("parsed:" ++ source_name)%string
     /\ In (Performance.confidence_score perf)
          [1%Q; GeminiParser.float_0_9; GeminiParser.float_0_8; GeminiParser.float_0_7]
     /\ (ParsedPerformance.performance_date_approximate parsed = true ->
         Performance.confidence_score perf = GeminiParser.float_0_7)
     /\ (Performance.performance_date perf = None ->
         Qle_bool (Performance.confidence_score perf) GeminiParser.float_0_8 = true)
     /\ (forall min_confidence,
           Qle_bool min_confidence GeminiParser.float_0_7 = true ->
           ConfidenceFilter.keeps (ConfidenceFilter.mk min_confidence) perf = true)
     /\ ConfidenceFilter.keeps (ConfidenceFilter.mk ConfidenceFilter.default_min_confidence)
          perf = true)
  /\ (forall s d,
        ParsedPerformance.performance_date parsed = Some s -> s <> "" ->
        fromisoformat s = Some d ->
        exists perf, result = Some perf /\ Performance.performance_date perf = Some d)
  /\ (ParsedPerformance.performance_date parsed = None ->
      ParsedPerformance.date_range_start parsed = None
      \/ ParsedPerformance.date_range_end parsed = None ->
      result = None).
Proof.
  intros result.
  assert (Hkeeps : forall perf,
            In (Performance.confidence_score perf)
              [1%Q; GeminiParser.float_0_9; GeminiParser.float_0_8; GeminiParser.float_0_7] ->
            forall min_confidence,
              Qle_bool min_confidence GeminiParser.float_0_7 = true ->
              ConfidenceFilter.keeps (ConfidenceFilter.mk min_confidence) perf = true).
  { intros perf Hin min_confidence Hmin. unfold ConfidenceFilter.keeps. simpl.
    apply Qle_bool_iff. apply Qle_bool_iff in Hmin.
    eapply Qle_trans; [exact Hmin|].
    destruct Hin as [<-|[<-|[<-|[<-|[]]]]]; apply Qle_bool_iff; reflexivity. }
  split; [|split].
  - intros perf Hperf.
    assert (Hfacts : Performance.has_valid_date perf = true
              /\ Performance.source_name perf = ("parsed:" ++ source_name)%string
              /\ In (Performance.confidence_score perf)
                   [1%Q; GeminiParser.float_0_9; GeminiParser.float_0_8;
                    GeminiParser.float_0_7]
              /\ (ParsedPerformance.performance_date_approximate parsed = true ->
                  Performance.confidence_score perf = GeminiParser.float_0_7)
              /\ (Performance.performance_date perf = None ->
                  Qle_bool (Performance.confidence_score perf) GeminiParser.float_0_8
                  = true)).
    { subst result. unfold GeminiParser._to_performance in Hperf.
      destruct (match GeminiParser.given (ParsedPerformance.performance_date parsed) with
                | Some s => fromisoformat s
                | None => None
                end) as [d|];
        destruct (match GeminiParser.given (ParsedPerformance.date_range_start parsed),
                        GeminiParser.given (ParsedPerformance.date_range_end parsed) with
                  | Some a, Some b =>
                      match fromisoformat a, fromisoformat b with
                      | Some range_start, Some range_end => Some (range_start, range_end)
                      | _, _ => None
                      end
                  | _, _ => None
                  end) as [[a b]|];
        try discriminate;
        destruct (ParsedPerformance.performance_date_approximate parsed);
        destruct (PyMore.contains_str "LLM-parsed" source_name
                  || String.prefix "parsed:" source_name);
        injection Hperf as <-; simpl;
        repeat split; try discriminate; try reflexivity; try tauto. }
    destruct Hfacts as [Hdate [Hsrc [Hin [Happrox Hrange]]]].
    repeat (split; [assumption|]). split; [exact (Hkeeps perf Hin)|].
    apply (Hkeeps perf Hin). reflexivity.
  - intros s d Hs Hne Hd. subst result. unfold GeminiParser._to_performance.
    rewrite (given_some _ s Hs Hne), Hd. eexists. split; reflexivity.
  - intros Hdate Hrange. subst result. unfold GeminiParser._to_performance.
    rewrite Hdate. simpl.
    destruct Hrange as [-> | ->]; simpl; [reflexivity|].
    now destruct (GeminiParser.given (ParsedPerformance.date_range_start parsed)).
Qed.

Section Pagination.
Context (get_page : Z -> option Setlist.SetlistPage.t).

(** The setlists of the pages [page, page + 1, ...], [count] of them. *)
Lemma fetch_loop (last stop : Z) (count : nat) :
  forall (fuel : nat) (page total_pages : Z) (all_setlists : list Setlist.t),
    (forall k data, get_page k = Some data ->
       Z.max 1 (SetlistFmSource.pages_announced data) = last) ->
    (1 <= page)%Z ->
    ((page <= total_pages)%Z <-> (page <= last)%Z) ->
    stop = (page + Z.of_nat count)%Z ->
    (stop <= last + 1)%Z ->
    (forall k, (page <= k < stop)%Z -> get_page k <> None) ->
    (stop = last + 1 \/ get_page stop = None)%Z ->
    count < fuel ->
    SetlistFmSource.fetch get_page fuel page total_pages all_setlists
    = Some
        (all_setlists
           ++ flat_map
                (fun k =>
                   match get_page (Z.of_nat k) with
                   | Some data => default [] (Setlist.SetlistPage.setlist data)
                   | None => []
                   end)
                (seq (Z.to_nat page) count)).
Proof using Type.
  induction count as [|count IH];
    intros fuel page total_pages all_setlists Hsame Hpage Hinv Hstop Hlast Hpages Hend Hfuel;
    (destruct fuel as [|fuel]; [lia|]); simpl.
  - rewrite app_nil_r.
    destruct (page <=? total_pages)%Z eqn:E; [|reflexivity].
    apply Z.leb_le in E. apply Hinv in E.
    destruct Hend as [Hend|Hend]; [lia|].
    replace stop with page in Hend by lia. now rewrite Hend.
  - assert (E : (page <=? total_pages)%Z = true) by (apply Z.leb_le, Hinv; lia).
    rewrite E.
    rewrite Z2Nat.id by lia.
    destruct (get_page page) as [data|] eqn:Edata; [|exfalso; apply (Hpages page); [lia|exact Edata]].
    rewrite (IH fuel (page + 1)%Z (SetlistFmSource.pages_announced data)); try assumption; try lia.
    + rewrite <- app_assoc. replace (Z.to_nat (page + 1)) with (S (Z.to_nat page)) by lia. reflexivity.
    + pose proof (Hsame page data Edata). lia.
    + intros k Hk. apply Hpages. lia.
Qed.

(** X26. The page loop of [get_performances], for a service whose pages all
    announce the same number [n] of pages: given enough rounds it ends, it
    asks for the pages 1, 2, ... in order and each at most once, page 1 even
    when [n] is 0, and returns their setlists end to end. It stops after
    page [max(1, n)], or before the first page that fails; the setlists
    fetched before a failure are kept and the failure is not reported. *)
Theorem fetch_reads_every_page_once (n stop : Z) (fuel : nat) :
  (forall k data, get_page k = Some data -> SetlistFmSource.pages_announced data = n) ->
  (1 <= stop <= Z.max 1 n + 1)%Z ->
  (forall k, (1 <= k < stop)%Z -> get_page k <> None) ->
  (stop = Z.max 1 n + 1 \/ get_page stop = None)%Z ->
  Z.to_nat stop <= fuel ->
  SetlistFmSource.fetch_setlists get_page fuel
  = Some
      (flat_map
         (fun k =>
            match get_page (Z.of_nat k) with
            | Some data => default [] (Setlist.SetlistPage.setlist data)
            | None => []
            end)
         (seq 1 (Z.to_nat (stop - 1)))).
Proof using Type.
  intros Hsame Hstop Hpages Hend Hfuel. unfold SetlistFmSource.fetch_setlists.
  rewrite (fetch_loop (Z.max 1 n) stop (Z.to_nat (stop - 1))); try assumption; try lia.
  - reflexivity.
  - intros k data Hdata. now rewrite (Hsame k data Hdata).
Qed.
End Pagination.

Lemma fetch_reads_every_page_once_witness :
  SetlistFmSource.fetch_setlists Sample.pages 3
  = Some [Sample.setlist_of "Ramones"; Sample.setlist_of "Ramones"].
Proof.
  rewrite (fetch_reads_every_page_once Sample.pages 3 3 3).
  - reflexivity.
  - intros k data. unfold Sample.pages.
    destruct (k <=? 2)%Z; [|discriminate]. now intros [= <-].
  - lia.
  - intros k Hk. unfold Sample.pages.
    destruct (Z.leb_spec k 2) as [_|Hgt]; [discriminate|lia].
  - right. reflexivity.
  - simpl. lia.
Defined.
